(** * InvoiceDialog: cost model, job-profile store and report export

    A shallow embedding of [src/slic3r/GUI/InvoiceDialog.cpp] and
    [InvoiceDialog.hpp] (OrcaSlicer invoice generator).

    Conventions of the embedding.
    - The dialog object is a record; the spin and text controls it owns
      are cells indexed by the name of the member that points to them
      ([GetValue] reads a cell, [SetValue] overwrites it).  Static labels,
      sizers and event wiring carry no state of their own and are left out.
    - [double] arithmetic is written against the interface [Num], which
      lists exactly the operations the source uses.  Two instances are
      given: exact rationals [Q] (the arithmetic the cost formulas are
      stated in) and IEEE binary64 ([PrimFloat]), which evaluates the
      code bit for bit.  Statements that need no arithmetic law are proved
      for every instance; algebraic identities are proved over [Q].
    - [int] is [Z]; the one [int * int] product is wrapped to 32 bits (in
      C++ its overflow is undefined; the spin controls keep both factors
      within 1..1000).
    - Code that can throw ([std::stoi], [std::stod]) runs in a state and
      exception monad [M] whose state is the dialog together with the
      application objects it reaches through [wxGetApp()].
    - Library code is modelled as far as the source relies on it:
      [std::to_string], [std::stoi], [std::stod] and [std::getline] in the
      "C" locale, [AppConfig] as a string-keyed map, the output stream as
      the text that reached the file at a path, on a device that may
      refuse insertions.  What a [wxSpinCtrl] does to a value in
      [SetValue] (clamping to its range) is not part of these sources and
      is left out: a control holds the value it was given. *)

#[local] Set Warnings "-inexact-float".
From Stdlib Require Import ZArith QArith Qround Qabs Lqa Lia Floats Uint63.
From Stdlib Require Import String Ascii List DecimalString DecimalPos DecimalN DecimalZ DecimalNat.
From stdpp Require Import gmap strings list.

Import ListNotations.
Local Open Scope Z_scope.
Local Open Scope string_scope.

(** ** Numbers *)

(** The operations on [double] that occur in the source. *)
Class Num (A : Type) := {
  nadd : A -> A -> A;
  nsub : A -> A -> A;
  nmul : A -> A -> A;
  ndiv : A -> A -> A;
  nltb : A -> A -> bool;      (* [a < b] *)
  of_int : Z -> A;            (* conversion of an integer value *)
}.

Declare Scope dbl_scope.
Delimit Scope dbl_scope with dbl.
Notation "a + b" := (nadd a b) : dbl_scope.
Notation "a - b" := (nsub a b) : dbl_scope.
Notation "a * b" := (nmul a b) : dbl_scope.
Notation "a / b" := (ndiv a b) : dbl_scope.
Notation "a <? b" := (nltb a b) : dbl_scope.

(** A decimal literal [m·10^-k], e.g. [0.15] is [lit 15 2].  In binary64
    the quotient of two exactly representable integers is correctly
    rounded, so this is the value the C++ compiler gives the literal. *)
Definition lit {A} `{Num A} (m : Z) (k : nat) : A :=
  (of_int m / of_int (10 ^ Z.of_nat k))%dbl.

Definition Qltb (a b : Q) : bool := negb (Qle_bool b a).

#[export] Instance Q_Num : Num Q := {|
  nadd := Qplus; nsub := Qminus; nmul := Qmult; ndiv := Qdiv;
  nltb := Qltb; of_int := inject_Z |}.

(** Conversion of an integer to binary64, rounded to nearest with ties to
    even: the value [strtod] gives a run of digits and the compiler gives
    an integer constant.  Beyond the range of [double] it is an infinity
    (there [std::stod] throws [std::out_of_range]). *)
Definition float_of_Z (z : Z) : float :=
  SF2Prim (binary_normalize prec emax z 0 false).

#[export] Instance float_Num : Num float := {|
  nadd := PrimFloat.add; nsub := PrimFloat.sub; nmul := PrimFloat.mul;
  ndiv := PrimFloat.div; nltb := PrimFloat.ltb; of_int := float_of_Z |}.

(** ** Data model ([InvoiceDialog.hpp]) *)

Record FilamentData (A : Type) := {
  extruder_id : nat;
  name : string;
  color : string;
  weight_g : A;
  cost_per_kg : A;
  calculated_cost : A;
}.
Arguments extruder_id {A} _.
Arguments name {A} _.
Arguments color {A} _.
Arguments weight_g {A} _.
Arguments cost_per_kg {A} _.
Arguments calculated_cost {A} _.

(** The members of [PrintStatistics] the dialog reads.  [filament_stats]
    is a [std::map<size_t, double>]; the list is its iteration sequence
    (ascending keys). *)
Record PrintStatistics (A : Type) := {
  filament_stats : list (nat * A);
  total_weight : A;
  estimated_normal_print_time : string;
}.
Arguments filament_stats {A} _.
Arguments total_weight {A} _.
Arguments estimated_normal_print_time {A} _.

(** The controls, named after the members of [InvoiceDialog]. *)
Inductive TxtCtrl :=
  | m_txt_business_name | m_txt_customer_name | m_txt_customer_email
  | m_txt_customer_phone | m_txt_job_name | m_txt_job_description.

Inductive IntCtrl := m_parts_per_plate | m_num_plates.

Inductive DblCtrl :=
  | m_failure_rate
  | m_labor_rate | m_prep_time | m_setup_time
  | m_finishing_per_part | m_finishing_per_plate
  | m_printer_cost | m_printer_lifespan | m_maintenance_cost
  | m_power_watts | m_electricity_cost
  | m_bed_cost | m_bed_lifespan | m_nozzle_cost | m_nozzle_lifespan_kg
  | m_solvent_cost | m_solving_time | m_tank_power | m_finishing_materials
  | m_markup_percent.

#[export] Instance TxtCtrl_eq_dec : EqDecision TxtCtrl.
Proof. solve_decision. Defined.
#[export] Instance IntCtrl_eq_dec : EqDecision IntCtrl.
Proof. solve_decision. Defined.
#[export] Instance DblCtrl_eq_dec : EqDecision DblCtrl.
Proof. solve_decision. Defined.

(** [SetValue] on one control of a family. *)
Definition upd {K V : Type} `{EqDecision K} (f : K -> V) (k : K) (v : V) : K -> V :=
  fun k' => if decide (k = k') then v else f k'.

(** The cached calculation results ([m_calc_*]). *)
Record CalcResults (A : Type) := {
  m_calc_material_cost : A;
  m_calc_labor_cost : A;
  m_calc_machine_cost : A;
  m_calc_tooling_cost : A;
  m_calc_postprocess_cost : A;
  m_calc_subtotal : A;
  m_calc_failure_adjustment : A;
  m_calc_cost_per_part : A;
  m_calc_markup_amount : A;
  m_calc_final_price : A;
  m_calc_total_job_cost : A;
  m_calc_print_time_hours : A;
}.
Arguments m_calc_material_cost {A} _.
Arguments m_calc_labor_cost {A} _.
Arguments m_calc_machine_cost {A} _.
Arguments m_calc_tooling_cost {A} _.
Arguments m_calc_postprocess_cost {A} _.
Arguments m_calc_subtotal {A} _.
Arguments m_calc_failure_adjustment {A} _.
Arguments m_calc_cost_per_part {A} _.
Arguments m_calc_markup_amount {A} _.
Arguments m_calc_final_price {A} _.
Arguments m_calc_total_job_cost {A} _.
Arguments m_calc_print_time_hours {A} _.

(** ** Text: the pieces of the C++ standard library the source calls *)

(** Exceptions of [std::stoi] / [std::stod].  [unmodelled_value] is not a
    C++ exception: it marks stored text that [strtod] accepts but that has
    no rational value (infinities, NaN, hexadecimal floats). *)
Inductive exn := invalid_argument | out_of_range | unmodelled_value.

Definition INT_MIN : Z := - 2 ^ 31.
Definition INT_MAX : Z := 2 ^ 31 - 1.

(** Two's-complement wrap of an [int] result. *)
Definition wrap_int (z : Z) : Z := (z + 2 ^ 31) mod 2 ^ 32 - 2 ^ 31.

(** [isspace] in the C locale. *)
Definition is_space (c : ascii) : bool :=
  let n := N_of_ascii c in ((n =? 32) || ((9 <=? n) && (n <=? 13)))%N.

Definition digit_of (c : ascii) : option Z :=
  let n := N_of_ascii c in
  if ((48 <=? n) && (n <=? 57))%N then Some (Z.of_N n - 48) else None.

Definition is_digit (c : ascii) : bool :=
  match digit_of c with Some _ => true | None => false end.

Fixpoint skip_space (s : string) : string :=
  match s with
  | String c s' => if is_space c then skip_space s' else s
  | EmptyString => s
  end.

(** An optional sign: [(negative, rest)]. *)
Definition read_sign (s : string) : bool * string :=
  match s with
  | String "-" s' => (true, s')
  | String "+" s' => (false, s')
  | _ => (false, s)
  end.

(** The longest run of decimal digits at the head of [s], accumulated in
    base ten: [(value, number of digits, rest)]. *)
Fixpoint scan_digits (acc : Z) (n : nat) (s : string) : Z * nat * string :=
  match s with
  | String c s' =>
      match digit_of c with
      | Some d => scan_digits (10 * acc + d) (S n) s'
      | None => (acc, n, s)
      end
  | EmptyString => (acc, n, s)
  end.

(** [std::stoi(s)]: [strtol] in base ten, then the range check. *)
Definition stoi (s : string) : exn + Z :=
  let '(neg, s1) := read_sign (skip_space s) in
  let '(v, n, _) := scan_digits 0 0 s1 in
  match n with
  | O => inl invalid_argument
  | _ => let z := if neg then - v else v in
         if ((INT_MIN <=? z) && (z <=? INT_MAX))%Z then inr z else inl out_of_range
  end.

(** [std::to_string] on [int] and [size_t]. *)
Definition to_string_int (z : Z) : string :=
  NilZero.string_of_int (Z.to_int z).

Definition to_string_size_t (n : nat) : string :=
  NilZero.string_of_uint (Nat.to_uint n).

(** The text interface of [double]: printf's ["%.kf"] conversion, which
    serves [std::to_string(double)] (["%f"], six digits),
    [wxTextOutputStream::WriteDouble] (["%f"]) and
    [wxString::Format("%.2f ...")], and [std::stod]. *)
Class NumText (A : Type) := {
  printf_f : nat -> A -> string;
  stod : string -> exn + A;
}.

Definition to_string_double {A} `{NumText A} (x : A) : string := printf_f 6 x.

(** *** The instance for exact rationals *)

(** Round to the nearest integer, ties to even (printf's rounding of the
    digit after the last one printed). *)
Definition round_half_even (q : Q) : Z :=
  let f := Qfloor q in
  match Qcompare (2 * (q - inject_Z f))%Q 1%Q with
  | Lt => f
  | Gt => f + 1
  | Eq => if Z.even f then f else f + 1
  end.

Definition digit_char (k : Z) : ascii := ascii_of_N (Z.to_N (48 + k)).

(** The [k] digits after the point, zero padded. *)
Fixpoint frac_digits (k : nat) (m : Z) : string :=
  match k with
  | O => ""
  | S k' => String (digit_char ((m / 10 ^ Z.of_nat k') mod 10)) (frac_digits k' m)
  end.

(** [|q|] in units of [10^-k], rounded. *)
Definition scaled_units (k : nat) (q : Q) : Z :=
  round_half_even (Qabs q * inject_Z (10 ^ Z.of_nat k)).

Definition Q_printf_f (k : nat) (q : Q) : string :=
  let n := scaled_units k q in
  let p := 10 ^ Z.of_nat k in
  (if Qltb q 0 then "-" else "") ++
  NilZero.string_of_uint (N.to_uint (Z.to_N (n / p))) ++
  match k with O => "" | _ => "." ++ frac_digits k (n mod p) end.

Definition lower (c : ascii) : ascii :=
  let n := N_of_ascii c in
  if ((65 <=? n) && (n <=? 90))%N then ascii_of_N (n + 32) else c.

(** Does [s] start with [p], letters compared without case? *)
Fixpoint prefix_ci (p s : string) : bool :=
  match p, s with
  | EmptyString, _ => true
  | String a p', String b s' => Ascii.eqb a (lower b) && prefix_ci p' s'
  | String _ _, EmptyString => false
  end.

(** Does [s] start with a spelling [strtod] reads as infinity, NaN or a
    hexadecimal float?  (Every text that starts with [0x] is counted as
    the latter.) *)
Definition special_prefix (s : string) : bool :=
  prefix_ci "inf" s || prefix_ci "nan" s || prefix_ci "0x" s.

(** The exponent part [e[+-]ddd]; it counts only when a digit follows. *)
Definition read_exponent (s : string) : Z :=
  match s with
  | String c s' =>
      if Ascii.eqb (lower c) "e" then
        let '(neg, s1) := read_sign s' in
        let '(v, n, _) := scan_digits 0 0 s1 in
        match n with O => 0 | _ => if neg then - v else v end
      else 0
  | EmptyString => 0
  end.

(** [std::stod] on exact rationals: [strtod]'s decimal syntax.  No
    rounding takes place, so [out_of_range] cannot arise. *)
Definition Q_stod (s : string) : exn + Q :=
  let '(neg, s1) := read_sign (skip_space s) in
  if special_prefix s1 then inl unmodelled_value else
  let '(ip, ni, s2) := scan_digits 0 0 s1 in
  let '(m, nf, s3) :=
    match s2 with
    | String "." s2' => let '(m, nf, s3) := scan_digits ip 0 s2' in (m, nf, s3)
    | _ => (ip, O, s2)
    end in
  match (ni + nf)%nat with
  | O => inl invalid_argument
  | _ =>
      let e := read_exponent s3 in
      let v := (inject_Z m * Qpower (inject_Z 10) (e - Z.of_nat nf))%Q in
      inr (if neg then Qopp v else v)
  end.

#[export] Instance Q_NumText : NumText Q := {|
  printf_f := Q_printf_f; stod := Q_stod |}.

(** The items a [while (std::getline(ss, item, ';'))] loop sees: an item
    ends at each [';'], and a last item without [';'] counts only when it is
    not empty. *)
Fixpoint getlines (s : string) : list string :=
  match s with
  | EmptyString => []
  | String c s' =>
      if Ascii.eqb c ";" then "" :: getlines s'
      else match getlines s' with
           | [] => [String c ""]
           | item :: items => String c item :: items
           end
  end.

(** ** The dialog and the application objects it reaches *)

(** A [ConfigOption] as [get_val] probes it with [dynamic_cast]. *)
Inductive ConfigOption (A : Type) :=
  | ConfigOptionStrings (values : list string)
  | ConfigOptionFloats (values : list A)
  | ConfigOptionInts (values : list Z)
  | ConfigOptionOther.
Arguments ConfigOptionStrings {A} _.
Arguments ConfigOptionFloats {A} _.
Arguments ConfigOptionInts {A} _.
Arguments ConfigOptionOther {A}.

Record PresetBundle (A : Type) := {
  project_config : gmap string (ConfigOption A);
  filament_presets : list string;
}.
Arguments project_config {A} _.
Arguments filament_presets {A} _.

(** [wxGetApp().app_config] and [wxGetApp().preset_bundle] may be null.
    [AppConfig] is the flat string-keyed store behind [get(key)] and
    [set(key, value)].  [files] is the file system seen by
    [wxFFileOutputStream], [can_open] tells which paths it can open for
    writing, and [message_boxes] logs the [wxMessageBox] calls. *)
Record InvoiceDialog (A : Type) := {
  app_config : option (gmap string string);
  preset_bundle : option (PresetBundle A);
  files : gmap string string;
  can_open : string -> bool;
  message_boxes : list string;
  m_stats : option (PrintStatistics A);
  m_filament_data : list (FilamentData A);
  txt : TxtCtrl -> string;
  spin : IntCtrl -> Z;
  dspin : DblCtrl -> A;
  m_combo_job_profiles : list string;
  calc : CalcResults A;
}.
Arguments app_config {A} _.
Arguments preset_bundle {A} _.
Arguments files {A} _.
Arguments can_open {A} _.
Arguments message_boxes {A} _.
Arguments m_stats {A} _.
Arguments m_filament_data {A} _.
Arguments txt {A} _ _.
Arguments spin {A} _ _.
Arguments dspin {A} _ _.
Arguments m_combo_job_profiles {A} _.
Arguments calc {A} _.

Section Setters.
Context {A : Type}.
Implicit Type d : InvoiceDialog A.

Definition with_app_config d v : InvoiceDialog A :=
  {| app_config := v; preset_bundle := preset_bundle d; files := files d;
     can_open := can_open d; message_boxes := message_boxes d;
     m_stats := m_stats d; m_filament_data := m_filament_data d;
     txt := txt d; spin := spin d; dspin := dspin d;
     m_combo_job_profiles := m_combo_job_profiles d; calc := calc d |}.

Definition with_files d v : InvoiceDialog A :=
  {| app_config := app_config d; preset_bundle := preset_bundle d; files := v;
     can_open := can_open d; message_boxes := message_boxes d;
     m_stats := m_stats d; m_filament_data := m_filament_data d;
     txt := txt d; spin := spin d; dspin := dspin d;
     m_combo_job_profiles := m_combo_job_profiles d; calc := calc d |}.

Definition with_message_boxes d v : InvoiceDialog A :=
  {| app_config := app_config d; preset_bundle := preset_bundle d; files := files d;
     can_open := can_open d; message_boxes := v;
     m_stats := m_stats d; m_filament_data := m_filament_data d;
     txt := txt d; spin := spin d; dspin := dspin d;
     m_combo_job_profiles := m_combo_job_profiles d; calc := calc d |}.

Definition with_filament_data d v : InvoiceDialog A :=
  {| app_config := app_config d; preset_bundle := preset_bundle d; files := files d;
     can_open := can_open d; message_boxes := message_boxes d;
     m_stats := m_stats d; m_filament_data := v;
     txt := txt d; spin := spin d; dspin := dspin d;
     m_combo_job_profiles := m_combo_job_profiles d; calc := calc d |}.

Definition with_txt d v : InvoiceDialog A :=
  {| app_config := app_config d; preset_bundle := preset_bundle d; files := files d;
     can_open := can_open d; message_boxes := message_boxes d;
     m_stats := m_stats d; m_filament_data := m_filament_data d;
     txt := v; spin := spin d; dspin := dspin d;
     m_combo_job_profiles := m_combo_job_profiles d; calc := calc d |}.

Definition with_spin d v : InvoiceDialog A :=
  {| app_config := app_config d; preset_bundle := preset_bundle d; files := files d;
     can_open := can_open d; message_boxes := message_boxes d;
     m_stats := m_stats d; m_filament_data := m_filament_data d;
     txt := txt d; spin := v; dspin := dspin d;
     m_combo_job_profiles := m_combo_job_profiles d; calc := calc d |}.

Definition with_dspin d v : InvoiceDialog A :=
  {| app_config := app_config d; preset_bundle := preset_bundle d; files := files d;
     can_open := can_open d; message_boxes := message_boxes d;
     m_stats := m_stats d; m_filament_data := m_filament_data d;
     txt := txt d; spin := spin d; dspin := v;
     m_combo_job_profiles := m_combo_job_profiles d; calc := calc d |}.

Definition with_combo d v : InvoiceDialog A :=
  {| app_config := app_config d; preset_bundle := preset_bundle d; files := files d;
     can_open := can_open d; message_boxes := message_boxes d;
     m_stats := m_stats d; m_filament_data := m_filament_data d;
     txt := txt d; spin := spin d; dspin := dspin d;
     m_combo_job_profiles := v; calc := calc d |}.

Definition with_calc d v : InvoiceDialog A :=
  {| app_config := app_config d; preset_bundle := preset_bundle d; files := files d;
     can_open := can_open d; message_boxes := message_boxes d;
     m_stats := m_stats d; m_filament_data := m_filament_data d;
     txt := txt d; spin := spin d; dspin := dspin d;
     m_combo_job_profiles := m_combo_job_profiles d; calc := v |}.
End Setters.

(** *** The state and exception monad *)

Definition M (A X : Type) : Type := InvoiceDialog A -> InvoiceDialog A * (exn + X).

Definition ret {A X} (x : X) : M A X := fun d => (d, inr x).
Definition throw {A X} (e : exn) : M A X := fun d => (d, inl e).
Definition bind {A X Y} (c : M A X) (k : X -> M A Y) : M A Y :=
  fun d => match c d with
           | (d', inr x) => k x d'
           | (d', inl e) => (d', inl e)
           end.
(** A call that either returns or throws. *)
Definition call {A X} (r : exn + X) : M A X := fun d => (d, r).
(** A statement that updates the dialog and cannot throw. *)
Definition modify {A} (f : InvoiceDialog A -> InvoiceDialog A) : M A unit :=
  fun d => (f d, inr tt).

Declare Scope M_scope.
Delimit Scope M_scope with M.
Notation "x <- c ;; k" := (bind c (fun x => k))
  (at level 100, c at next level, right associativity) : M_scope.
Notation "c ;; k" := (bind c (fun _ => k))
  (at level 100, right associativity) : M_scope.

(** [ctrl->SetValue(v)] for the three families of controls. *)
Definition SetValue_txt {A} (c : TxtCtrl) (v : string) : M A unit :=
  modify (fun d => with_txt d (upd (txt d) c v)).
Definition SetValue_int {A} (c : IntCtrl) (v : Z) : M A unit :=
  modify (fun d => with_spin d (upd (spin d) c v)).
Definition SetValue_dbl {A} (c : DblCtrl) (v : A) : M A unit :=
  modify (fun d => with_dspin d (upd (dspin d) c v)).

(** [AppConfig::get]: an absent key reads as the empty string. *)
Definition config_get (config : gmap string string) (key : string) : string :=
  match config !! key with Some v => v | None => "" end.
Definition config_set (key val : string) (config : gmap string string) : gmap string string :=
  <[key := val]> config.

Definition emptyb (s : string) : bool :=
  match s with EmptyString => true | _ => false end.

(** ** The cost model *)

Section CostModel.
Context {A : Type} `{Num A}.
Local Open Scope dbl_scope.

(** Does [s] continue with optional white space and then the unit letter? *)
Fixpoint unit_follows (u : ascii) (s : string) : bool :=
  match s with
  | String c s' =>
      if Ascii.eqb c u then true
      else if is_space c then unit_follows u s' else false
  | EmptyString => false
  end.

(** [std::regex_search] with the pattern [(\d+)\s*u]: the value of the
    first run of digits that is followed by optional white space and the
    letter [u].  [run] is the digit run being read, if any. *)
Fixpoint regex_search_unit (u : ascii) (run : option Z) (s : string) : option Z :=
  match s with
  | String c s' =>
      match digit_of c with
      | Some k => regex_search_unit u (Some (10 * (match run with Some v => v | None => 0 end) + k)%Z) s'
      | None =>
          match run with
          | Some v => if unit_follows u s then Some v else regex_search_unit u None s'
          | None => regex_search_unit u None s'
          end
      end
  | EmptyString => None
  end.

(** [std::stod(match[1])] is applied to a run of digits: it is the
    conversion of the run's value.  A run whose value is beyond the range
    of [double] (more than 308 digits) makes [std::stod] throw
    [std::out_of_range]; such a time text is outside this function, which
    stands for the calls that return. *)
Definition parse_time_to_hours (time_str : string) : A :=
  let hours := of_int 0 in
  let hours := match regex_search_unit "d" None time_str with
               | Some v => hours + of_int v * of_int 24 | None => hours end in
  let hours := match regex_search_unit "h" None time_str with
               | Some v => hours + of_int v | None => hours end in
  let hours := match regex_search_unit "m" None time_str with
               | Some v => hours + of_int v / of_int 60 | None => hours end in
  let hours := match regex_search_unit "s" None time_str with
               | Some v => hours + of_int v / of_int 3600 | None => hours end in
  hours.

(** The range-for loops that sum over [m_filament_data]. *)
Definition sum_over (f : FilamentData A -> A) (l : list (FilamentData A)) : A :=
  fold_left (fun acc d => acc + f d) l (of_int 0).

Definition calculate_costs (d : InvoiceDialog A) : InvoiceDialog A :=
  let total_material_cost := sum_over calculated_cost (m_filament_data d) in
  let print_time_hours :=
    match m_stats d with
    | Some stats => parse_time_to_hours (estimated_normal_print_time stats)
    | None => of_int 0
    end in
  let parts_per_plate := spin d m_parts_per_plate in
  let num_plates := spin d m_num_plates in
  let failure_rate := dspin d m_failure_rate / of_int 100 in
  let labor_rate := dspin d m_labor_rate in
  let prep_time := dspin d m_prep_time in
  let setup_time := dspin d m_setup_time in
  let finishing_per_part := dspin d m_finishing_per_part in
  let finishing_per_plate := dspin d m_finishing_per_plate in
  let printer_cost := dspin d m_printer_cost in
  let printer_lifespan := dspin d m_printer_lifespan in
  let maintenance_cost := dspin d m_maintenance_cost in
  let power_watts := dspin d m_power_watts in
  let electricity_cost := dspin d m_electricity_cost in
  let bed_cost := dspin d m_bed_cost in
  let bed_lifespan := dspin d m_bed_lifespan in
  let nozzle_cost := dspin d m_nozzle_cost in
  let nozzle_lifespan_kg := dspin d m_nozzle_lifespan_kg in
  let solvent_cost := dspin d m_solvent_cost in
  let solving_time := dspin d m_solving_time in
  let tank_power := dspin d m_tank_power in
  let finishing_materials := dspin d m_finishing_materials in
  let markup_percent := dspin d m_markup_percent / of_int 100 in
  let calc_material_cost := total_material_cost in
  let labor_time_minutes :=
    prep_time + setup_time + (finishing_per_part * of_int parts_per_plate) + finishing_per_plate in
  let calc_labor_cost := (labor_time_minutes / of_int 60) * labor_rate in
  let depreciation_per_hour := printer_cost / printer_lifespan in
  let power_cost_per_hour := (power_watts / of_int 1000) * electricity_cost in
  let machine_hourly_rate := depreciation_per_hour + maintenance_cost + power_cost_per_hour in
  let calc_machine_cost := machine_hourly_rate * print_time_hours in
  let c_bed := (bed_cost / bed_lifespan) * print_time_hours in
  let total_filament_kg := sum_over (fun x => weight_g x / of_int 1000) (m_filament_data d) in
  let c_nozzle := (nozzle_cost / nozzle_lifespan_kg) * total_filament_kg in
  let calc_tooling_cost := c_bed + c_nozzle in
  let c_tank_power := (tank_power / of_int 1000) * electricity_cost * solving_time in
  let calc_postprocess_cost := c_tank_power + finishing_materials in
  let calc_subtotal :=
    calc_material_cost + calc_labor_cost + calc_machine_cost + calc_tooling_cost
    + calc_postprocess_cost in
  let calc_failure_adjustment :=
    if failure_rate <? of_int 1
    then (calc_subtotal / (of_int 1 - failure_rate)) - calc_subtotal
    else of_int 0 in
  let total_plate_cost := calc_subtotal + calc_failure_adjustment in
  let calc_cost_per_part :=
    if (parts_per_plate >? 0)%Z then total_plate_cost / of_int parts_per_plate
    else total_plate_cost in
  let calc_markup_amount := calc_cost_per_part * markup_percent in
  let calc_final_price := calc_cost_per_part + calc_markup_amount in
  let total_parts := wrap_int (parts_per_plate * num_plates) in
  let calc_total_job_cost := calc_final_price * of_int total_parts in
  with_calc d
    {| m_calc_material_cost := calc_material_cost;
       m_calc_labor_cost := calc_labor_cost;
       m_calc_machine_cost := calc_machine_cost;
       m_calc_tooling_cost := calc_tooling_cost;
       m_calc_postprocess_cost := calc_postprocess_cost;
       m_calc_subtotal := calc_subtotal;
       m_calc_failure_adjustment := calc_failure_adjustment;
       m_calc_cost_per_part := calc_cost_per_part;
       m_calc_markup_amount := calc_markup_amount;
       m_calc_final_price := calc_final_price;
       m_calc_total_job_cost := calc_total_job_cost;
       m_calc_print_time_hours := print_time_hours |}.
End CostModel.

(** The defaults the constructor gives [m_current_job] (and the controls
    are created with). *)
Section Defaults.
Context {A : Type} `{Num A}.

Definition default_int (c : IntCtrl) : Z :=
  match c with
  | m_parts_per_plate => 1
  | m_num_plates => 1
  end.

Definition default_dbl (c : DblCtrl) : A :=
  match c with
  | m_failure_rate => of_int 5
  | m_labor_rate => of_int 20
  | m_prep_time => of_int 15
  | m_setup_time => of_int 10
  | m_finishing_per_part => of_int 5
  | m_finishing_per_plate => of_int 0
  | m_printer_cost => of_int 300
  | m_printer_lifespan => of_int 15000
  | m_maintenance_cost => lit 10 2
  | m_power_watts => of_int 130
  | m_electricity_cost => lit 15 2
  | m_bed_cost => of_int 30
  | m_bed_lifespan => of_int 5000
  | m_nozzle_cost => of_int 2
  | m_nozzle_lifespan_kg => of_int 25
  | m_solvent_cost => of_int 0
  | m_solving_time => of_int 0
  | m_tank_power => of_int 0
  | m_finishing_materials => of_int 0
  | m_markup_percent => of_int 50
  end.
End Defaults.

(** ** The filament usage resolver *)

Section Resolver.
Context {A : Type} `{Num A} `{NumText A}.
Local Open Scope dbl_scope.

(** The lambda [get_val] of [populate_filament_data]. *)
Definition get_val (presets : PresetBundle A) (key : string) (idx : nat) : string :=
  match project_config presets !! key with
  | None => ""
  | Some (ConfigOptionStrings values) =>
      match values !! idx with Some v => v | None => "" end
  | Some (ConfigOptionFloats values) =>
      match values !! idx with Some v => to_string_double v | None => "" end
  | Some (ConfigOptionInts values) =>
      match values !! idx with Some v => to_string_int v | None => "" end
  | Some ConfigOptionOther => ""
  end.

(** [if (!str.empty()) x = std::stod(str);] with [x] holding [def]. *)
Definition stod_or (str : string) (def : A) : exn + A :=
  if emptyb str then inr def else stod str.

(** The value of the literal [3.14159265359]. *)
Definition pi_literal : A := lit 314159265359 11.

(** The body of the loop over [m_stats->filament_stats]. *)
Definition resolve_filament (presets : PresetBundle A) (stats : PrintStatistics A)
    (extruder_id : nat) (usage : A) : M A unit :=
  (let filament_name :=
     match filament_presets presets !! extruder_id with
     | Some n => n
     | None => "Filament " ++ to_string_size_t (extruder_id + 1)
     end in
   let col := get_val presets "filament_colour" extruder_id in
   let color := if emptyb col then "#808080" else col in
   cost_per_kg <- call (stod_or (get_val presets "filament_cost" extruder_id) (of_int 20)) ;;
   density <- call (stod_or (get_val presets "filament_density" extruder_id) (lit 124 2)) ;;
   diameter <- call (stod_or (get_val presets "filament_diameter" extruder_id) (lit 175 2)) ;;
   let radius := diameter / of_int 2 in
   let area := pi_literal * radius * radius in
   let volume_mm3 := usage * area in
   let weight := volume_mm3 * density / of_int 1000 in
   let weight :=
     if (length (filament_stats stats) =? 1)%nat && (of_int 0 <? total_weight stats)
     then total_weight stats else weight in
   modify (fun d => with_filament_data d (m_filament_data d ++
     [{| extruder_id := extruder_id; name := filament_name; color := color;
         weight_g := weight; cost_per_kg := cost_per_kg;
         calculated_cost := (weight / of_int 1000) * cost_per_kg |}])))%M.

Fixpoint for_each_usage (body : nat -> A -> M A unit) (l : list (nat * A)) : M A unit :=
  match l with
  | [] => ret tt
  | (extruder_id, usage) :: l' => (body extruder_id usage ;; for_each_usage body l')%M
  end.

Definition populate_filament_data : M A unit :=
  (modify (fun d => with_filament_data d []) ;;
   fun d =>
     match m_stats d, preset_bundle d with
     | Some stats, Some presets =>
         (for_each_usage (resolve_filament presets stats) (filament_stats stats) ;;
          modify (fun d =>
            match m_filament_data d with
            | [] =>
                if of_int 0 <? total_weight stats then
                  with_filament_data d
                    [{| extruder_id := 0; name := "Default Filament"; color := "#808080";
                        weight_g := total_weight stats; cost_per_kg := of_int 20;
                        calculated_cost := (total_weight stats / of_int 1000) * of_int 20 |}]
                else d
            | _ :: _ => d
            end)) d
     | _, _ => ret tt d
     end)%M.

(** [on_filament_cost_changed], after [val.ToDouble(&new_cost)] has
    succeeded with [new_cost] for the cell in row [row], column [col]. *)
Definition on_filament_cost_changed (row col : Z) (new_cost : A) (d : InvoiceDialog A)
    : InvoiceDialog A :=
  if ((col =? 3) && (0 <=? row) && (row <? Z.of_nat (length (m_filament_data d))))%Z then
    match m_filament_data d !! Z.to_nat row with
    | Some f =>
        let f' := {| extruder_id := extruder_id f; name := name f; color := color f;
                     weight_g := weight_g f; cost_per_kg := new_cost;
                     calculated_cost := (weight_g f / of_int 1000) * new_cost |} in
        calculate_costs (with_filament_data d (<[Z.to_nat row := f']> (m_filament_data d)))
    | None => d
    end
  else d.
End Resolver.

(** ** The job-profile store *)

Section ProfileStore.
Context {A : Type} `{Num A} `{NumText A}.

(** [for (const auto& p : profiles) new_list += p + ";";] *)
Definition join_profiles (profiles : list string) : string :=
  fold_left (fun new_list p => new_list ++ (p ++ ";")) profiles "".

Definition refresh_job_profiles_combo (d : InvoiceDialog A) : InvoiceDialog A :=
  let d := with_combo d [] in
  match app_config d with
  | None => d
  | Some config =>
      let profiles_str := config_get config "invoice_profiles" in
      with_combo d (List.filter (fun item => negb (emptyb item)) (getlines profiles_str))
  end.

Definition load_job_profile (profile_name : string) : M A unit :=
  fun d =>
  match app_config d with
  | None => ret tt d
  | Some config =>
    if emptyb profile_name then ret tt d else
    (let prefix := "invoice_job_" ++ profile_name ++ "_" in
     let get_str key := config_get config (prefix ++ key) in
     let get_int key (def : Z) : M A Z :=
       let v := get_str key in call (if emptyb v then inr def else stoi v) in
     let get_dbl key (def : A) : M A A :=
       let v := get_str key in call (if emptyb v then inr def else stod v) in
     SetValue_txt m_txt_customer_name (get_str "customer_name") ;;
     SetValue_txt m_txt_customer_email (get_str "customer_email") ;;
     SetValue_txt m_txt_customer_phone (get_str "customer_phone") ;;
     SetValue_txt m_txt_job_name (get_str "job_name") ;;
     SetValue_txt m_txt_job_description (get_str "job_description") ;;
     (v <- get_int "parts_per_plate" 1 ;; SetValue_int m_parts_per_plate v) ;;
     (v <- get_int "num_plates" 1 ;; SetValue_int m_num_plates v) ;;
     (v <- get_dbl "failure_rate" (of_int 5) ;; SetValue_dbl m_failure_rate v) ;;
     (v <- get_dbl "labor_rate" (of_int 20) ;; SetValue_dbl m_labor_rate v) ;;
     (v <- get_dbl "prep_time" (of_int 15) ;; SetValue_dbl m_prep_time v) ;;
     (v <- get_dbl "setup_time" (of_int 10) ;; SetValue_dbl m_setup_time v) ;;
     (v <- get_dbl "finishing_per_part" (of_int 5) ;; SetValue_dbl m_finishing_per_part v) ;;
     (v <- get_dbl "finishing_per_plate" (of_int 0) ;; SetValue_dbl m_finishing_per_plate v) ;;
     (v <- get_dbl "printer_cost" (of_int 300) ;; SetValue_dbl m_printer_cost v) ;;
     (v <- get_dbl "printer_lifespan" (of_int 15000) ;; SetValue_dbl m_printer_lifespan v) ;;
     (v <- get_dbl "maintenance_cost" (lit 10 2) ;; SetValue_dbl m_maintenance_cost v) ;;
     (v <- get_dbl "power_watts" (of_int 130) ;; SetValue_dbl m_power_watts v) ;;
     (v <- get_dbl "electricity_cost" (lit 15 2) ;; SetValue_dbl m_electricity_cost v) ;;
     (v <- get_dbl "bed_cost" (of_int 30) ;; SetValue_dbl m_bed_cost v) ;;
     (v <- get_dbl "bed_lifespan" (of_int 5000) ;; SetValue_dbl m_bed_lifespan v) ;;
     (v <- get_dbl "nozzle_cost" (of_int 2) ;; SetValue_dbl m_nozzle_cost v) ;;
     (v <- get_dbl "nozzle_lifespan_kg" (of_int 25) ;; SetValue_dbl m_nozzle_lifespan_kg v) ;;
     (v <- get_dbl "solvent_cost" (of_int 0) ;; SetValue_dbl m_solvent_cost v) ;;
     (v <- get_dbl "solving_time" (of_int 0) ;; SetValue_dbl m_solving_time v) ;;
     (v <- get_dbl "tank_power" (of_int 0) ;; SetValue_dbl m_tank_power v) ;;
     (v <- get_dbl "finishing_materials" (of_int 0) ;; SetValue_dbl m_finishing_materials v) ;;
     (v <- get_dbl "markup_percent" (of_int 50) ;; SetValue_dbl m_markup_percent v) ;;
     modify calculate_costs)%M d
  end.

(** The [set_val] calls of [save_job_profile]: the data keys. *)
Definition save_profile_fields (prefix : string) (d : InvoiceDialog A)
    (config : gmap string string) : gmap string string :=
  let set_val key val (config : gmap string string) := config_set (prefix ++ key) val config in
  let config := set_val "customer_name" (txt d m_txt_customer_name) config in
  let config := set_val "customer_email" (txt d m_txt_customer_email) config in
  let config := set_val "customer_phone" (txt d m_txt_customer_phone) config in
  let config := set_val "job_name" (txt d m_txt_job_name) config in
  let config := set_val "job_description" (txt d m_txt_job_description) config in
  let config := set_val "parts_per_plate" (to_string_int (spin d m_parts_per_plate)) config in
  let config := set_val "num_plates" (to_string_int (spin d m_num_plates)) config in
  let config := set_val "failure_rate" (to_string_double (dspin d m_failure_rate)) config in
  let config := set_val "labor_rate" (to_string_double (dspin d m_labor_rate)) config in
  let config := set_val "prep_time" (to_string_double (dspin d m_prep_time)) config in
  let config := set_val "setup_time" (to_string_double (dspin d m_setup_time)) config in
  let config := set_val "finishing_per_part" (to_string_double (dspin d m_finishing_per_part)) config in
  let config := set_val "finishing_per_plate" (to_string_double (dspin d m_finishing_per_plate)) config in
  let config := set_val "printer_cost" (to_string_double (dspin d m_printer_cost)) config in
  let config := set_val "printer_lifespan" (to_string_double (dspin d m_printer_lifespan)) config in
  let config := set_val "maintenance_cost" (to_string_double (dspin d m_maintenance_cost)) config in
  let config := set_val "power_watts" (to_string_double (dspin d m_power_watts)) config in
  let config := set_val "electricity_cost" (to_string_double (dspin d m_electricity_cost)) config in
  let config := set_val "bed_cost" (to_string_double (dspin d m_bed_cost)) config in
  let config := set_val "bed_lifespan" (to_string_double (dspin d m_bed_lifespan)) config in
  let config := set_val "nozzle_cost" (to_string_double (dspin d m_nozzle_cost)) config in
  let config := set_val "nozzle_lifespan_kg" (to_string_double (dspin d m_nozzle_lifespan_kg)) config in
  let config := set_val "solvent_cost" (to_string_double (dspin d m_solvent_cost)) config in
  let config := set_val "solving_time" (to_string_double (dspin d m_solving_time)) config in
  let config := set_val "tank_power" (to_string_double (dspin d m_tank_power)) config in
  let config := set_val "finishing_materials" (to_string_double (dspin d m_finishing_materials)) config in
  let config := set_val "markup_percent" (to_string_double (dspin d m_markup_percent)) config in
  config.

(** The registry part of [save_job_profile]. *)
Definition register_profile (profile_name : string) (config : gmap string string)
    : gmap string string :=
  let profiles_str := config_get config "invoice_profiles" in
  let profiles := getlines profiles_str in
  let found := existsb (fun item => String.eqb item profile_name) profiles in
  if found then config
  else config_set "invoice_profiles" (join_profiles (profiles ++ [profile_name])) config.

(** [config->save()] flushes the store to disk and has no effect on the
    state modelled here. *)
Definition save_job_profile (profile_name : string) (d : InvoiceDialog A) : InvoiceDialog A :=
  match app_config d with
  | None => d
  | Some config =>
    if emptyb profile_name then d else
    let prefix := "invoice_job_" ++ profile_name ++ "_" in
    let config := save_profile_fields prefix d config in
    let config := register_profile profile_name config in
    refresh_job_profiles_combo (with_app_config d (Some config))
  end.

Definition delete_job_profile (profile_name : string) (d : InvoiceDialog A) : InvoiceDialog A :=
  match app_config d with
  | None => d
  | Some config =>
    if emptyb profile_name then d else
    let profiles_str := config_get config "invoice_profiles" in
    let new_list :=
      fold_left (fun new_list item =>
                   if negb (String.eqb item profile_name) then new_list ++ (item ++ ";")
                   else new_list)
                (getlines profiles_str) "" in
    let config := config_set "invoice_profiles" new_list config in
    refresh_job_profiles_combo (with_app_config d (Some config))
  end.
End ProfileStore.

(** ** The report exporter *)

(** A C++ string literal of the source, written with a backquote for the
    escaped double quote and a tilde for the newline escape (neither
    character occurs in the literals of [export_to_excel]). *)
Fixpoint cxx (s : string) : string :=
  match s with
  | EmptyString => EmptyString
  | String c s' =>
      String (if Ascii.eqb c "`" then "034"%char
              else if Ascii.eqb c "~" then "010"%char else c) (cxx s')
  end.

Fixpoint escape_xml (str : string) : string :=
  match str with
  | EmptyString => ""
  | String c str' =>
      (match c with
       | "&"%char => "&amp;"
       | "<"%char => "&lt;"
       | ">"%char => "&gt;"
       | "034"%char => "&quot;"
       | "'"%char => "&apos;"
       | _ => String c ""
       end) ++ escape_xml str'
  end.

(** The text a stream holds after the chunks were inserted in order. *)
Definition stream_text (chunks : list string) : string :=
  fold_right String.append "" chunks.

(** A [wxTextOutputStream] over a [wxFFileOutputStream]: the text that
    reached the file and the number of insertions made so far.  An
    insertion ([operator<<]) the device does not take is lost; the stream
    then reports an error, which only a test of the stream would show. *)
Record OutputStream := {
  written : string;
  insertions : nat;
}.

Definition opened : OutputStream := {| written := ""; insertions := 0 |}.

(** [file << chunk], on a device that takes the insertions [i] with
    [device i = true]. *)
Definition insert (device : nat -> bool) (file : OutputStream) (chunk : string)
    : OutputStream :=
  {| written := if device (insertions file) then written file ++ chunk else written file;
     insertions := S (insertions file) |}.

Section ReportExport.
Context {A : Type} `{Num A} `{NumText A}.

(** [wxTextOutputStream::operator<<(double)] prints with ["%f"]. *)
Definition WriteDouble (x : A) : string := printf_f 6 x.

(** The lambda [add_cost_row]. *)
Definition add_cost_row (label : string) (val : A) : list string :=
  [ cxx "<Row>~";
    cxx "<Cell><Data ss:Type=`String`>"; label; cxx "</Data></Cell>~";
    cxx "<Cell ss:StyleID=`sCurrency`><Data ss:Type=`Number`>"; WriteDouble val; cxx "</Data></Cell>~";
    cxx "</Row>~" ].

(** Everything [export_to_excel] inserts into [file], one list element
    for each operand of [<<]; [date] is [wxDateTime::Now().FormatDate()]. *)
Definition report_chunks (date : string) (d : InvoiceDialog A) : list string :=
  [ cxx "<?xml version=`1.0`?>~";
    cxx "<?mso-application progid=`Excel.Sheet`?>~";
    cxx "<Workbook xmlns=`urn:schemas-microsoft-com:office:spreadsheet`~";
    cxx " xmlns:o=`urn:schemas-microsoft-com:office:office`~";
    cxx " xmlns:x=`urn:schemas-microsoft-com:office:excel`~";
    cxx " xmlns:ss=`urn:schemas-microsoft-com:office:spreadsheet`~";
    cxx " xmlns:html=`http://www.w3.org/TR/REC-html40`>~";
    cxx "<Styles>~";
    cxx " <Style ss:ID=`Default` ss:Name=`Normal`>~";
    cxx "  <Alignment ss:Vertical=`Bottom`/>~";
    cxx "  <Borders/>~";
    cxx "  <Font ss:FontName=`Calibri` x:Family=`Swiss` ss:Size=`11` ss:Color=`#000000`/>~";
    cxx "  <Interior/>~";
    cxx "  <NumberFormat/>~";
    cxx "  <Protection/>~";
    cxx " </Style>~";
    cxx " <Style ss:ID=`sHeader`>~";
    cxx "  <Font ss:FontName=`Calibri` x:Family=`Swiss` ss:Size=`14` ss:Bold=`1`/>~";
    cxx "  <Alignment ss:Horizontal=`Center`/>~";
    cxx " </Style>~";
    cxx " <Style ss:ID=`sBold`>~";
    cxx "  <Font ss:FontName=`Calibri` x:Family=`Swiss` ss:Size=`11` ss:Bold=`1`/>~";
    cxx " </Style>~";
    cxx " <Style ss:ID=`sCurrency`>~";
    cxx "  <NumberFormat ss:Format=`$#,##0.00`/>~";
    cxx " </Style>~";
    cxx " <Style ss:ID=`sCurrencyBold`>~";
    cxx "  <Font ss:FontName=`Calibri` x:Family=`Swiss` ss:Size=`11` ss:Bold=`1`/>~";
    cxx "  <NumberFormat ss:Format=`$#,##0.00`/>~";
    cxx " </Style>~";
    cxx "</Styles>~";
    cxx "<Worksheet ss:Name=`Invoice`>~";
    cxx "<Table ss:ExpandedColumnCount=`5` x:FullColumns=`1` x:FullRows=`1` ss:DefaultRowHeight=`15`>~";
    cxx "<Column ss:Width=`150`/>~";
    cxx "<Column ss:Width=`100`/>~";
    cxx "<Column ss:Width=`100`/>~";
    cxx "<Row ss:Height=`20`>~";
    cxx "<Cell ss:MergeAcross=`4` ss:StyleID=`sHeader`><Data ss:Type=`String`>INVOICE</Data></Cell>~";
    cxx "</Row>~";
    cxx "<Row><Cell><Data ss:Type=`String`></Data></Cell></Row>~";
    cxx "<Row><Cell ss:StyleID=`sBold`><Data ss:Type=`String`>From:</Data></Cell><Cell><Data ss:Type=`String`>"; escape_xml (txt d m_txt_business_name); cxx "</Data></Cell></Row>~";
    cxx "<Row><Cell><Data ss:Type=`String`></Data></Cell></Row>~";
    cxx "<Row><Cell ss:StyleID=`sBold`><Data ss:Type=`String`>To:</Data></Cell><Cell><Data ss:Type=`String`>"; escape_xml (txt d m_txt_customer_name); cxx "</Data></Cell></Row>~";
    cxx "<Row><Cell ss:StyleID=`sBold`><Data ss:Type=`String`>Email:</Data></Cell><Cell><Data ss:Type=`String`>"; escape_xml (txt d m_txt_customer_email); cxx "</Data></Cell></Row>~";
    cxx "<Row><Cell ss:StyleID=`sBold`><Data ss:Type=`String`>Phone:</Data></Cell><Cell><Data ss:Type=`String`>"; escape_xml (txt d m_txt_customer_phone); cxx "</Data></Cell></Row>~";
    cxx "<Row><Cell><Data ss:Type=`String`></Data></Cell></Row>~";
    cxx "<Row><Cell ss:StyleID=`sBold`><Data ss:Type=`String`>Job Name:</Data></Cell><Cell><Data ss:Type=`String`>"; escape_xml (txt d m_txt_job_name); cxx "</Data></Cell></Row>~";
    cxx "<Row><Cell ss:StyleID=`sBold`><Data ss:Type=`String`>Description:</Data></Cell><Cell><Data ss:Type=`String`>"; escape_xml (txt d m_txt_job_description); cxx "</Data></Cell></Row>~";
    cxx "<Row><Cell ss:StyleID=`sBold`><Data ss:Type=`String`>Date:</Data></Cell><Cell><Data ss:Type=`String`>"; date; cxx "</Data></Cell></Row>~";
    cxx "<Row><Cell><Data ss:Type=`String`></Data></Cell></Row>~";
    cxx "<Row ss:StyleID=`sBold`>~";
    cxx "<Cell><Data ss:Type=`String`>Item</Data></Cell>~";
    cxx "<Cell><Data ss:Type=`String`>Quantity</Data></Cell>~";
    cxx "<Cell><Data ss:Type=`String`>Unit Price</Data></Cell>~";
    cxx "<Cell><Data ss:Type=`String`>Total</Data></Cell>~";
    cxx "</Row>~" ]
  ++
  (let total_parts := wrap_int (spin d m_parts_per_plate * spin d m_num_plates) in
   [ cxx "<Row>~";
     cxx "<Cell><Data ss:Type=`String`>3D Printed Parts</Data></Cell>~";
     cxx "<Cell><Data ss:Type=`Number`>"; to_string_int total_parts; cxx "</Data></Cell>~";
     cxx "<Cell ss:StyleID=`sCurrency`><Data ss:Type=`Number`>"; WriteDouble (m_calc_final_price (calc d)); cxx "</Data></Cell>~";
     cxx "<Cell ss:StyleID=`sCurrency`><Data ss:Type=`Number`>"; WriteDouble (m_calc_total_job_cost (calc d)); cxx "</Data></Cell>~";
     cxx "</Row>~";
     cxx "<Row><Cell><Data ss:Type=`String`></Data></Cell></Row>~";
     cxx "<Row><Cell><Data ss:Type=`String`></Data></Cell></Row>~";
     cxx "<Row ss:StyleID=`sBold`><Cell><Data ss:Type=`String`>Material Breakdown</Data></Cell></Row>~" ])
  ++
  flat_map (fun data =>
    [ cxx "<Row>~";
      cxx "<Cell><Data ss:Type=`String`>"; escape_xml (name data); cxx " ("; escape_xml (color data); cxx ")</Data></Cell>~";
      cxx "<Cell><Data ss:Type=`String`>"; printf_f 2 (weight_g data) ++ " g"; cxx "</Data></Cell>~";
      cxx "</Row>~" ]) (m_filament_data d)
  ++
  [ cxx "</Table>~";
    cxx "</Worksheet>~";
    cxx "<Worksheet ss:Name=`Internal Cost Breakdown`>~";
    cxx "<Table ss:ExpandedColumnCount=`2` x:FullColumns=`1` x:FullRows=`1` ss:DefaultRowHeight=`15`>~";
    cxx "<Column ss:Width=`200`/>~";
    cxx "<Column ss:Width=`100`/>~";
    cxx "<Row ss:StyleID=`sBold`><Cell><Data ss:Type=`String`>INTERNAL COST BREAKDOWN</Data></Cell></Row>~";
    cxx "<Row><Cell><Data ss:Type=`String`></Data></Cell></Row>~" ]
  ++
  add_cost_row "Material Cost" (m_calc_material_cost (calc d))
++
  add_cost_row "Labor Cost" (m_calc_labor_cost (calc d))
++
  add_cost_row "Machine Cost" (m_calc_machine_cost (calc d))
++
  add_cost_row "Tooling Cost" (m_calc_tooling_cost (calc d))
++
  add_cost_row "Post-Processing Cost" (m_calc_postprocess_cost (calc d))
++
  [ cxx "<Row><Cell><Data ss:Type=`String`></Data></Cell></Row>~" ]
++
  add_cost_row "Subtotal" (m_calc_subtotal (calc d))
++
  add_cost_row "Failure Adjustment" (m_calc_failure_adjustment (calc d))
++
  add_cost_row "Markup Amount" (m_calc_markup_amount (calc d))
++
  [ cxx "<Row><Cell><Data ss:Type=`String`></Data></Cell></Row>~" ]
++
  add_cost_row "Total Job Cost" (m_calc_total_job_cost (calc d))
++
  [ cxx "</Table>~";
    cxx "</Worksheet>~";
    cxx "</Workbook>~" ].

(** [export_to_excel]: the stream is opened first (which creates or
    truncates the file) and tested once; then every operand is inserted,
    the stream never being tested again, and the message box is shown;
    the function returns [void].  [device] tells which insertions the
    device takes: nothing in the dialog determines it, so it is a
    parameter. *)
Definition export_to_excel (path date : string) (device : nat -> bool) : M A unit :=
  fun d =>
  if negb (can_open d path) then ret tt d else
  (modify (fun d =>
     let file := fold_left (insert device) (report_chunks date d) opened in
     with_files d (<[path := written file]> (files d))) ;;
   modify (fun d => with_message_boxes d
                      (message_boxes d ++ ["Invoice exported successfully."])))%M d.
End ReportExport.

(** ** Vocabulary for the statements about text and the resolver *)

(** The value of a digit sequence read from the left, starting from [acc]. *)
Fixpoint uint_value (acc : Z) (d : Decimal.uint) : Z :=
  match d with
  | Decimal.Nil => acc
  | Decimal.D0 l => uint_value (10 * acc + 0) l
  | Decimal.D1 l => uint_value (10 * acc + 1) l
  | Decimal.D2 l => uint_value (10 * acc + 2) l
  | Decimal.D3 l => uint_value (10 * acc + 3) l
  | Decimal.D4 l => uint_value (10 * acc + 4) l
  | Decimal.D5 l => uint_value (10 * acc + 5) l
  | Decimal.D6 l => uint_value (10 * acc + 6) l
  | Decimal.D7 l => uint_value (10 * acc + 7) l
  | Decimal.D8 l => uint_value (10 * acc + 8) l
  | Decimal.D9 l => uint_value (10 * acc + 9) l
  end.

(** [s] is empty or starts with a character that is no digit. *)
Definition no_digit_ahead (s : string) : Prop :=
  match s with
  | String c _ => digit_of c = None
  | EmptyString => True
  end.

(** The value [Q_printf_f k] prints for [q]: [q] rounded to [k] digits after
    the point. *)
Definition printed_value (k : nat) (q : Q) : Q :=
  let v := (inject_Z (scaled_units k q) * Qpower (inject_Z 10) (0 - Z.of_nat k))%Q in
  if Qltb q 0 then Qopp v else v.

Section ResolverVocabulary.
Context {A : Type} `{Num A} `{NumText A}.
Local Open Scope dbl_scope.

(** The entry [resolve_filament] appends once the three preset lookups
    have produced [cost], [density] and [diameter]. *)
Definition resolved_entry (presets : PresetBundle A) (stats : PrintStatistics A)
    (cost density diameter : A) (extruder_id : nat) (usage : A) : FilamentData A :=
  let weight :=
    if (length (filament_stats stats) =? 1)%nat && (of_int 0 <? total_weight stats)
    then total_weight stats
    else usage * (pi_literal * (diameter / of_int 2) * (diameter / of_int 2)) * density
         / of_int 1000 in
  {| extruder_id := extruder_id;
     name := match filament_presets presets !! extruder_id with
             | Some n => n
             | None => "Filament " ++ to_string_size_t (extruder_id + 1)
             end;
     color := let col := get_val presets "filament_colour" extruder_id in
              if emptyb col then "#808080" else col;
     weight_g := weight; cost_per_kg := cost;
     calculated_cost := (weight / of_int 1000) * cost |}.

End ResolverVocabulary.

(** ** Vocabulary for the statements about the store *)

(** The prefix of the data keys of a profile, and the key under which
    [save_job_profile] stores and [load_job_profile] reads each control
    (the business name belongs to the global settings, not to a profile). *)
Definition profile_prefix (profile_name : string) : string :=
  "invoice_job_" ++ profile_name ++ "_".

Definition txt_key (c : TxtCtrl) : option string :=
  match c with
  | m_txt_business_name => None
  | m_txt_customer_name => Some "customer_name"
  | m_txt_customer_email => Some "customer_email"
  | m_txt_customer_phone => Some "customer_phone"
  | m_txt_job_name => Some "job_name"
  | m_txt_job_description => Some "job_description"
  end.

Definition int_key (c : IntCtrl) : string :=
  match c with
  | m_parts_per_plate => "parts_per_plate"
  | m_num_plates => "num_plates"
  end.

Definition dbl_key (c : DblCtrl) : string :=
  match c with
  | m_failure_rate => "failure_rate"
  | m_labor_rate => "labor_rate"
  | m_prep_time => "prep_time"
  | m_setup_time => "setup_time"
  | m_finishing_per_part => "finishing_per_part"
  | m_finishing_per_plate => "finishing_per_plate"
  | m_printer_cost => "printer_cost"
  | m_printer_lifespan => "printer_lifespan"
  | m_maintenance_cost => "maintenance_cost"
  | m_power_watts => "power_watts"
  | m_electricity_cost => "electricity_cost"
  | m_bed_cost => "bed_cost"
  | m_bed_lifespan => "bed_lifespan"
  | m_nozzle_cost => "nozzle_cost"
  | m_nozzle_lifespan_kg => "nozzle_lifespan_kg"
  | m_solvent_cost => "solvent_cost"
  | m_solving_time => "solving_time"
  | m_tank_power => "tank_power"
  | m_finishing_materials => "finishing_materials"
  | m_markup_percent => "markup_percent"
  end.

(** What the lambdas [get_int] and [get_dbl] of [load_job_profile] return
    for the stored text [v]. *)
Definition get_int_result (v : string) (def : Z) : exn + Z :=
  if emptyb v then inr def else stoi v.

Definition get_dbl_result {A} `{NumText A} (v : string) (def : A) : exn + A :=
  if emptyb v then inr def else stod v.

(** The registry string of the store and the names [list()] shows (the
    items [refresh_job_profiles_combo] appends). *)
Definition registry {A} (d : InvoiceDialog A) : string :=
  match app_config d with
  | Some config => config_get config "invoice_profiles"
  | None => ""
  end.

Definition list_profiles {A} (d : InvoiceDialog A) : list string :=
  List.filter (fun item => negb (emptyb item)) (getlines (registry d)).

Fixpoint semicolon_free (s : string) : bool :=
  match s with
  | EmptyString => true
  | String c s' => negb (Ascii.eqb c ";") && semicolon_free s'
  end.

(** The registry string of a list of names: each name followed by [;]. *)
Definition joined (names : list string) : string :=
  fold_right (fun p acc => (p ++ ";") ++ acc) "" names.

(** A profile name the registry format can hold: not empty and without
    the delimiter. *)
Definition valid_name (n : string) : Prop := n <> "" /\ semicolon_free n = true.

(** The registry holds exactly [names]. *)
Definition registry_holds {A} (d : InvoiceDialog A) (names : list string) : Prop :=
  (exists config, app_config d = Some config)
  /\ registry d = joined names
  /\ Forall valid_name names
  /\ List.NoDup names.

(** Everything in the dialog except the controls and the cached results. *)
Definition frame {A} (d : InvoiceDialog A) :=
  (app_config d, preset_bundle d, files d, can_open d, message_boxes d,
   m_stats d, m_filament_data d, m_combo_job_profiles d).

(** [c] run in [d] returns normally, in a state and with a value that
    satisfy [Q]. *)
Definition returns {A X} (c : M A X) (d : InvoiceDialog A)
    (Q : X -> InvoiceDialog A -> Prop) : Prop :=
  exists d' x, c d = (d', inr x) /\ Q x d'.

(** A sequence of calls of [save_job_profile] and [delete_job_profile]. *)
Inductive ProfileOp :=
  | SaveProfile (profile_name : string)
  | DeleteProfile (profile_name : string).

Definition op_name (op : ProfileOp) : string :=
  match op with SaveProfile n => n | DeleteProfile n => n end.

Definition run_op {A} `{Num A} `{NumText A} (d : InvoiceDialog A) (op : ProfileOp)
    : InvoiceDialog A :=
  match op with
  | SaveProfile n => save_job_profile n d
  | DeleteProfile n => delete_job_profile n d
  end.

Definition run_ops {A} `{Num A} `{NumText A} (ops : list ProfileOp) (d : InvoiceDialog A)
    : InvoiceDialog A :=
  fold_left run_op ops d.

(** ** Sample states used by the examples *)

Section Samples.
Context {A : Type} `{Num A}.

Definition no_results : CalcResults A :=
  {| m_calc_material_cost := of_int 0; m_calc_labor_cost := of_int 0;
     m_calc_machine_cost := of_int 0; m_calc_tooling_cost := of_int 0;
     m_calc_postprocess_cost := of_int 0; m_calc_subtotal := of_int 0;
     m_calc_failure_adjustment := of_int 0; m_calc_cost_per_part := of_int 0;
     m_calc_markup_amount := of_int 0; m_calc_final_price := of_int 0;
     m_calc_total_job_cost := of_int 0; m_calc_print_time_hours := of_int 0 |}.

(** A dialog with the default control values, an empty store, no
    slicer statistics and the given filament list. *)
Definition sample_dialog (fil : list (FilamentData A)) : InvoiceDialog A :=
  {| app_config := Some ∅; preset_bundle := None; files := ∅;
     can_open := fun _ => true; message_boxes := [];
     m_stats := None; m_filament_data := fil;
     txt := fun _ => ""; spin := default_int; dspin := default_dbl;
     m_combo_job_profiles := []; calc := no_results |}.

Definition sample_filament (cost : A) : FilamentData A :=
  {| extruder_id := 0; name := "PLA"; color := "#FFFFFF"; weight_g := of_int 0;
     cost_per_kg := of_int 20; calculated_cost := cost |}.
End Samples.

(** Slicer statistics for two extruders (raw consumption 100 and 50), a
    preset bundle without any filament option, and a dialog that sees
    them. *)
Definition usage_stats : PrintStatistics Q :=
  {| filament_stats := [(0%nat, 100%Q); (1%nat, 50%Q)]; total_weight := 5%Q;
     estimated_normal_print_time := "1h 30m" |}.

Definition bare_presets : PresetBundle Q :=
  {| project_config := ∅; filament_presets := ["Generic PLA"] |}.

Definition usage_dialog : InvoiceDialog Q :=
  {| app_config := Some ∅; preset_bundle := Some bare_presets; files := ∅;
     can_open := fun _ => true; message_boxes := [];
     m_stats := Some usage_stats; m_filament_data := [];
     txt := fun _ => ""; spin := default_int; dspin := default_dbl;
     m_combo_job_profiles := []; calc := no_results |}.

(** A dialog whose controls were edited: customer Bob, four parts per
    plate, a failure rate of one third of a percent more than 7, a markup
    of 70 percent. *)
Definition edited_dialog : InvoiceDialog Q :=
  let d := sample_dialog [sample_filament (10 : Q)] in
  with_txt
    (with_spin
       (with_dspin d (upd (upd (dspin d) m_markup_percent 70%Q) m_failure_rate (22 # 3)%Q))
       (upd (spin d) m_parts_per_plate 4))
    (upd (txt d) m_txt_customer_name "Bob").

(** A dialog over a store in which profile [x] has an unparsable
    [parts_per_plate]. *)
Definition malformed_dialog : InvoiceDialog Q :=
  with_app_config (sample_dialog []) (Some {[ "invoice_job_x_parts_per_plate" := "abc" ]}).

(** The replacement the report format prescribes for each reserved
    character, and escaping stated character by character. *)
Definition reserved_entity (c : ascii) : option string :=
  if Ascii.eqb c "&" then Some "&amp;"
  else if Ascii.eqb c "<" then Some "&lt;"
  else if Ascii.eqb c ">" then Some "&gt;"
  else if Ascii.eqb c "034" then Some "&quot;"
  else if Ascii.eqb c "'" then Some "&apos;"
  else None.

Fixpoint escape_spec (s : string) : string :=
  match s with
  | EmptyString => ""
  | String c s' =>
      match reserved_entity c with
      | Some e => e ++ escape_spec s'
      | None => String c (escape_spec s')
      end
  end.

(** [l] occurs in [m] as a run of consecutive elements. *)
Definition infix_of {T} (l m : list T) : Prop :=
  exists pre post, m = (pre ++ l ++ post)%list.

(** [x] occurs in the text [s]. *)
Definition substring_of (x s : string) : Prop :=
  exists p q, s = p ++ x ++ q.

(** The literal that opens the row of each text field in the invoice
    sheet, and the one that closes it. *)
Definition field_row_open (c : TxtCtrl) : string :=
  match c with
  | m_txt_business_name =>
      cxx "<Row><Cell ss:StyleID=`sBold`><Data ss:Type=`String`>From:</Data></Cell><Cell><Data ss:Type=`String`>"
  | m_txt_customer_name =>
      cxx "<Row><Cell ss:StyleID=`sBold`><Data ss:Type=`String`>To:</Data></Cell><Cell><Data ss:Type=`String`>"
  | m_txt_customer_email =>
      cxx "<Row><Cell ss:StyleID=`sBold`><Data ss:Type=`String`>Email:</Data></Cell><Cell><Data ss:Type=`String`>"
  | m_txt_customer_phone =>
      cxx "<Row><Cell ss:StyleID=`sBold`><Data ss:Type=`String`>Phone:</Data></Cell><Cell><Data ss:Type=`String`>"
  | m_txt_job_name =>
      cxx "<Row><Cell ss:StyleID=`sBold`><Data ss:Type=`String`>Job Name:</Data></Cell><Cell><Data ss:Type=`String`>"
  | m_txt_job_description =>
      cxx "<Row><Cell ss:StyleID=`sBold`><Data ss:Type=`String`>Description:</Data></Cell><Cell><Data ss:Type=`String`>"
  end.

Definition field_row_close : string := cxx "</Data></Cell></Row>~".

(** A dialog on a file system where no path can be opened for writing. *)
Definition locked_dialog : InvoiceDialog Q :=
  {| app_config := Some ∅; preset_bundle := None; files := {[ "invoice.xls" := "old" ]};
     can_open := fun _ => false; message_boxes := [];
     m_stats := None; m_filament_data := [sample_filament (10 : Q)];
     txt := fun _ => ""; spin := default_int; dspin := default_dbl;
     m_combo_job_profiles := []; calc := no_results |}.

(** A dialog whose job description holds all five reserved characters. *)
Definition quoted_dialog : InvoiceDialog Q :=
  let d := sample_dialog [sample_filament (10 : Q)] in
  with_txt d (upd (txt d) m_txt_job_description (cxx "Tom & Jerry's `Test` <1>")).

(** ** Vocabulary for the statements about the outcome of a load *)

(** The key suffixes [save_job_profile] writes and [load_job_profile]
    reads. *)
Definition data_keys : list string :=
  [ "customer_name"; "customer_email"; "customer_phone"; "job_name"; "job_description";
    "parts_per_plate"; "num_plates"; "failure_rate";
    "labor_rate"; "prep_time"; "setup_time"; "finishing_per_part"; "finishing_per_plate";
    "printer_cost"; "printer_lifespan"; "maintenance_cost"; "power_watts"; "electricity_cost";
    "bed_cost"; "bed_lifespan"; "nozzle_cost"; "nozzle_lifespan_kg";
    "solvent_cost"; "solving_time"; "tank_power"; "finishing_materials";
    "markup_percent" ].

(** [c] changes neither the text controls, nor the cached results, nor
    anything outside the controls, whether it returns or throws. *)
Definition keeps_texts_and_results {A X} (c : M A X) : Prop :=
  forall d d' r, c d = (d', r) -> txt d' = txt d /\ frame d' = frame d /\ calc d' = calc d.

(** The same, except that the cached results may change on a normal
    return. *)
Definition keeps_results_on_throw {A X} (c : M A X) : Prop :=
  forall d d' r, c d = (d', r) ->
    txt d' = txt d /\ frame d' = frame d /\ (forall e, r = inl e -> calc d' = calc d).

(** On a normal return of [c] the cached results are those of the
    controls. *)
Definition results_fresh {A} `{Num A} {X} (c : M A X) : Prop :=
  forall d d' x, c d = (d', inr x) -> calc d' = calc (calculate_costs d').

(** [edited_dialog] over a store that holds a key of the profile [x_y]
    and none of the profile [x]. *)
Definition shadowed_dialog : InvoiceDialog Q :=
  with_app_config edited_dialog (Some {[ "invoice_job_x_y_customer_name" := "Zed" ]}).

(** ** Vocabulary for the statements about the exported file *)

(** The chunks that reach the file when the insertions are numbered from
    [i]. *)
Fixpoint accepted (device : nat -> bool) (i : nat) (chunks : list string) : list string :=
  match chunks with
  | [] => []
  | chunk :: chunks' =>
      if device i then chunk :: accepted device (S i) chunks'
      else accepted device (S i) chunks'
  end.

(** A device that takes every insertion, and one that fails after the
    third. *)
Definition reliable : nat -> bool := fun _ => true.
Definition fails_after_three : nat -> bool := fun i => (i <? 3)%nat.

(** The characters that open or close markup, or end an attribute value,
    in XML. *)
Definition is_markup (c : ascii) : bool :=
  Ascii.eqb c "<" || Ascii.eqb c ">" || Ascii.eqb c "034" || Ascii.eqb c "'".

(** The markup characters of a text, in order. *)
Definition markup_chars (s : string) : list ascii :=
  List.filter is_markup (list_ascii_of_string s).

(** Two chunks are the same, or both are results of [escape_xml]. *)
Definition same_or_escaped (c1 c2 : string) : Prop :=
  c1 = c2 \/ exists s1 s2, c1 = escape_xml s1 /\ c2 = escape_xml s2.

(** ** A state of binary64 arithmetic with an infinite subtotal *)

(** The default controls except for a printer lifespan of 0 hours (the
    lower end of the control's range), one filament that costs 10, and a
    print time of one hour. *)
Definition zero_lifespan_dialog : InvoiceDialog float :=
  {| app_config := Some ∅; preset_bundle := None; files := ∅;
     can_open := fun _ => true; message_boxes := [];
     m_stats := Some {| filament_stats := []; total_weight := of_int 0;
                        estimated_normal_print_time := "1h" |};
     m_filament_data := [sample_filament (of_int 10)];
     txt := fun _ => ""; spin := default_int;
     dspin := upd default_dbl m_printer_lifespan (of_int 0);
     m_combo_job_profiles := []; calc := no_results |}.

(** ** Vocabulary for the further properties *)

(** A print-time text as the slicer formats it: the components [<n>d],
    [<n>h], [<n>m], [<n>s] in this order, separated by one space, each of
    them optional. *)
Definition time_component (v : option N) (u : ascii) : list string :=
  match v with
  | Some n => [to_string_int (Z.of_N n) ++ String u ""]
  | None => []
  end.

Definition time_text (d h m s : option N) : string :=
  String.concat " "
    (time_component d "d" ++ time_component h "h" ++ time_component m "m"
     ++ time_component s "s")%list.

(** The component is absent or its value is below 10^308: [std::stod]
    returns on its digits. *)
Definition in_double_range (v : option N) : Prop :=
  match v with Some n => (n < 10 ^ 308)%N | None => True end.

(** No digit occurs in [s]. *)
Fixpoint digit_free (s : string) : bool :=
  match s with
  | EmptyString => true
  | String c s' => negb (is_digit c) && digit_free s'
  end.

(** The cost cached in an entry of [m_filament_data] is the one its
    weight and price give. *)
Definition cost_consistent {A} `{Num A} (f : FilamentData A) : Prop :=
  calculated_cost f = (weight_g f / of_int 1000 * cost_per_kg f)%dbl.


(** The option is absent, a [ConfigOptionFloats], or of a type [get_val]
    does not read. *)
Definition float_valued {A} (o : option (ConfigOption A)) : Prop :=
  match o with
  | Some (ConfigOptionStrings _) | Some (ConfigOptionInts _) => False
  | _ => True
  end.

(** What the resolver obtains for the float option [key] of extruder
    [idx]: the value passes through [std::to_string] and [std::stod]; an
    absent value leaves the default. *)
Definition preset_value (presets : PresetBundle Q) (key : string) (idx : nat) (def : Q) : Q :=
  match project_config presets !! key with
  | Some (ConfigOptionFloats values) =>
      match values !! idx with Some x => printed_value 6 x | None => def end
  | _ => def
  end.

(** What a save or a delete of a profile leaves alone. *)
Definition same_inputs {A} (d d' : InvoiceDialog A) : Prop :=
  txt d' = txt d /\ spin d' = spin d /\ dspin d' = dspin d /\ calc d' = calc d
  /\ m_filament_data d' = m_filament_data d /\ m_stats d' = m_stats d
  /\ files d' = files d /\ message_boxes d' = message_boxes d.

(** Does the list [l] start with [p]? *)
Fixpoint starts_with (p l : list ascii) : bool :=
  match p, l with
  | [], _ => true
  | a :: p', b :: l' => Ascii.eqb a b && starts_with p' l'
  | _ :: _, [] => false
  end.

(** A key suffix read from the end of a store key, up to and including
    the [_] that separates it from the profile name. *)
Definition key_tail (k : string) : list ascii :=
  (rev (list_ascii_of_string k) ++ ["_"%char])%list.

(** [s] is empty or ends with the delimiter of the registry. *)
Fixpoint terminated (s : string) : bool :=
  match s with
  | EmptyString => true
  | String c EmptyString => Ascii.eqb c ";"
  | String _ s' => terminated s'
  end.

(** The entity name (with its [;]) at the head of [s]: the character it
    stands for and its length. *)
Definition entity_name (s : string) : option (ascii * nat) :=
  let l := list_ascii_of_string s in
  if starts_with (list_ascii_of_string "amp;") l then Some ("&"%char, 4%nat)
  else if starts_with (list_ascii_of_string "lt;") l then Some ("<"%char, 3%nat)
  else if starts_with (list_ascii_of_string "gt;") l then Some (">"%char, 3%nat)
  else if starts_with (list_ascii_of_string "quot;") l then Some ("034"%char, 5%nat)
  else if starts_with (list_ascii_of_string "apos;") l then Some ("'"%char, 5%nat)
  else None.

Fixpoint drop_chars (n : nat) (s : string) : string :=
  match n, s with
  | S n', String _ s' => drop_chars n' s'
  | _, _ => s
  end.

(** Reading the five entities back.  An entity name holds no [&], so the
    decoded tail starts with the name, which is dropped. *)
Fixpoint unescape_xml (s : string) : string :=
  match s with
  | EmptyString => ""
  | String c s' =>
      let u := unescape_xml s' in
      if Ascii.eqb c "&" then
        match entity_name s' with
        | Some (ch, n) => String ch (drop_chars n u)
        | None => String c u
        end
      else String c u
  end.

(** *** Further sample states *)

(** Statistics for one extruder, and statistics that name no extruder,
    both with a known total weight of 12 g. *)
Definition single_stats : PrintStatistics Q :=
  {| filament_stats := [(0%nat, 100%Q)]; total_weight := 12%Q;
     estimated_normal_print_time := "2h 5m" |}.

Definition empty_stats : PrintStatistics Q :=
  {| filament_stats := []; total_weight := 12%Q; estimated_normal_print_time := "" |}.

(** A dialog over the given statistics and presets. *)
Definition stats_dialog (stats : PrintStatistics Q) (presets : PresetBundle Q)
    : InvoiceDialog Q :=
  {| app_config := Some ∅; preset_bundle := Some presets; files := ∅;
     can_open := fun _ => true; message_boxes := [];
     m_stats := Some stats; m_filament_data := [sample_filament (10 : Q)];
     txt := fun _ => ""; spin := default_int; dspin := default_dbl;
     m_combo_job_profiles := []; calc := no_results |}.

(** Presets whose cost option is text, unparsable for the second
    extruder, and presets with float options. *)
Definition text_presets : PresetBundle Q :=
  {| project_config := {[ "filament_cost" := ConfigOptionStrings ["20"; "abc"] ]};
     filament_presets := ["Generic PLA"; "Generic PETG"] |}.

Definition float_presets : PresetBundle Q :=
  {| project_config :=
       <["filament_density" := ConfigOptionFloats [(127 # 100)%Q; (1 # 3)%Q]]>
         {[ "filament_cost" := ConfigOptionFloats [(51 # 2)%Q] ]};
     filament_presets := ["Generic PLA"] |}.

(** [edited_dialog] over a store in which profile [x] has a customer name
    and an unparsable [parts_per_plate]. *)
Definition half_stored_dialog : InvoiceDialog Q :=
  with_app_config edited_dialog
    (Some (<["invoice_job_x_customer_name" := "Ann"]>
             {[ "invoice_job_x_parts_per_plate" := "abc" ]})).

(** * Properties *)

(** ** Rational arithmetic *)

Lemma Qltb_lt (a b : Q) : Qltb a b = true <-> (a < b)%Q.
Proof.
  unfold Qltb. rewrite negb_true_iff. split.
  - intros Hb. apply Qnot_le_lt. intros Hle. apply Qle_bool_iff in Hle. congruence.
  - intros Hlt. destruct (Qle_bool b a) eqn:E; [|reflexivity].
    apply Qle_bool_iff in E. exfalso. apply (Qlt_not_le _ _ Hlt E).
Qed.

Lemma Qltb_ge (a b : Q) : Qltb a b = false <-> (b <= a)%Q.
Proof.
  unfold Qltb. rewrite negb_false_iff. apply Qle_bool_iff.
Qed.

(** ** Text *)

Lemma scan_digits_stop acc n s :
  no_digit_ahead s -> scan_digits acc n s = (acc, n, s).
Proof. destruct s as [|c s]; cbn; [reflexivity|]. intros ->. reflexivity. Qed.

Lemma append_cons (c : ascii) (s t : string) : String c s ++ t = String c (s ++ t).
Proof. reflexivity. Qed.

Lemma append_nil_l (t : string) : "" ++ t = t.
Proof. reflexivity. Qed.

Lemma scan_digits_step acc n c s k :
  digit_of c = Some k -> scan_digits acc n (String c s) = scan_digits (10 * acc + k) (S n) s.
Proof. cbn [scan_digits]. intros ->. reflexivity. Qed.

Lemma scan_digits_uint d : forall acc n rest,
  no_digit_ahead rest ->
  scan_digits acc n (NilEmpty.string_of_uint d ++ rest) =
    (uint_value acc d, (n + Decimal.nb_digits d)%nat, rest).
Proof.
  induction d; intros acc n rest Hrest;
    cbn [NilEmpty.string_of_uint String.append uint_value Decimal.nb_digits].
  1: now rewrite Nat.add_0_r; apply scan_digits_stop.
  all: rewrite append_cons; erewrite scan_digits_step by reflexivity; rewrite IHd by assumption;
       rewrite Nat.add_succ_r; reflexivity.
Qed.

Lemma uint_value_pos d : forall p, uint_value (Zpos p) d = Zpos (Pos.of_uint_acc d p).
Proof.
  induction d; intros p; cbn [uint_value Pos.of_uint_acc]; try reflexivity.
  all: match goal with |- uint_value ?a _ = _ =>
         match goal with |- _ = Zpos (Pos.of_uint_acc _ ?q) =>
           replace a with (Zpos q) by lia end end; apply IHd.
Qed.

Lemma uint_value_0 d : uint_value 0 d = Z.of_N (Pos.of_uint d).
Proof.
  induction d; cbn [uint_value Pos.of_uint]; try reflexivity; try exact IHd.
  all: cbn; apply uint_value_pos.
Qed.

Lemma uint_value_to_uint (n : N) : uint_value 0 (N.to_uint n) = Z.of_N n.
Proof.
  rewrite uint_value_0. change (Pos.of_uint (N.to_uint n)) with (N.of_uint (N.to_uint n)).
  rewrite DecimalN.Unsigned.of_to. reflexivity.
Qed.

Lemma string_of_uint_to_uint (n : N) :
  NilZero.string_of_uint (N.to_uint n) = NilEmpty.string_of_uint (N.to_uint n).
Proof.
  destruct n as [|p]; [reflexivity|]. cbn [N.to_uint].
  pose proof (DecimalPos.Unsigned.to_uint_nonnil p) as Hp.
  destruct (Pos.to_uint p); [congruence | reflexivity ..].
Qed.

Lemma nb_digits_to_uint (n : N) : (0 < Decimal.nb_digits (N.to_uint n))%nat.
Proof.
  destruct n as [|p]; cbn; [lia|].
  pose proof (DecimalPos.Unsigned.to_uint_nonnil p) as Hp.
  destruct (Pos.to_uint p); cbn; [congruence | lia ..].
Qed.

Lemma append_nil_r (s : string) : s ++ "" = s.
Proof. induction s as [|c s IH]; [reflexivity|]. rewrite append_cons, IH. reflexivity. Qed.

Lemma append_assoc (s t u : string) : (s ++ t) ++ u = s ++ (t ++ u).
Proof. induction s as [|c s IH]; [reflexivity|]. rewrite !append_cons, IH. reflexivity. Qed.

(** What a digit at the head of a string means for the scanners. *)
Lemma digit_head c s :
  is_digit c = true ->
  skip_space (String c s) = String c s
  /\ read_sign (String c s) = (false, String c s)
  /\ Ascii.eqb "i" (lower c) = false /\ Ascii.eqb "n" (lower c) = false
  /\ Ascii.eqb "x" (lower c) = false.
Proof.
  destruct c as [[] [] [] [] [] [] [] []]; intros Hc; try discriminate Hc;
    repeat split.
Qed.

(** The printed digits of a number: a digit first, and after it either a
    digit or the end. *)
Lemma string_of_uint_head (n : N) :
  exists c s, NilEmpty.string_of_uint (N.to_uint n) = String c s
    /\ is_digit c = true
    /\ match s with String b _ => is_digit b = true | EmptyString => True end.
Proof.
  assert (Hd : forall d, d <> Decimal.Nil ->
            exists c s, NilEmpty.string_of_uint d = String c s
              /\ is_digit c = true
              /\ match s with String b _ => is_digit b = true | EmptyString => True end).
  { intros d Hd. destruct d as [|d|d|d|d|d|d|d|d|d|d]; [congruence|..];
      (eexists; eexists; split; [reflexivity|]; split; [reflexivity|]);
      destruct d; cbn; auto. }
  apply Hd. destruct n as [|p]; [discriminate|]. apply DecimalPos.Unsigned.to_uint_nonnil.
Qed.

Theorem stoi_to_string_int (z : Z) :
  INT_MIN <= z <= INT_MAX -> stoi (to_string_int z) = inr z.
Proof.
  intros Hz.
  assert (Hpos : forall p, scan_digits 0 0 (NilZero.string_of_uint (Pos.to_uint p))
                 = (Zpos p, Decimal.nb_digits (Pos.to_uint p), "")).
  { intros p. change (Pos.to_uint p) with (N.to_uint (Npos p)).
    rewrite string_of_uint_to_uint.
    rewrite <- (append_nil_r (NilEmpty.string_of_uint _)).
    rewrite scan_digits_uint by exact I.
    rewrite uint_value_to_uint. reflexivity. }
  destruct z as [|p|p].
  - reflexivity.
  - unfold to_string_int, stoi. cbn [Z.to_int NilZero.string_of_int].
    destruct (string_of_uint_head (Npos p)) as (c & s & Hs & Hc & _).
    pose proof (Hpos p) as Hscan.
    change (Pos.to_uint p) with (N.to_uint (Npos p)) in *.
    rewrite string_of_uint_to_uint in *. rewrite Hs in *.
    destruct (digit_head c s Hc) as (-> & -> & _).
    rewrite Hscan.
    pose proof (nb_digits_to_uint (Npos p)) as Hn.
    destruct (Decimal.nb_digits (N.to_uint (N.pos p))); [lia|].
    destruct Hz as [Hlo Hhi]. apply Z.leb_le in Hlo, Hhi. rewrite Hlo, Hhi. reflexivity.
  - unfold to_string_int, stoi. cbn [Z.to_int NilZero.string_of_int].
    change (skip_space (String "-" ?s)) with (String "-" s).
    cbn [read_sign]. rewrite Hpos.
    pose proof (nb_digits_to_uint (Npos p)) as Hn. cbn [N.to_uint] in Hn.
    destruct (Decimal.nb_digits (Pos.to_uint p)); [lia|].
    destruct Hz as [Hlo Hhi]. apply Z.leb_le in Hlo, Hhi.
    change (- Z.pos p) with (Z.neg p). rewrite Hlo, Hhi. reflexivity.
Qed.

Lemma digit_of_digit_char (j : Z) : 0 <= j < 10 -> digit_of (digit_char j) = Some j.
Proof.
  intros Hj.
  assert (Hc : j = 0 \/ j = 1 \/ j = 2 \/ j = 3 \/ j = 4 \/ j = 5 \/ j = 6 \/ j = 7
               \/ j = 8 \/ j = 9) by lia.
  repeat (destruct Hc as [-> | Hc]; [reflexivity|]). subst j. reflexivity.
Qed.

Lemma scan_frac_digits (k : nat) : forall (m acc : Z) (n : nat) (rest : string),
  0 <= m ->
  scan_digits acc n (frac_digits k m ++ rest) =
    scan_digits (acc * 10 ^ Z.of_nat k + m mod 10 ^ Z.of_nat k) (n + k)%nat rest.
Proof.
  induction k as [|k IH]; intros m acc n rest Hm.
  - cbn [frac_digits]. rewrite append_nil_l, Nat.add_0_r.
    change (10 ^ Z.of_nat 0) with 1. rewrite Z.mod_1_r. f_equal. lia.
  - cbn [frac_digits]. rewrite append_cons.
    assert (Hp : 0 < 10 ^ Z.of_nat k) by (apply Z.pow_pos_nonneg; lia).
    rewrite (scan_digits_step _ _ _ _ ((m / 10 ^ Z.of_nat k) mod 10))
      by (apply digit_of_digit_char; apply Z.mod_pos_bound; lia).
    rewrite IH by assumption.
    rewrite Nat.add_succ_r. cbn [Nat.add]. f_equal.
    rewrite Nat2Z.inj_succ, Z.pow_succ_r by lia.
    rewrite (Z.mul_comm 10 (10 ^ Z.of_nat k)).
    rewrite (Z.rem_mul_r m (10 ^ Z.of_nat k) 10) by lia.
    ring.
Qed.

(** Rounding to the nearest integer. *)
Lemma round_half_even_error (q : Q) :
  (Qabs (inject_Z (round_half_even q) - q) <= 1 # 2)%Q.
Proof.
  unfold round_half_even.
  pose proof (Qfloor_le q) as Hlo. pose proof (Qlt_floor q) as Hhi.
  rewrite inject_Z_plus in Hhi. change (inject_Z 1) with 1%Q in Hhi.
  apply Qabs_Qle_condition.
  destruct (Qcompare (2 * (q - inject_Z (Qfloor q))) 1) eqn:E.
  - apply Qeq_alt in E.
    destruct (Z.even (Qfloor q)); [|rewrite inject_Z_plus; change (inject_Z 1) with 1%Q];
      split; lra.
  - apply Qlt_alt in E. split; lra.
  - apply Qgt_alt in E. rewrite inject_Z_plus. change (inject_Z 1) with 1%Q. split; lra.
Qed.

Lemma round_half_even_nonneg (q : Q) : (0 <= q)%Q -> 0 <= round_half_even q.
Proof.
  intros Hq. unfold round_half_even.
  assert (Hf : 0 <= Qfloor q).
  { change 0 with (Qfloor (inject_Z 0)). apply Qfloor_resp_le. exact Hq. }
  destruct (Qcompare _ _); [destruct (Z.even _)|..]; lia.
Qed.

Lemma scaled_units_nonneg (k : nat) (q : Q) : 0 <= scaled_units k q.
Proof.
  apply round_half_even_nonneg. apply Qmult_le_0_compat.
  - apply Qabs_nonneg.
  - change 0%Q with (inject_Z 0). rewrite <- Zle_Qle. apply Z.pow_nonneg. lia.
Qed.

(** The unsigned part of a printed number as [Q_stod] sees it. *)
Lemma printed_digits_head (n : N) (fs : string) :
  let s1 := NilEmpty.string_of_uint (N.to_uint n) ++ String "." fs in
  skip_space s1 = s1 /\ read_sign s1 = (false, s1) /\ special_prefix s1 = false.
Proof.
  intros s1. subst s1.
  destruct (string_of_uint_head n) as (c & s & -> & Hc & Hb).
  rewrite append_cons.
  destruct (digit_head c (s ++ String "." fs) Hc) as (Hsk & Hsg & Hi & Hn & Hx).
  split; [exact Hsk|]. split; [exact Hsg|].
  unfold special_prefix. cbn [prefix_ci]. rewrite Hi, Hn. cbn [andb orb].
  destruct s as [|b s].
  - rewrite append_nil_l. cbn. apply andb_false_r.
  - rewrite append_cons. cbn [prefix_ci].
    destruct (digit_head b "" Hb) as (_ & _ & _ & _ & ->).
    cbn. apply andb_false_r.
Qed.

Lemma Q_stod_printf_f (k : nat) (q : Q) :
  Q_stod (Q_printf_f (S k) q) = inr (printed_value (S k) q).
Proof.
  unfold Q_printf_f, printed_value.
  pose proof (scaled_units_nonneg (S k) q) as Hn.
  set (n := scaled_units (S k) q) in *.
  set (p := 10 ^ Z.of_nat (S k)).
  assert (Hp : 0 < p) by (apply Z.pow_pos_nonneg; lia).
  assert (Hi : 0 <= n / p) by (apply Z.div_pos; lia).
  rewrite string_of_uint_to_uint.
  set (fs := frac_digits (S k) (n mod p)).
  assert (Hscan : forall acc, scan_digits acc 0 fs =
            (acc * p + n mod p, S k, "")).
  { intros acc. subst fs. rewrite <- (append_nil_r (frac_digits _ _)).
    rewrite scan_frac_digits by (apply Z.mod_pos_bound; lia).
    fold p. rewrite Z.mod_mod by lia. reflexivity. }
  clearbody fs.
  change ("." ++ fs) with (String "." fs).
  destruct (printed_digits_head (Z.to_N (n / p)) fs) as (Hsk & Hsg & Hsp).
  assert (Hint : scan_digits 0 0 (NilEmpty.string_of_uint (N.to_uint (Z.to_N (n / p)))
                                  ++ String "." fs)
                 = (n / p, Decimal.nb_digits (N.to_uint (Z.to_N (n / p))), String "." fs)).
  { rewrite scan_digits_uint by reflexivity.
    rewrite uint_value_to_uint, Z2N.id by exact Hi. reflexivity. }
  assert (Hm : n / p * p + n mod p = n).
  { rewrite (Z.mul_comm (n / p) p). symmetry. apply Z.div_mod. lia. }
  unfold Q_stod.
  destruct (Qltb q 0).
  - rewrite append_cons, append_nil_l.
    change (skip_space (String "-" ?s)) with (String "-" s). cbn [read_sign].
    rewrite Hsp, Hint, Hscan, Hm. rewrite Nat.add_succ_r. reflexivity.
  - rewrite append_nil_l, Hsk, Hsg, Hsp, Hint, Hscan, Hm.
    rewrite Nat.add_succ_r. reflexivity.
Qed.

(** Six digits after the point: the printed value is within half a unit
    of the last digit. *)
Lemma printed_value_error (q : Q) :
  (Qabs (printed_value 6 q - q) <= 1 # 2000000)%Q.
Proof.
  unfold printed_value, scaled_units.
  change (Qpower (inject_Z 10) (0 - Z.of_nat 6)) with (1 # 1000000)%Q.
  change (inject_Z (10 ^ Z.of_nat 6)) with 1000000%Q.
  pose proof (round_half_even_error (Qabs q * 1000000)) as Hr.
  set (n := inject_Z (round_half_even (Qabs q * 1000000))) in *.
  apply Qabs_Qle_condition in Hr. apply Qabs_Qle_condition.
  destruct (Qltb q 0) eqn:E.
  - apply Qltb_lt in E. rewrite (Qabs_neg q) in Hr by lra.
    clearbody n. split; lra.
  - apply Qltb_ge in E. rewrite (Qabs_pos q) in Hr by lra.
    clearbody n. split; lra.
Qed.

(** Small runs of the text functions. *)
Example to_string_int_ex : to_string_int (-42) = "-42" /\ to_string_int 0 = "0".
Proof. split; reflexivity. Qed.
Example stoi_ex : stoi "  12ab" = inr 12 /\ stoi "abc" = inl invalid_argument
  /\ stoi "99999999999" = inl out_of_range /\ stoi "-7" = inr (-7).
Proof. repeat split; reflexivity. Qed.
Example to_string_double_ex :
  to_string_double (5 # 1)%Q = "5.000000"
  /\ to_string_double (1 # 8)%Q = "0.125000"
  /\ to_string_double (- (1 # 3))%Q = "-0.333333"
  /\ to_string_double (1 # 128)%Q = "0.007812"
  /\ to_string_double (2 # 3)%Q = "0.666667"
  /\ printf_f 2 (298255 # 1000000)%Q = "0.30".
Proof. repeat split; vm_compute; reflexivity. Qed.
Example Q_stod_ex : Q_stod "0.125000" = inr (125000 # 1000000)%Q
  /\ Q_stod "abc" = inl invalid_argument /\ Q_stod "inf" = inl unmodelled_value
  /\ Q_stod "." = inl invalid_argument.
Proof. repeat split; vm_compute; reflexivity. Qed.
Example getlines_ex : getlines "a;b;" = ["a"; "b"] /\ getlines "a;;b" = ["a"; ""; "b"]
  /\ getlines ";" = [""] /\ getlines "" = [] /\ getlines "ab" = ["ab"].
Proof. repeat split; reflexivity. Qed.

(** ** The cost model *)

Section CostFacts.
Context {A : Type} `{Num A}.
Local Open Scope dbl_scope.

(** The failure adjustment of [calculate_costs], read off its result. *)
Lemma calc_failure_adjustment_eq (d : InvoiceDialog A) :
  let r := calc (calculate_costs d) in
  let failure_rate := dspin d m_failure_rate / of_int 100 in
  m_calc_failure_adjustment r =
    if failure_rate <? of_int 1
    then m_calc_subtotal r / (of_int 1 - failure_rate) - m_calc_subtotal r
    else of_int 0.
Proof. reflexivity. Qed.

Lemma calc_subtotal_eq (d : InvoiceDialog A) :
  let r := calc (calculate_costs d) in
  m_calc_subtotal r =
    m_calc_material_cost r + m_calc_labor_cost r + m_calc_machine_cost r
    + m_calc_tooling_cost r + m_calc_postprocess_cost r.
Proof. reflexivity. Qed.

Lemma calc_cost_per_part_eq (d : InvoiceDialog A) :
  let r := calc (calculate_costs d) in
  let total_plate_cost := m_calc_subtotal r + m_calc_failure_adjustment r in
  m_calc_cost_per_part r =
    if (spin d m_parts_per_plate >? 0)%Z
    then total_plate_cost / of_int (spin d m_parts_per_plate)
    else total_plate_cost.
Proof. reflexivity. Qed.

(** Whatever the arithmetic (NaN and infinities of binary64 included):
    when the test [failure_rate < 1.0] fails, the adjustment is the
    constant [0.0]. *)
Lemma failure_adjustment_off (d : InvoiceDialog A) :
  (dspin d m_failure_rate / of_int 100 <? of_int 1) = false ->
  m_calc_failure_adjustment (calc (calculate_costs d)) = of_int 0.
Proof.
  intros Hge. rewrite calc_failure_adjustment_eq. cbv zeta. rewrite Hge. reflexivity.
Qed.
End CostFacts.

(** C1, as the code has it.  In every arithmetic, binary64 included, the
    subtotal is the sum of the material, labor, machine, tooling and
    post-process costs, and the adjustment is the value of
    [subtotal / (1 - f) - subtotal] when the test [f < 1.0] holds and the
    constant [0.0] when it fails (for [f >= 1], and for a NaN).  In exact
    arithmetic with non-zero lifespans (the divisors behind the subtotal,
    which is then finite), for [f] in [0,1) that value equals
    [subtotal * f / (1 - f)] and is non-negative when the subtotal is. *)
Theorem failure_adjustment_formula :
  (forall (A : Type) (N : Num A) (d : InvoiceDialog A),
     let r := calc (calculate_costs d) in
     let f := (dspin d m_failure_rate / of_int 100)%dbl in
     m_calc_subtotal r =
       (m_calc_material_cost r + m_calc_labor_cost r + m_calc_machine_cost r
        + m_calc_tooling_cost r + m_calc_postprocess_cost r)%dbl
     /\ ((f <? of_int 1)%dbl = true ->
         m_calc_failure_adjustment r =
           (m_calc_subtotal r / (of_int 1 - f) - m_calc_subtotal r)%dbl)
     /\ ((f <? of_int 1)%dbl = false -> m_calc_failure_adjustment r = of_int 0))
  /\ (forall d : InvoiceDialog Q,
        ~ (dspin d m_printer_lifespan == 0)%Q ->
        ~ (dspin d m_bed_lifespan == 0)%Q ->
        ~ (dspin d m_nozzle_lifespan_kg == 0)%Q ->
        let r := calc (calculate_costs d) in
        let subtotal := m_calc_subtotal r in
        let f := (dspin d m_failure_rate / 100)%Q in
        ((0 <= f)%Q -> (f < 1)%Q ->
         (m_calc_failure_adjustment r == subtotal * f / (1 - f))%Q
         /\ ((0 <= subtotal)%Q -> (0 <= m_calc_failure_adjustment r)%Q))
        /\ ((1 <= f)%Q -> m_calc_failure_adjustment r = 0%Q)).
Proof.
  split.
  - intros A N d r f. split; [reflexivity|].
    pose proof (calc_failure_adjustment_eq d) as Hadj. cbv zeta in Hadj.
    fold r in Hadj. fold f in Hadj. rewrite Hadj. split; intros ->; reflexivity.
  - intros d _ _ _ r subtotal f.
    assert (Hadj : m_calc_failure_adjustment r =
                   if Qltb f 1 then (subtotal / (1 - f) - subtotal)%Q else 0%Q)
      by reflexivity.
    clearbody r subtotal f. rewrite Hadj. clear Hadj. split.
    + intros Hf0 Hf1. apply Qltb_lt in Hf1 as Hb. rewrite Hb.
      assert (Hne : ~ (1 - f == 0)%Q) by lra.
      assert (Heq : (subtotal / (1 - f) - subtotal == subtotal * f / (1 - f))%Q)
        by (field; exact Hne).
      split; [exact Heq|].
      intros Hs. rewrite Heq. unfold Qdiv.
      apply Qmult_le_0_compat.
      * apply Qmult_le_0_compat; assumption.
      * apply Qinv_le_0_compat. lra.
    + intros Hf1. apply Qltb_ge in Hf1. rewrite Hf1. reflexivity.
Qed.

(** C1 at a concrete job: default controls and one filament costing 10, so
    the subtotal is 20 and the failure rate 5 percent. *)
Lemma failure_adjustment_formula_witness :
  let d := sample_dialog [sample_filament (10 : Q)] in
  (m_calc_subtotal (calc (calculate_costs d)) == 20)%Q
  /\ (m_calc_failure_adjustment (calc (calculate_costs d)) == 20 * (5 / 100) / (1 - 5 / 100))%Q
  /\ (0 <= m_calc_failure_adjustment (calc (calculate_costs d)))%Q.
Proof.
  intros d.
  destruct failure_adjustment_formula as [_ HQ].
  assert (Hpl : ~ (dspin d m_printer_lifespan == 0)%Q) by (vm_compute; discriminate).
  assert (Hbl : ~ (dspin d m_bed_lifespan == 0)%Q) by (vm_compute; discriminate).
  assert (Hnl : ~ (dspin d m_nozzle_lifespan_kg == 0)%Q) by (vm_compute; discriminate).
  destruct (HQ d Hpl Hbl Hnl) as (Hin & _).
  assert (H0 : (0 <= dspin d m_failure_rate / 100)%Q) by (vm_compute; discriminate).
  assert (H1 : (dspin d m_failure_rate / 100 < 1)%Q) by (vm_compute; reflexivity).
  destruct (Hin H0 H1) as [Heq Hpos].
  assert (Hs : (m_calc_subtotal (calc (calculate_costs d)) == 20)%Q)
    by (vm_compute; reflexivity).
  split; [exact Hs|]. split.
  - rewrite Heq. vm_compute. reflexivity.
  - apply Hpos. rewrite Hs. discriminate.
Defined.

(** C1 as stated fails in the arithmetic of the code.  With a printer
    lifespan of 0 hours and a print time of one hour the machine cost and
    the subtotal are [+inf]; at the failure rate of 5 percent, which lies
    in [0,1), the adjustment [inf / 0.95 - inf] is a NaN, hence neither
    [subtotal * f / (1 - f)] (which is [+inf]) nor [>= 0].  And at a finite
    subtotal of 10 the adjustment differs from [subtotal * f / (1 - f)] in
    the last digits. *)
Lemma failure_adjustment_counterexample :
  (let d := zero_lifespan_dialog in
   let r := calc (calculate_costs d) in
   let f := (dspin d m_failure_rate / of_int 100)%dbl in
   PrimFloat.leb (of_int 0) f = true /\ PrimFloat.ltb f (of_int 1) = true
   /\ m_calc_subtotal r = infinity
   /\ PrimFloat.leb (of_int 0) (m_calc_subtotal r) = true
   /\ PrimFloat.is_nan (m_calc_failure_adjustment r) = true
   /\ PrimFloat.leb (of_int 0) (m_calc_failure_adjustment r) = false
   /\ (m_calc_subtotal r * f / (of_int 1 - f))%dbl = infinity)
  /\ (let d := with_dspin (sample_dialog [sample_filament (of_int 10)])
                 (upd default_dbl m_labor_rate (of_int 0)) in
      let r := calc (calculate_costs d) in
      let f := (dspin d m_failure_rate / of_int 100)%dbl in
      m_calc_subtotal r = float_of_Z 10
      /\ PrimFloat.eqb (m_calc_failure_adjustment r)
                       (m_calc_subtotal r * f / (of_int 1 - f))%dbl = false).
Proof. vm_compute. repeat split; reflexivity. Qed.

(** In binary64 the two expressions of the adjustment agree only up to
    rounding: the code's [subtotal/(1-f) - subtotal] at subtotal 10 and a
    failure rate of 5 percent. *)
Example failure_adjustment_binary64 :
  let d := with_dspin (sample_dialog [sample_filament (of_int 10)])
             (upd default_dbl m_labor_rate (of_int 0)) in
  let r := calc (calculate_costs d) in
  m_calc_subtotal r = 10%float
  /\ m_calc_failure_adjustment r = 0.52631578947368496%float
  /\ (10 * (5 / 100) / (1 - 5 / 100))%float = 0.52631578947368418%float.
Proof. vm_compute. repeat split; reflexivity. Qed.

(** A failure rate that is NaN in binary64 fails the test [< 1.0] and
    yields the adjustment [0.0]. *)
Example failure_adjustment_nan :
  let d := with_dspin (sample_dialog [sample_filament (of_int 10)])
             (upd default_dbl m_failure_rate nan) in
  m_calc_failure_adjustment (calc (calculate_costs d)) = 0%float.
Proof. vm_compute. reflexivity. Qed.

(** The decimal literals of the source have in binary64 the value the
    compiler gives them. *)
Example lit_binary64 :
  (lit 314159265359 11 : float) = 3.14159265359%float
  /\ (lit 15 2 : float) = 0.15%float
  /\ (lit 10 2 : float) = 0.1%float
  /\ (lit 124 2 : float) = 1.24%float
  /\ (lit 175 2 : float) = 1.75%float.
Proof. vm_compute. repeat split; reflexivity. Qed.

(** The print-time string of the slicer, component by component. *)
Example parse_time_to_hours_ex :
  (parse_time_to_hours "1d 2h 30m 15s" == 24 + 2 + 30 / 60 + 15 / 3600)%Q
  /\ (parse_time_to_hours "45m" == 45 / 60)%Q
  /\ (parse_time_to_hours "" == 0)%Q
  /\ (parse_time_to_hours "2h5m" : float) = (0 + 2 + 5 / 60)%float.
Proof. vm_compute. repeat split; reflexivity. Qed.

(** The worked example of the specification: four parts per plate, two
    plates, markup 50 percent, subtotal 10, failure rate 5 percent. *)
Example worked_pricing_example :
  let d0 := sample_dialog [sample_filament (10 : Q)] in
  let d := with_spin (with_dspin d0 (upd (dspin d0) m_labor_rate 0%Q))
             (upd (upd (spin d0) m_parts_per_plate 4) m_num_plates 2) in
  let r := calc (calculate_costs d) in
  (m_calc_subtotal r == 10)%Q
  /\ (m_calc_failure_adjustment r == 10 # 19)%Q
  /\ (m_calc_cost_per_part r == 50 # 19)%Q
  /\ (m_calc_markup_amount r == 25 # 19)%Q
  /\ (m_calc_final_price r == 75 # 19)%Q
  /\ (m_calc_total_job_cost r == 600 # 19)%Q.
Proof. vm_compute. repeat split; reflexivity. Qed.

(** C7.  The cost per part is the total plate cost (subtotal plus failure
    adjustment) divided by [parts_per_plate] when that is positive and the
    total plate cost itself when it is zero (or negative), in every
    arithmetic; the divisor of the division is then never zero. *)
Theorem cost_per_part_guarded :
  (forall (A : Type) (N : Num A) (d : InvoiceDialog A),
     let r := calc (calculate_costs d) in
     let total_plate_cost := (m_calc_subtotal r + m_calc_failure_adjustment r)%dbl in
     let parts_per_plate := spin d m_parts_per_plate in
     (0 < parts_per_plate ->
      m_calc_cost_per_part r = (total_plate_cost / of_int parts_per_plate)%dbl)
     /\ (parts_per_plate = 0 -> m_calc_cost_per_part r = total_plate_cost)
     /\ (parts_per_plate <= 0 -> m_calc_cost_per_part r = total_plate_cost))
  /\ (forall parts_per_plate : Z,
        (parts_per_plate >? 0) = true -> ~ (of_int parts_per_plate == 0)%Q).
Proof.
  split.
  - intros A N d r total_plate_cost parts_per_plate.
    assert (Hcpp : m_calc_cost_per_part r =
                   if parts_per_plate >? 0
                   then (total_plate_cost / of_int parts_per_plate)%dbl
                   else total_plate_cost) by reflexivity.
    clearbody r total_plate_cost parts_per_plate. rewrite Hcpp.
    repeat split; intros Hp.
    + destruct (Z.gtb_spec parts_per_plate 0); [reflexivity | lia].
    + subst parts_per_plate. reflexivity.
    + destruct (Z.gtb_spec parts_per_plate 0); [lia | reflexivity].
  - intros parts_per_plate Hp Hz.
    apply Z.gtb_lt in Hp. cbn in Hz. unfold Qeq in Hz. cbn in Hz. lia.
Qed.

(** C7 at [parts_per_plate = 0] and at [parts_per_plate = 4]. *)
Lemma cost_per_part_guarded_witness :
  let d0 := with_spin (sample_dialog [sample_filament (10 : Q)])
              (upd default_int m_parts_per_plate 0) in
  let d4 := with_spin (sample_dialog [sample_filament (10 : Q)])
              (upd default_int m_parts_per_plate 4) in
  m_calc_cost_per_part (calc (calculate_costs d0)) =
    (m_calc_subtotal (calc (calculate_costs d0))
     + m_calc_failure_adjustment (calc (calculate_costs d0)))%Q
  /\ m_calc_cost_per_part (calc (calculate_costs d4)) =
       ((m_calc_subtotal (calc (calculate_costs d4))
         + m_calc_failure_adjustment (calc (calculate_costs d4))) / 4)%Q.
Proof.
  intros d0 d4. destruct cost_per_part_guarded as [Hall _]. split.
  - apply (Hall Q Q_Num d0). reflexivity.
  - apply (Hall Q Q_Num d4). reflexivity.
Defined.

(** C10.  [solvent_cost] is read by [calculate_costs] but enters no
    formula: two states that differ only in that control get the same
    results, in every arithmetic. *)
Theorem solvent_cost_unused (A : Type) (N : Num A) (d1 d2 : InvoiceDialog A) :
  (forall c, c <> m_solvent_cost -> dspin d1 c = dspin d2 c) ->
  (forall c, spin d1 c = spin d2 c) ->
  m_filament_data d1 = m_filament_data d2 ->
  m_stats d1 = m_stats d2 ->
  calc (calculate_costs d1) = calc (calculate_costs d2).
Proof.
  intros Hd Hs Hf Ht. unfold calculate_costs. cbn [calc with_calc].
  rewrite Hf, Ht, !Hs.
  repeat match goal with
         | |- context [dspin d1 ?c] => rewrite (Hd c) by discriminate
         end.
  reflexivity.
Qed.

(** C10 at two states whose solvent cost is 0 and 7. *)
Lemma solvent_cost_unused_witness :
  let d1 := sample_dialog [sample_filament (10 : Q)] in
  let d2 := with_dspin d1 (upd (dspin d1) m_solvent_cost (7 : Q)) in
  dspin d1 m_solvent_cost <> dspin d2 m_solvent_cost
  /\ calc (calculate_costs d1) = calc (calculate_costs d2).
Proof.
  intros d1 d2. split; [discriminate|].
  apply (solvent_cost_unused Q Q_Num d1 d2); try reflexivity.
  intros c Hc. destruct c; try reflexivity. congruence.
Defined.

(** ** The filament usage resolver *)

Section ResolverFacts.
Context {A : Type} `{Num A} `{NumText A}.
Local Open Scope dbl_scope.

Lemma resolve_filament_ok presets stats cost density diameter id usage d :
  stod_or (get_val presets "filament_cost" id) (of_int 20) = inr cost ->
  stod_or (get_val presets "filament_density" id) (lit 124 2) = inr density ->
  stod_or (get_val presets "filament_diameter" id) (lit 175 2) = inr diameter ->
  resolve_filament presets stats id usage d =
    (with_filament_data d
       (m_filament_data d ++ [resolved_entry presets stats cost density diameter id usage]),
     inr tt).
Proof.
  intros Hc Hd Hm. unfold resolve_filament, bind, call.
  rewrite Hc, Hd, Hm. reflexivity.
Qed.

Lemma for_each_usage_ok presets stats (cost density diameter : nat -> A) l :
  (forall id usage, In (id, usage) l ->
     stod_or (get_val presets "filament_cost" id) (of_int 20) = inr (cost id)
     /\ stod_or (get_val presets "filament_density" id) (lit 124 2) = inr (density id)
     /\ stod_or (get_val presets "filament_diameter" id) (lit 175 2) = inr (diameter id)) ->
  forall d,
  for_each_usage (resolve_filament presets stats) l d =
    (with_filament_data d
       (m_filament_data d ++
        map (fun iu => resolved_entry presets stats (cost iu.1) (density iu.1)
                         (diameter iu.1) iu.1 iu.2) l),
     inr tt).
Proof.
  induction l as [|[id usage] l IH]; intros Hl d.
  - cbn. rewrite app_nil_r. destruct d; reflexivity.
  - destruct (Hl id usage (or_introl eq_refl)) as (Hc & Hd & Hm).
    cbn [for_each_usage]. unfold bind at 1.
    rewrite (resolve_filament_ok _ _ _ _ _ _ _ _ Hc Hd Hm).
    rewrite IH by (intros i u Hi; apply (Hl i u); right; exact Hi).
    cbn [m_filament_data with_filament_data map fst snd].
    rewrite <- app_assoc. reflexivity.
Qed.

(** C2, as the code has it.  When every preset lookup parses, the resolver
    returns normally with one entry per extruder of the statistics, in
    order; when the single-extruder total-weight override does not apply,
    the raw consumption is multiplied by the cross-section area
    [pi * (diameter/2)^2] before the density:
    [weight_g = usage * area * density / 1000]. *)
Theorem weight_from_usage_and_area
    (d : InvoiceDialog A) (presets : PresetBundle A) (stats : PrintStatistics A)
    (cost density diameter : nat -> A) :
  m_stats d = Some stats ->
  preset_bundle d = Some presets ->
  filament_stats stats <> [] ->
  ((length (filament_stats stats) =? 1)%nat && (of_int 0 <? total_weight stats)) = false ->
  (forall id usage, In (id, usage) (filament_stats stats) ->
     stod_or (get_val presets "filament_cost" id) (of_int 20) = inr (cost id)
     /\ stod_or (get_val presets "filament_density" id) (lit 124 2) = inr (density id)
     /\ stod_or (get_val presets "filament_diameter" id) (lit 175 2) = inr (diameter id)) ->
  exists d',
    populate_filament_data d = (d', inr tt)
    /\ Forall2 (fun (iu : nat * A) (e : FilamentData A) =>
                  extruder_id e = iu.1
                  /\ weight_g e =
                       iu.2 * (pi_literal * (diameter iu.1 / of_int 2) * (diameter iu.1 / of_int 2))
                       * density iu.1 / of_int 1000
                  /\ cost_per_kg e = cost iu.1
                  /\ calculated_cost e = (weight_g e / of_int 1000) * cost_per_kg e)
               (filament_stats stats) (m_filament_data d').
Proof.
  intros Hs Hp Hne Hov Hall.
  assert (Hmap : forall l : list (nat * A),
            Forall2 (fun (iu : nat * A) (e : FilamentData A) =>
                  extruder_id e = iu.1
                  /\ weight_g e =
                       iu.2 * (pi_literal * (diameter iu.1 / of_int 2) * (diameter iu.1 / of_int 2))
                       * density iu.1 / of_int 1000
                  /\ cost_per_kg e = cost iu.1
                  /\ calculated_cost e = (weight_g e / of_int 1000) * cost_per_kg e)
              l (map (fun iu => resolved_entry presets stats (cost iu.1) (density iu.1)
                                  (diameter iu.1) iu.1 iu.2) l)).
  { induction l as [|iu l IH]; constructor; [|exact IH].
    unfold resolved_entry. cbn. rewrite Hov. repeat split. }
  unfold populate_filament_data, bind, modify.
  cbn [m_stats preset_bundle with_filament_data]. rewrite Hs, Hp.
  rewrite (for_each_usage_ok presets stats cost density diameter _ Hall).
  cbn [m_filament_data with_filament_data app].
  specialize (Hmap (filament_stats stats)).
  destruct (filament_stats stats) as [|iu l]; [congruence|].
  cbn [map] in *. eexists. split; [reflexivity|].
  cbn [m_filament_data with_filament_data]. exact Hmap.
Qed.
End ResolverFacts.

(** C2 as stated fails: for extruder 0 of [usage_stats] (consumption 100,
    default density 1.24 and diameter 1.75) the code stores
    [100 * area * 1.24 / 1000], not [100 * 1.24 / 1000]. *)
Lemma weight_ignores_area_counterexample :
  exists e rest,
    m_filament_data (fst (populate_filament_data usage_dialog)) = e :: rest
    /\ extruder_id e = 0%nat
    /\ ~ (weight_g e == 100 * (124 # 100) / 1000)%Q
    /\ (weight_g e ==
        100 * ((314159265359 # 100000000000) * ((175 # 100) / 2) * ((175 # 100) / 2))
        * (124 # 100) / 1000)%Q.
Proof.
  eexists. eexists. split; [vm_compute; reflexivity|].
  split; [reflexivity|]. split; [|vm_compute; reflexivity].
  vm_compute. discriminate.
Qed.

(** C2 (amended) on [usage_dialog]: nothing is read from the presets, so
    the defaults 20, 1.24 and 1.75 are used for both extruders. *)
Lemma weight_from_usage_and_area_witness :
  exists d',
    populate_filament_data usage_dialog = (d', inr tt)
    /\ Forall2 (fun (iu : nat * Q) (e : FilamentData Q) =>
                  extruder_id e = iu.1
                  /\ weight_g e =
                       (iu.2 * (pi_literal * (lit 175 2 / 2) * (lit 175 2 / 2))
                        * lit 124 2 / 1000)%Q
                  /\ cost_per_kg e = 20%Q
                  /\ calculated_cost e = ((weight_g e / 1000) * cost_per_kg e)%Q)
               [(0%nat, 100%Q); (1%nat, 50%Q)] (m_filament_data d').
Proof.
  assert (Hparse : forall (id : nat) (usage : Q),
            In (id, usage) (filament_stats usage_stats) ->
            stod_or (get_val bare_presets "filament_cost" id) (of_int 20) = inr 20%Q
            /\ stod_or (get_val bare_presets "filament_density" id) (lit 124 2)
               = inr (lit 124 2)
            /\ stod_or (get_val bare_presets "filament_diameter" id) (lit 175 2)
               = inr (lit 175 2)).
  { intros id usage _. unfold get_val. cbn [project_config bare_presets].
    rewrite !lookup_empty. repeat split. }
  assert (Hne : filament_stats usage_stats <> []) by discriminate.
  exact (weight_from_usage_and_area usage_dialog bare_presets usage_stats
           (fun _ => 20%Q) (fun _ => lit 124 2) (fun _ => lit 175 2)
           eq_refl eq_refl Hne eq_refl Hparse).
Defined.

(** ** The registry of profile names *)

Lemma fold_left_joined (names : list string) : forall s0,
  fold_left (fun new_list p => new_list ++ (p ++ ";")) names s0 = s0 ++ joined names.
Proof.
  induction names as [|p names IH]; intros s0; cbn [fold_left joined fold_right].
  - rewrite append_nil_r. reflexivity.
  - rewrite IH, append_assoc. reflexivity.
Qed.

Lemma join_profiles_joined (names : list string) : join_profiles names = joined names.
Proof. unfold join_profiles. rewrite fold_left_joined. reflexivity. Qed.

Lemma fold_left_delete (name : string) (items : list string) : forall s0,
  fold_left (fun new_list item =>
               if negb (String.eqb item name) then new_list ++ (item ++ ";") else new_list)
            items s0
  = s0 ++ joined (List.filter (fun item => negb (String.eqb item name)) items).
Proof.
  induction items as [|p items IH]; intros s0; cbn [fold_left List.filter].
  - cbn. rewrite append_nil_r. reflexivity.
  - rewrite IH. destruct (negb (String.eqb p name)); [|reflexivity].
    cbn [joined fold_right]. rewrite append_assoc. reflexivity.
Qed.

Lemma getlines_item (p rest : string) :
  semicolon_free p = true -> getlines ((p ++ ";") ++ rest) = p :: getlines rest.
Proof.
  induction p as [|c p IH]; intros Hp.
  - reflexivity.
  - cbn [semicolon_free] in Hp. apply andb_true_iff in Hp as [Hc Hp].
    apply negb_true_iff in Hc.
    rewrite !append_cons. cbn [getlines]. rewrite Hc, (IH Hp). reflexivity.
Qed.

Lemma getlines_joined (names : list string) :
  Forall (fun p => semicolon_free p = true) names -> getlines (joined names) = names.
Proof.
  induction 1 as [|p names Hp _ IH]; [reflexivity|].
  cbn [joined fold_right]. rewrite (getlines_item _ _ Hp). fold (joined names).
  rewrite IH. reflexivity.
Qed.

Lemma append_inj_l (p a b : string) : p ++ a = p ++ b -> a = b.
Proof.
  induction p as [|c p IH]; [trivial|].
  rewrite !append_cons. intros Heq. injection Heq as Heq. exact (IH Heq).
Qed.

(** No data key of a profile is the registry key. *)
Lemma data_key_not_registry (profile_name key : string) :
  profile_prefix profile_name ++ key <> "invoice_profiles".
Proof.
  unfold profile_prefix. rewrite !append_cons. discriminate.
Qed.

Section RegistryFacts.
Context {A : Type} `{Num A} `{NumText A}.

Lemma save_profile_fields_registry (profile_name : string) (d : InvoiceDialog A)
    (config : gmap string string) :
  config_get (save_profile_fields (profile_prefix profile_name) d config) "invoice_profiles"
  = config_get config "invoice_profiles".
Proof.
  unfold save_profile_fields, config_set, config_get.
  rewrite !lookup_insert_ne by apply data_key_not_registry.
  reflexivity.
Qed.

Lemma valid_names_semicolon_free (names : list string) :
  Forall valid_name names -> Forall (fun p => semicolon_free p = true) names.
Proof. intros Hf. eapply Forall_impl; [exact Hf|]. intros n [_ Hn]. exact Hn. Qed.

Lemma valid_names_nonempty (names : list string) :
  Forall valid_name names ->
  List.filter (fun item => negb (emptyb item)) names = names.
Proof.
  induction 1 as [|n names [Hn _] _ IH]; [reflexivity|].
  cbn [List.filter]. destruct n; [congruence|]. cbn. rewrite IH. reflexivity.
Qed.

Lemma registry_holds_list (d : InvoiceDialog A) (names : list string) :
  registry_holds d names -> list_profiles d = names.
Proof.
  intros (_ & Hreg & Hval & _). unfold list_profiles. rewrite Hreg.
  rewrite getlines_joined by (apply valid_names_semicolon_free; exact Hval).
  apply valid_names_nonempty. exact Hval.
Qed.

Lemma existsb_eqb_In (name : string) (names : list string) :
  existsb (fun item => String.eqb item name) names = true <-> In name names.
Proof.
  rewrite existsb_exists. split.
  - intros (x & Hx & Heq). apply String.eqb_eq in Heq. subst x. exact Hx.
  - intros Hin. exists name. split; [exact Hin | apply String.eqb_refl].
Qed.

Lemma registry_save (profile_name : string) (d : InvoiceDialog A) (config : gmap string string) :
  app_config d = Some config -> profile_name <> "" ->
  registry (save_job_profile profile_name d) =
    config_get (register_profile profile_name
                  (save_profile_fields (profile_prefix profile_name) d config))
               "invoice_profiles".
Proof.
  intros Hc Hn. unfold save_job_profile. rewrite Hc.
  destruct profile_name; [congruence|]. reflexivity.
Qed.

Lemma save_registry_holds (profile_name : string) (d : InvoiceDialog A) (names : list string) :
  registry_holds d names -> valid_name profile_name ->
  (In profile_name names ->
     registry (save_job_profile profile_name d) = registry d
     /\ registry_holds (save_job_profile profile_name d) names)
  /\ (~ In profile_name names ->
     registry_holds (save_job_profile profile_name d) (names ++ [profile_name])%list).
Proof.
  intros ([config Hc] & Hreg & Hval & Hnd) Hname.
  assert (Happ : exists config', app_config (save_job_profile profile_name d) = Some config').
  { unfold save_job_profile. rewrite Hc.
    destruct profile_name; [exists config; exact Hc | eexists; reflexivity]. }
  pose proof (registry_save profile_name d config Hc (proj1 Hname)) as Hsave.
  unfold register_profile in Hsave.
  rewrite save_profile_fields_registry in Hsave.
  unfold registry in Hreg. rewrite Hc in Hreg. rewrite Hreg in Hsave.
  rewrite getlines_joined in Hsave by (apply valid_names_semicolon_free; exact Hval).
  split; intros Hin.
  - apply existsb_eqb_In in Hin as Hfound. rewrite Hfound in Hsave.
    rewrite save_profile_fields_registry, Hreg in Hsave.
    assert (Heq : registry (save_job_profile profile_name d) = registry d).
    { rewrite Hsave. unfold registry. rewrite Hc. symmetry. exact Hreg. }
    split; [exact Heq|]. repeat split; try assumption.
  - assert (Hfound : existsb (fun item => String.eqb item profile_name) names = false).
    { destruct (existsb _ names) eqn:E; [|reflexivity].
      apply existsb_eqb_In in E. contradiction. }
    rewrite Hfound in Hsave. unfold config_set, config_get in Hsave.
    rewrite lookup_insert_eq, join_profiles_joined in Hsave.
    repeat split; try assumption.
    + apply Forall_app. split; [exact Hval | constructor; [exact Hname | constructor]].
    + apply List.NoDup_app; [exact Hnd | repeat constructor; intros [] |].
      intros x Hx [<-|[]]. contradiction.
Qed.

Lemma registry_delete (profile_name : string) (d : InvoiceDialog A) (names : list string) :
  registry_holds d names -> profile_name <> "" ->
  registry_holds (delete_job_profile profile_name d)
    (List.filter (fun item => negb (String.eqb item profile_name)) names).
Proof.
  intros ([config Hc] & Hreg & Hval & Hnd) Hname.
  unfold registry in Hreg. rewrite Hc in Hreg.
  unfold registry_holds, registry, delete_job_profile. rewrite Hc.
  destruct profile_name as [|c n]; [congruence|]. cbn [emptyb].
  cbn [refresh_job_profiles_combo app_config with_app_config with_combo].
  split; [eexists; reflexivity|]. split; [|split].
  - unfold config_set, config_get at 1. rewrite lookup_insert_eq.
    rewrite fold_left_delete, append_nil_l, Hreg.
    rewrite getlines_joined by (apply valid_names_semicolon_free; exact Hval).
    reflexivity.
  - apply List.Forall_forall. intros x Hx. apply filter_In in Hx as [Hx _].
    revert x Hx. apply List.Forall_forall. exact Hval.
  - apply List.NoDup_filter. exact Hnd.
Qed.

Lemma run_ops_registry_holds (ops : list ProfileOp) : forall (d : InvoiceDialog A) names,
  registry_holds d names ->
  Forall (fun op => valid_name (op_name op)) ops ->
  exists names', registry_holds (run_ops ops d) names'.
Proof.
  induction ops as [|op ops IH]; intros d names Hd Hops.
  - exists names. exact Hd.
  - inversion Hops as [|? ? Hop Hops']; subst.
    destruct op as [n|n]; cbn [op_name] in Hop; cbn [run_ops fold_left run_op].
    + destruct (save_registry_holds n d names Hd Hop) as [Hin Hout].
      destruct (in_dec string_dec n names) as [Hn|Hn].
      * apply (IH _ names); [apply Hin; exact Hn | exact Hops'].
      * apply (IH _ (names ++ [n])%list); [apply Hout; exact Hn | exact Hops'].
    + eapply IH; [apply registry_delete; [exact Hd | apply Hop] | exact Hops'].
Qed.

(** C4, for names without the delimiter.  Starting from an empty registry,
    after any sequence of [save_job_profile] and [delete_job_profile] calls
    whose names are non-empty and contain no [;], the names parsed from the
    registry are duplicate-free; saving a name that is present leaves the
    registry string unchanged; deleting a name removes it; saving an absent
    name (in particular one just deleted) appends it at the end. *)
Theorem registry_duplicate_free (d0 : InvoiceDialog A) (ops : list ProfileOp)
    (profile_name : string) :
  (exists config, app_config d0 = Some config) ->
  registry d0 = "" ->
  Forall (fun op => valid_name (op_name op)) ops ->
  valid_name profile_name ->
  let d := run_ops ops d0 in
  List.NoDup (list_profiles d)
  /\ (In profile_name (list_profiles d) ->
      registry (save_job_profile profile_name d) = registry d)
  /\ ~ In profile_name (list_profiles (delete_job_profile profile_name d))
  /\ (~ In profile_name (list_profiles d) ->
      list_profiles (save_job_profile profile_name d) = (list_profiles d ++ [profile_name])%list)
  /\ list_profiles (save_job_profile profile_name (delete_job_profile profile_name d))
     = (list_profiles (delete_job_profile profile_name d) ++ [profile_name])%list.
Proof.
  intros Hc Hreg Hops Hname d.
  assert (Hinit : registry_holds d0 []).
  { repeat split; [exact Hc | exact Hreg | constructor | apply List.NoDup_nil]. }
  destruct (run_ops_registry_holds ops d0 [] Hinit Hops) as [names Hd].
  fold d in Hd.
  pose proof (registry_holds_list d names Hd) as Hlist.
  pose proof (registry_delete profile_name d names Hd (proj1 Hname)) as Hdel.
  pose proof (registry_holds_list _ _ Hdel) as Hdlist.
  assert (Hgone : ~ In profile_name
                      (List.filter (fun item => negb (String.eqb item profile_name)) names)).
  { intros Hin. apply filter_In in Hin as [_ Hne].
    rewrite String.eqb_refl in Hne. discriminate. }
  destruct (save_registry_holds profile_name d names Hd Hname) as [Hin Hout].
  destruct (save_registry_holds profile_name _ _ Hdel Hname) as [_ Hout'].
  rewrite Hlist, Hdlist. repeat split.
  - destruct Hd as (_ & _ & _ & Hnd). exact Hnd.
  - intros Hp. apply Hin. exact Hp.
  - exact Hgone.
  - intros Hp. apply registry_holds_list. apply Hout. exact Hp.
  - apply registry_holds_list. apply Hout'. exact Hgone.
Qed.
End RegistryFacts.

Lemma registry_duplicate_free_witness :
  let d := run_ops [SaveProfile "alpha"; SaveProfile "beta"; DeleteProfile "alpha";
                    SaveProfile "beta"] (sample_dialog (A := Q) []) in
  list_profiles d = ["beta"]
  /\ List.NoDup (list_profiles d)
  /\ list_profiles (save_job_profile "alpha" d) = ["beta"; "alpha"].
Proof.
  intros d.
  assert (Hv : forall n, negb (emptyb n) && semicolon_free n = true -> valid_name n).
  { intros n Hn. apply andb_true_iff in Hn as [Hn1 Hn2]. split; [|exact Hn2].
    destruct n; [discriminate | congruence]. }
  destruct (registry_duplicate_free (sample_dialog (A := Q) [])
              [SaveProfile "alpha"; SaveProfile "beta"; DeleteProfile "alpha";
               SaveProfile "beta"] "alpha") as (Hnd & _ & _ & Happend & _).
  - eexists. reflexivity.
  - reflexivity.
  - repeat constructor; apply Hv; reflexivity.
  - apply Hv. reflexivity.
  - fold d in Hnd, Happend.
    assert (Hl : list_profiles d = ["beta"]) by (vm_compute; reflexivity).
    split; [exact Hl|]. split; [exact Hnd|].
    rewrite Happend; [rewrite Hl; reflexivity|].
    rewrite Hl. intros [Hx|[]]. discriminate Hx.
Defined.

Lemma registry_duplicates_counterexample :
  let d := run_ops [SaveProfile "a;b"; SaveProfile "a;b"] (sample_dialog (A := Q) []) in
  list_profiles d = ["a"; "b"; "a"; "b"] /\ ~ List.NoDup (list_profiles d).
Proof.
  intros d.
  assert (Hl : list_profiles d = ["a"; "b"; "a"; "b"]) by (vm_compute; reflexivity).
  split; [exact Hl|]. rewrite Hl. intros Hnd.
  apply List.NoDup_cons_iff in Hnd as [Hnotin _]. apply Hnotin. right. left. reflexivity.
Qed.

(** ** Loading and saving a profile *)

Section MonadFacts.
Context {A : Type}.
Implicit Types d : InvoiceDialog A.

Lemma bind_inr {X Y} (c : M A X) (k : X -> M A Y) d d' (y : Y) :
  bind c k d = (d', inr y) ->
  exists x d1, c d = (d1, inr x) /\ k x d1 = (d', inr y).
Proof.
  unfold bind. destruct (c d) as [d1 [e|x]]; [discriminate|].
  intros Hk. exists x, d1. split; [reflexivity | exact Hk].
Qed.

Lemma call_inr {X} (r : exn + X) d d' (x : X) :
  call r d = (d', inr x) -> r = inr x /\ d' = d.
Proof. unfold call. intros Heq. injection Heq as -> ->. split; reflexivity. Qed.

Lemma returns_bind {X Y} (c : M A X) (k : X -> M A Y) d (Q : Y -> InvoiceDialog A -> Prop) :
  returns c d (fun x d1 => returns (k x) d1 Q) -> returns (bind c k) d Q.
Proof.
  intros (d1 & x & Hc & d' & y & Hk & HQ). exists d', y. split; [|exact HQ].
  unfold bind. rewrite Hc. exact Hk.
Qed.

Lemma returns_call {X} (r : exn + X) (x : X) d (Q : X -> InvoiceDialog A -> Prop) :
  r = inr x -> Q x d -> returns (call r) d Q.
Proof. intros -> HQ. exists d, x. split; [reflexivity | exact HQ]. Qed.

Lemma SetValue_txt_run c v d :
  exists d1, SetValue_txt c v d = (d1, inr tt)
    /\ txt d1 = upd (txt d) c v /\ spin d1 = spin d /\ dspin d1 = dspin d
    /\ frame d1 = frame d.
Proof. eexists. repeat split. Qed.

Lemma SetValue_int_run c v d :
  exists d1, SetValue_int c v d = (d1, inr tt)
    /\ txt d1 = txt d /\ spin d1 = upd (spin d) c v /\ dspin d1 = dspin d
    /\ frame d1 = frame d.
Proof. eexists. repeat split. Qed.

Lemma SetValue_dbl_run c (v : A) d :
  exists d1, SetValue_dbl c v d = (d1, inr tt)
    /\ txt d1 = txt d /\ spin d1 = spin d /\ dspin d1 = upd (dspin d) c v
    /\ frame d1 = frame d.
Proof. eexists. repeat split. Qed.

Lemma returns_SetValue_txt c v d (Q : unit -> InvoiceDialog A -> Prop) :
  (forall d1, txt d1 = upd (txt d) c v -> spin d1 = spin d -> dspin d1 = dspin d ->
              frame d1 = frame d -> Q tt d1) ->
  returns (SetValue_txt c v) d Q.
Proof.
  intros HQ. destruct (SetValue_txt_run c v d) as (d1 & Hrun & Ht & Hs & Hd & Hf).
  exists d1, tt. split; [exact Hrun | apply HQ; assumption].
Qed.

Lemma returns_SetValue_int c v d (Q : unit -> InvoiceDialog A -> Prop) :
  (forall d1, txt d1 = txt d -> spin d1 = upd (spin d) c v -> dspin d1 = dspin d ->
              frame d1 = frame d -> Q tt d1) ->
  returns (SetValue_int c v) d Q.
Proof.
  intros HQ. destruct (SetValue_int_run c v d) as (d1 & Hrun & Ht & Hs & Hd & Hf).
  exists d1, tt. split; [exact Hrun | apply HQ; assumption].
Qed.

Lemma returns_SetValue_dbl c (v : A) d (Q : unit -> InvoiceDialog A -> Prop) :
  (forall d1, txt d1 = txt d -> spin d1 = spin d -> dspin d1 = upd (dspin d) c v ->
              frame d1 = frame d -> Q tt d1) ->
  returns (SetValue_dbl c v) d Q.
Proof.
  intros HQ. destruct (SetValue_dbl_run c v d) as (d1 & Hrun & Ht & Hs & Hd & Hf).
  exists d1, tt. split; [exact Hrun | apply HQ; assumption].
Qed.

Lemma SetValue_txt_inr c v d d' u :
  SetValue_txt c v d = (d', inr u) ->
  txt d' = upd (txt d) c v /\ spin d' = spin d /\ dspin d' = dspin d /\ frame d' = frame d.
Proof.
  destruct (SetValue_txt_run c v d) as (d1 & -> & Hrest). intros Heq.
  injection Heq as <-. exact Hrest.
Qed.

Lemma SetValue_int_inr c v d d' u :
  SetValue_int c v d = (d', inr u) ->
  txt d' = txt d /\ spin d' = upd (spin d) c v /\ dspin d' = dspin d /\ frame d' = frame d.
Proof.
  destruct (SetValue_int_run c v d) as (d1 & -> & Hrest). intros Heq.
  injection Heq as <-. exact Hrest.
Qed.

Lemma SetValue_dbl_inr c (v : A) d d' u :
  SetValue_dbl c v d = (d', inr u) ->
  txt d' = txt d /\ spin d' = spin d /\ dspin d' = upd (dspin d) c v /\ frame d' = frame d.
Proof.
  destruct (SetValue_dbl_run c v d) as (d1 & -> & Hrest). intros Heq.
  injection Heq as <-. exact Hrest.
Qed.
End MonadFacts.

Section LoadFacts.
Context {A : Type} `{Num A} `{NumText A}.

Lemma calculate_costs_controls (d : InvoiceDialog A) :
  txt (calculate_costs d) = txt d /\ spin (calculate_costs d) = spin d
  /\ dspin (calculate_costs d) = dspin d /\ frame (calculate_costs d) = frame d.
Proof. repeat split. Qed.

Lemma modify_calculate_costs_inr (d d' : InvoiceDialog A) u :
  modify calculate_costs d = (d', inr u) ->
  d' = calculate_costs d
  /\ txt d' = txt d /\ spin d' = spin d /\ dspin d' = dspin d /\ frame d' = frame d.
Proof.
  unfold modify. intros Heq. injection Heq as <-. split; [reflexivity|].
  apply calculate_costs_controls.
Qed.

(** A normal return of [load_job_profile] means that every numeric field
    was read: the controls hold what [get_int] and [get_dbl] returned, and
    the text controls hold the stored texts. *)
Lemma load_job_profile_inr (profile_name : string) (config : gmap string string)
    (d d' : InvoiceDialog A) :
  app_config d = Some config -> profile_name <> "" ->
  load_job_profile profile_name d = (d', inr tt) ->
  (forall c, get_int_result (config_get config (profile_prefix profile_name ++ int_key c))
               (default_int c) = inr (spin d' c))
  /\ (forall c, get_dbl_result (config_get config (profile_prefix profile_name ++ dbl_key c))
                  (default_dbl c) = inr (dspin d' c))
  /\ (forall c, txt d' c = match txt_key c with
                           | Some k => config_get config (profile_prefix profile_name ++ k)
                           | None => txt d c
                           end)
  /\ frame d' = frame d.
Proof.
  intros Hc Hn Hload. unfold load_job_profile in Hload. rewrite Hc in Hload.
  destruct profile_name as [|a n]; [congruence|]. cbn [emptyb] in Hload.
  cbv zeta in Hload.
  repeat match goal with
         | Hb : bind _ _ _ = (_, inr _) |- _ =>
             apply bind_inr in Hb; let Hk := fresh "Hk" in
             destruct Hb as (? & ? & ? & Hk); cbv beta in Hk
         | Hb : call _ _ = (_, inr _) |- _ =>
             apply call_inr in Hb; destruct Hb as [? ->]
         | Hb : SetValue_txt _ _ _ = (_, inr _) |- _ =>
             apply SetValue_txt_inr in Hb; destruct Hb as (? & ? & ? & ?)
         | Hb : SetValue_int _ _ _ = (_, inr _) |- _ =>
             apply SetValue_int_inr in Hb; destruct Hb as (? & ? & ? & ?)
         | Hb : SetValue_dbl _ _ _ = (_, inr _) |- _ =>
             apply SetValue_dbl_inr in Hb; destruct Hb as (? & ? & ? & ?)
         | Hb : modify calculate_costs _ = (_, inr _) |- _ =>
             apply modify_calculate_costs_inr in Hb; destruct Hb as (_ & ? & ? & ? & ?)
         end.
  repeat match goal with
         | Hs : txt ?x = _ |- context [txt ?x] => rewrite Hs
         | Hs : spin ?x = _ |- context [spin ?x] => rewrite Hs
         | Hs : dspin ?x = _ |- context [dspin ?x] => rewrite Hs
         | Hs : frame ?x = _ |- context [frame ?x] => rewrite Hs
         end.
  unfold get_int_result, get_dbl_result, profile_prefix.
  repeat split; intros c; destruct c; cbn [upd decide decide_rel int_key dbl_key txt_key
    default_int default_dbl]; cbn; assumption || reflexivity.
Qed.

Lemma returns_ext {X} (c c' : M A X) (d : InvoiceDialog A)
    (Q : X -> InvoiceDialog A -> Prop) :
  c d = c' d -> returns c' d Q -> returns c d Q.
Proof. unfold returns. intros ->. trivial. Qed.

Lemma returns_modify (f : InvoiceDialog A -> InvoiceDialog A) (d : InvoiceDialog A)
    (Q : unit -> InvoiceDialog A -> Prop) :
  Q tt (f d) -> returns (modify f) d Q.
Proof. intros HQ. exists (f d), tt. split; [reflexivity | exact HQ]. Qed.

(** When every stored numeric field parses, [load_job_profile] returns
    normally. *)
Lemma load_job_profile_returns (profile_name : string) (config : gmap string string)
    (d : InvoiceDialog A) (iv : IntCtrl -> Z) (dv : DblCtrl -> A) :
  app_config d = Some config -> profile_name <> "" ->
  (forall c, get_int_result (config_get config (profile_prefix profile_name ++ int_key c))
               (default_int c) = inr (iv c)) ->
  (forall c, get_dbl_result (config_get config (profile_prefix profile_name ++ dbl_key c))
               (default_dbl c) = inr (dv c)) ->
  exists d', load_job_profile profile_name d = (d', inr tt).
Proof.
  intros Hc Hn Hi Hd.
  assert (Hret : returns (load_job_profile profile_name) d (fun _ _ => True)).
  { pose proof (Hi m_parts_per_plate). pose proof (Hi m_num_plates).
    pose proof (Hd m_failure_rate). pose proof (Hd m_labor_rate).
    pose proof (Hd m_prep_time). pose proof (Hd m_setup_time).
    pose proof (Hd m_finishing_per_part). pose proof (Hd m_finishing_per_plate).
    pose proof (Hd m_printer_cost). pose proof (Hd m_printer_lifespan).
    pose proof (Hd m_maintenance_cost). pose proof (Hd m_power_watts).
    pose proof (Hd m_electricity_cost). pose proof (Hd m_bed_cost).
    pose proof (Hd m_bed_lifespan). pose proof (Hd m_nozzle_cost).
    pose proof (Hd m_nozzle_lifespan_kg). pose proof (Hd m_solvent_cost).
    pose proof (Hd m_solving_time). pose proof (Hd m_tank_power).
    pose proof (Hd m_finishing_materials). pose proof (Hd m_markup_percent).
    clear Hi Hd.
    unfold get_int_result, get_dbl_result, profile_prefix in *.
    cbn [int_key dbl_key default_int default_dbl] in *.
    destruct profile_name as [|a n]; [congruence|].
    eapply returns_ext;
      [unfold load_job_profile; rewrite Hc; cbn [emptyb]; cbv zeta; reflexivity|].
    repeat first
      [ apply returns_bind
      | eapply returns_call; [eassumption|]
      | apply returns_SetValue_txt; intros ? _ _ _ _
      | apply returns_SetValue_int; intros ? _ _ _ _
      | apply returns_SetValue_dbl; intros ? _ _ _ _
      | apply returns_modify; exact I ]. }
  destruct Hret as (d' & [] & Hload & _). exists d'. exact Hload.
Qed.
End LoadFacts.

Ltac key_ne := let Hk := fresh "Hk" in intros Hk; apply append_inj_l in Hk; discriminate Hk.
Ltac lookup_key :=
  unfold config_set, config_get;
  repeat first [ rewrite lookup_insert_eq | rewrite lookup_insert_ne by key_ne ].

Section SaveFacts.
Context {A : Type} `{Num A} `{NumText A}.

(** What [save_profile_fields] leaves under each data key. *)
Lemma save_profile_fields_lookup (prefix : string) (d : InvoiceDialog A)
    (config : gmap string string) :
  (forall c, config_get (save_profile_fields prefix d config) (prefix ++ int_key c)
             = to_string_int (spin d c))
  /\ (forall c, config_get (save_profile_fields prefix d config) (prefix ++ dbl_key c)
                = to_string_double (dspin d c))
  /\ (forall c k, txt_key c = Some k ->
                  config_get (save_profile_fields prefix d config) (prefix ++ k) = txt d c).
Proof.
  repeat split.
  - intros c. destruct c; cbn [int_key]; unfold save_profile_fields; lookup_key; reflexivity.
  - intros c. destruct c; cbn [dbl_key]; unfold save_profile_fields; lookup_key; reflexivity.
  - intros c k Hk. destruct c; cbn [txt_key] in Hk; try discriminate Hk;
      injection Hk as <-; unfold save_profile_fields; lookup_key; reflexivity.
Qed.

Lemma register_profile_data (profile_name key : string) (config : gmap string string) :
  config_get (register_profile profile_name config) (profile_prefix profile_name ++ key)
  = config_get config (profile_prefix profile_name ++ key).
Proof.
  unfold register_profile. destruct (existsb _ _); [reflexivity|].
  unfold config_set, config_get. rewrite lookup_insert_ne; [reflexivity|].
  intros Heq. symmetry in Heq. revert Heq. apply data_key_not_registry.
Qed.

(** The store after [save_job_profile]. *)
Lemma save_job_profile_store (profile_name : string) (d : InvoiceDialog A)
    (config : gmap string string) :
  app_config d = Some config -> profile_name <> "" ->
  exists config',
    app_config (save_job_profile profile_name d) = Some config'
    /\ (forall c, config_get config' (profile_prefix profile_name ++ int_key c)
                  = to_string_int (spin d c))
    /\ (forall c, config_get config' (profile_prefix profile_name ++ dbl_key c)
                  = to_string_double (dspin d c))
    /\ (forall c k, txt_key c = Some k ->
                    config_get config' (profile_prefix profile_name ++ k) = txt d c)
    /\ txt (save_job_profile profile_name d) = txt d
    /\ spin (save_job_profile profile_name d) = spin d
    /\ dspin (save_job_profile profile_name d) = dspin d.
Proof.
  intros Hc Hn. unfold save_job_profile. rewrite Hc.
  destruct profile_name as [|a n]; [congruence|]. cbn [emptyb].
  eexists. split; [reflexivity|].
  destruct (save_profile_fields_lookup (profile_prefix (String a n)) d config)
    as (Hi & Hd & Ht).
  repeat split.
  - intros c. rewrite register_profile_data. apply Hi.
  - intros c. rewrite register_profile_data. apply Hd.
  - intros c k Hk. rewrite register_profile_data. apply Ht. exact Hk.
Qed.
End SaveFacts.

Lemma emptyb_to_string_int (z : Z) : emptyb (to_string_int z) = false.
Proof.
  destruct z as [|p|p]; [reflexivity| |reflexivity].
  unfold to_string_int. cbn [Z.to_int NilZero.string_of_int].
  change (Pos.to_uint p) with (N.to_uint (Npos p)).
  rewrite string_of_uint_to_uint.
  destruct (string_of_uint_head (Npos p)) as (c & s & -> & _). reflexivity.
Qed.

Lemma emptyb_Q_printf_f (k : nat) (q : Q) : emptyb (Q_printf_f k q) = false.
Proof.
  unfold Q_printf_f. destruct (Qltb q 0); [reflexivity|].
  rewrite append_nil_l, string_of_uint_to_uint.
  destruct (string_of_uint_head (Z.to_N (scaled_units k q / 10 ^ Z.of_nat k)))
    as (c & s & -> & _).
  reflexivity.
Qed.

Lemma data_keys_complete :
  (forall c, In (int_key c) data_keys)
  /\ (forall c, In (dbl_key c) data_keys)
  /\ (forall c k, txt_key c = Some k -> In k data_keys).
Proof.
  repeat split.
  - intros c. destruct c; cbn; tauto.
  - intros c. destruct c; cbn; tauto.
  - intros c k Hk. destruct c; cbn in Hk; try discriminate Hk; injection Hk as <-; cbn; tauto.
Qed.

Section OutcomeFacts.
Context {A : Type} `{Num A} `{NumText A}.

Lemma bind_run {X Y} (c : M A X) (k : X -> M A Y) d d' r :
  bind c k d = (d', r) ->
  (exists e, c d = (d', inl e) /\ r = inl e)
  \/ (exists x d1, c d = (d1, inr x) /\ k x d1 = (d', r)).
Proof.
  unfold bind. destruct (c d) as [d1 [e|x]].
  - intros [= <- <-]. left. exists e. split; reflexivity.
  - intros Hk. right. exists x, d1. split; [reflexivity | exact Hk].
Qed.

Lemma keeps_call {X} (r : exn + X) : keeps_texts_and_results (call (A := A) r).
Proof. intros d d' r' [= <- <-]. repeat split. Qed.

Lemma keeps_SetValue_int c v : keeps_texts_and_results (SetValue_int (A := A) c v).
Proof. intros d d' r [= <- <-]. repeat split. Qed.

Lemma keeps_SetValue_dbl c (v : A) : keeps_texts_and_results (SetValue_dbl c v).
Proof. intros d d' r [= <- <-]. repeat split. Qed.

Lemma keeps_bind {X Y} (c : M A X) (k : X -> M A Y) :
  keeps_texts_and_results c -> (forall x, keeps_texts_and_results (k x)) ->
  keeps_texts_and_results (bind c k).
Proof.
  intros Hc Hk d d' r Hrun.
  apply bind_run in Hrun as [(e & Hrun & ->) | (x & d1 & Hrun & Hrest)].
  - apply (Hc _ _ _ Hrun).
  - destruct (Hc _ _ _ Hrun) as (Ht & Hf & Hcalc).
    destruct (Hk x _ _ _ Hrest) as (Ht' & Hf' & Hcalc').
    repeat split; congruence.
Qed.

Lemma on_throw_bind {X Y} (c : M A X) (k : X -> M A Y) :
  keeps_texts_and_results c -> (forall x, keeps_results_on_throw (k x)) ->
  keeps_results_on_throw (bind c k).
Proof.
  intros Hc Hk d d' r Hrun.
  apply bind_run in Hrun as [(e & Hrun & ->) | (x & d1 & Hrun & Hrest)].
  - destruct (Hc _ _ _ Hrun) as (Ht & Hf & Hcalc).
    split; [exact Ht|]. split; [exact Hf|]. intros _ _. exact Hcalc.
  - destruct (Hc _ _ _ Hrun) as (Ht & Hf & Hcalc).
    destruct (Hk x _ _ _ Hrest) as (Ht' & Hf' & Hcalc').
    split; [congruence|]. split; [congruence|].
    intros e He. rewrite (Hcalc' e He). exact Hcalc.
Qed.

Lemma on_throw_calculate_costs : keeps_results_on_throw (modify (A := A) calculate_costs).
Proof.
  intros d d' r [= <- <-]. split; [reflexivity|]. split; [reflexivity|].
  intros e He. discriminate He.
Qed.

Lemma fresh_bind {X Y} (c : M A X) (k : X -> M A Y) :
  (forall x, results_fresh (k x)) -> results_fresh (bind c k).
Proof.
  intros Hk d d' y Hrun.
  apply bind_run in Hrun as [(e & _ & He) | (x & d1 & _ & Hrest)]; [discriminate He|].
  apply (Hk x _ _ _ Hrest).
Qed.

Lemma fresh_calculate_costs : results_fresh (modify (A := A) calculate_costs).
Proof. intros d d' x [= <- _]. reflexivity. Qed.

Lemma SetValue_txt_keeps c v (d : InvoiceDialog A) :
  exists d1, SetValue_txt c v d = (d1, inr tt)
    /\ txt d1 = upd (txt d) c v /\ frame d1 = frame d /\ calc d1 = calc d.
Proof. eexists. repeat split. Qed.

(** Whatever the outcome of [load_job_profile] under a non-empty name: the
    text controls hold the stored texts; a throw leaves the cached results
    as they were, a normal return leaves them recomputed from the
    controls. *)
Lemma load_job_profile_outcome (profile_name : string) (config : gmap string string)
    (d d' : InvoiceDialog A) r :
  app_config d = Some config -> profile_name <> "" ->
  load_job_profile profile_name d = (d', r) ->
  (forall c, txt d' c = match txt_key c with
                        | Some k => config_get config (profile_prefix profile_name ++ k)
                        | None => txt d c
                        end)
  /\ frame d' = frame d
  /\ (forall e, r = inl e -> calc d' = calc d)
  /\ (r = inr tt -> calc d' = calc (calculate_costs d')).
Proof.
  intros Hc Hn Hload. unfold load_job_profile in Hload. rewrite Hc in Hload.
  destruct profile_name as [|a n]; [congruence|]. cbn [emptyb] in Hload.
  cbv zeta in Hload.
  do 5 (apply bind_run in Hload as [(e & Hthrow & _) | (x & ? & Hset & Hload)];
        [unfold SetValue_txt, modify in Hthrow; discriminate Hthrow|];
        match type of Hset with
        | SetValue_txt ?c ?v ?d0 = _ =>
            let Hrun := fresh "Hrun" in
            destruct (SetValue_txt_keeps c v d0) as (? & Hrun & ? & ? & ?);
            rewrite Hrun in Hset; injection Hset as <- <-; clear Hrun
        end; cbv beta in Hload).
  match type of Hload with
  | ?prog ?d5 = _ =>
      assert (Hthrow : keeps_results_on_throw prog)
        by (repeat first [ apply on_throw_calculate_costs
                         | apply on_throw_bind; [|intros _]
                         | apply keeps_bind; [apply keeps_call | intros ?]
                         | apply keeps_SetValue_int
                         | apply keeps_SetValue_dbl ]);
      assert (Hfresh : results_fresh prog)
        by (repeat first [ apply fresh_calculate_costs | apply fresh_bind; intros _ ])
  end.
  destruct (Hthrow _ _ _ Hload) as (Ht & Hf & Hcalc).
  repeat match goal with
         | Hs : txt ?x = _ |- _ => rewrite Hs in *; clear Hs
         | Hs : frame ?x = _ |- _ => rewrite Hs in *; clear Hs
         | Hs : calc ?x = _ |- _ => rewrite Hs in *; clear Hs
         end.
  split; [|split; [reflexivity|split]].
  - intros c. unfold profile_prefix.
    destruct c; cbn [upd decide decide_rel txt_key]; cbn; reflexivity.
  - intros e He. apply (Hcalc e He).
  - intros ->. apply (Hfresh _ _ _ Hload).
Qed.
End OutcomeFacts.

Section LoadTheorems.
Context {A : Type} `{Num A} `{NumText A}.

(** Loading from a store in which every numeric field parses. *)
Lemma load_job_profile_parsed (profile_name : string) (config : gmap string string)
    (d : InvoiceDialog A) (iv : IntCtrl -> Z) (dv : DblCtrl -> A) :
  app_config d = Some config -> profile_name <> "" ->
  (forall c, get_int_result (config_get config (profile_prefix profile_name ++ int_key c))
               (default_int c) = inr (iv c)) ->
  (forall c, get_dbl_result (config_get config (profile_prefix profile_name ++ dbl_key c))
               (default_dbl c) = inr (dv c)) ->
  exists d', load_job_profile profile_name d = (d', inr tt)
    /\ (forall c, spin d' c = iv c)
    /\ (forall c, dspin d' c = dv c)
    /\ (forall c, txt d' c = match txt_key c with
                             | Some k => config_get config (profile_prefix profile_name ++ k)
                             | None => txt d c
                             end)
    /\ frame d' = frame d.
Proof.
  intros Hc Hn Hi Hd.
  destruct (load_job_profile_returns profile_name config d iv dv Hc Hn Hi Hd) as [d' Hload].
  destruct (load_job_profile_inr profile_name config d d' Hc Hn Hload)
    as (Hi' & Hd' & Ht & Hf).
  exists d'. split; [exact Hload|]. repeat split; try assumption.
  - intros c. specialize (Hi c). specialize (Hi' c). congruence.
  - intros c. specialize (Hd c). specialize (Hd' c). congruence.
Qed.

(** C5, as the code has it.  Only the empty name makes [load_job_profile]
    a no-op.  For a non-empty name that was never saved (each of its 27
    data keys absent) it returns normally after it has cleared the five
    customer and job text fields, reset every numeric field to its default
    and, with the closing [calculate_costs()], recomputed the cached
    results from these values; the business name, the filament list, the
    statistics, the store, the files and the combo box are left as they
    were. *)
Theorem load_unknown_profile_resets (profile_name : string) (config : gmap string string)
    (d : InvoiceDialog A) :
  app_config d = Some config ->
  (forall key, In key data_keys ->
     config_get config (profile_prefix profile_name ++ key) = "") ->
  load_job_profile "" d = (d, inr tt)
  /\ (profile_name <> "" ->
      exists d', load_job_profile profile_name d = (d', inr tt)
        /\ (forall c, spin d' c = default_int c)
        /\ (forall c, dspin d' c = default_dbl c)
        /\ (forall c, txt d' c = match txt_key c with
                                 | Some _ => ""
                                 | None => txt d c
                                 end)
        /\ calc d' = calc (calculate_costs d')
        /\ frame d' = frame d).
Proof.
  intros Hc Habs. split.
  - unfold load_job_profile. rewrite Hc. reflexivity.
  - intros Hn.
    destruct data_keys_complete as (Hik & Hdk & Htk).
    destruct (load_job_profile_parsed profile_name config d default_int default_dbl Hc Hn)
      as (d' & Hload & Hi & Hd & Ht & Hf).
    + intros c. rewrite Habs by apply Hik. reflexivity.
    + intros c. rewrite Habs by apply Hdk. reflexivity.
    + destruct (load_job_profile_outcome profile_name config d d' _ Hc Hn Hload)
        as (_ & _ & _ & Hfresh).
      exists d'. split; [exact Hload|]. repeat split; try assumption.
      * intros c. rewrite Ht. destruct (txt_key c) as [k|] eqn:Hk; [|reflexivity].
        apply Habs. apply (Htk c). exact Hk.
      * apply Hfresh. reflexivity.
Qed.

(** C6, as the code has it.  A stored numeric field that is not empty and
    on which [std::stoi] or [std::stod] throws ([std::invalid_argument] or
    [std::out_of_range]) is not replaced by the default:
    [load_job_profile] does not return normally, an exception reaches the
    caller. *)
Theorem load_unparsable_field_throws (profile_name : string) (config : gmap string string)
    (d : InvoiceDialog A) :
  app_config d = Some config -> profile_name <> "" ->
  (exists c e, let v := config_get config (profile_prefix profile_name ++ int_key c) in
               emptyb v = false /\ stoi v = inl e /\ e <> unmodelled_value)
  \/ (exists c e, let v := config_get config (profile_prefix profile_name ++ dbl_key c) in
                  emptyb v = false /\ stod v = inl e /\ e <> unmodelled_value) ->
  exists d1 e', load_job_profile profile_name d = (d1, inl e').
Proof.
  intros Hc Hn Hbad.
  destruct (load_job_profile profile_name d) as [d1 [e'|[]]] eqn:Hload.
  - exists d1, e'. reflexivity.
  - exfalso.
    destruct (load_job_profile_inr profile_name config d d1 Hc Hn Hload) as (Hi & Hd & _).
    destruct Hbad as [(c & e & Hv & He & _) | (c & e & Hv & He & _)].
    + specialize (Hi c). unfold get_int_result in Hi. rewrite Hv, He in Hi. discriminate Hi.
    + specialize (Hd c). unfold get_dbl_result in Hd. rewrite Hv, He in Hd. discriminate Hd.
Qed.

(** C3, second half, in every arithmetic: when load returns normally (as it
    does when every stored field parses), a numeric field whose stored key
    is absent holds its default. *)
Lemma load_absent_field_default (profile_name : string) (config : gmap string string)
    (d : InvoiceDialog A) (iv : IntCtrl -> Z) (dv : DblCtrl -> A) :
  app_config d = Some config -> profile_name <> "" ->
  (forall c, get_int_result (config_get config (profile_prefix profile_name ++ int_key c))
               (default_int c) = inr (iv c)) ->
  (forall c, get_dbl_result (config_get config (profile_prefix profile_name ++ dbl_key c))
               (default_dbl c) = inr (dv c)) ->
  exists d', load_job_profile profile_name d = (d', inr tt)
    /\ (forall c, config_get config (profile_prefix profile_name ++ int_key c) = "" ->
                  spin d' c = default_int c)
    /\ (forall c, config_get config (profile_prefix profile_name ++ dbl_key c) = "" ->
                  dspin d' c = default_dbl c).
Proof.
  intros Hc Hn Hi Hd.
  destruct (load_job_profile_parsed profile_name config d iv dv Hc Hn Hi Hd)
    as (d' & Hload & Hi' & Hd' & _).
  exists d'. split; [exact Hload|]. split; intros c Hv.
  - rewrite Hi'. specialize (Hi c). rewrite Hv in Hi. cbn in Hi. congruence.
  - rewrite Hd'. specialize (Hd c). rewrite Hv in Hd. cbn in Hd. congruence.
Qed.
End LoadTheorems.

(** [load_job_profile] and [save_job_profile] do nothing under the empty
    name or without a store. *)
Lemma save_load_noop {A : Type} `{Num A} `{NumText A} (profile_name : string)
    (d : InvoiceDialog A) :
  app_config d = None \/ profile_name = "" ->
  load_job_profile profile_name (save_job_profile profile_name d) = (d, inr tt).
Proof.
  intros [Hc | ->].
  - unfold save_job_profile. rewrite Hc. unfold load_job_profile. rewrite Hc. reflexivity.
  - unfold save_job_profile.
    destruct (app_config d) eqn:Hc; cbn [emptyb];
      unfold load_job_profile; rewrite Hc; reflexivity.
Qed.

(** C3.  Over exact rationals, [save_job_profile] followed by
    [load_job_profile] under the same name returns normally and reproduces
    every [int] field exactly and every [double] field within half a unit
    of the sixth digit after the point: under a non-empty name the field
    comes back as the value of its six-digit text.  And in every
    arithmetic, when each stored field parses, load returns normally and a
    numeric field whose stored key is absent (reads as the empty string)
    holds its documented default. *)
Theorem save_load_round_trip :
  (forall (profile_name : string) (d : InvoiceDialog Q),
     (forall c, INT_MIN <= spin d c <= INT_MAX) ->
     exists d', load_job_profile profile_name (save_job_profile profile_name d) = (d', inr tt)
       /\ (forall c, spin d' c = spin d c)
       /\ (forall c, (Qabs (dspin d' c - dspin d c) <= 1 # 2000000)%Q)
       /\ (forall config, app_config d = Some config -> profile_name <> "" ->
             forall c, dspin d' c = printed_value 6 (dspin d c)))
  /\ (forall (A : Type) (N : Num A) (T : NumText A) (profile_name : string)
        (config : gmap string string) (d : InvoiceDialog A)
        (iv : IntCtrl -> Z) (dv : DblCtrl -> A),
        app_config d = Some config -> profile_name <> "" ->
        (forall c, get_int_result (config_get config (profile_prefix profile_name ++ int_key c))
                     (default_int c) = inr (iv c)) ->
        (forall c, get_dbl_result (config_get config (profile_prefix profile_name ++ dbl_key c))
                     (default_dbl c) = inr (dv c)) ->
        exists d', load_job_profile profile_name d = (d', inr tt)
          /\ (forall c, config_get config (profile_prefix profile_name ++ int_key c) = "" ->
                        spin d' c = default_int c)
          /\ (forall c, config_get config (profile_prefix profile_name ++ dbl_key c) = "" ->
                        dspin d' c = default_dbl c)).
Proof.
  split; [|intros A N T; apply load_absent_field_default].
  intros profile_name d Hrange.
  assert (Hsame : forall x : Q, (Qabs (x - x) <= 1 # 2000000)%Q).
  { intros x. apply Qabs_Qle_condition. split; lra. }
  destruct (app_config d) as [config|] eqn:Hc;
    [destruct (string_dec profile_name "") as [Hn|Hn]|].
  - exists d. split; [apply save_load_noop; right; exact Hn|].
    split; [reflexivity|]. split; [intros c; apply Hsame|]. intros; contradiction.
  - destruct (save_job_profile_store profile_name d config Hc Hn)
      as (config' & Hc' & Hi & Hd & _).
    destruct (load_job_profile_parsed profile_name config' (save_job_profile profile_name d)
                (spin d) (fun c => printed_value 6 (dspin d c)) Hc' Hn)
      as (d' & Hload & Hi' & Hd' & _).
    + intros c. rewrite Hi. unfold get_int_result. rewrite emptyb_to_string_int.
      apply stoi_to_string_int. apply Hrange.
    + intros c. rewrite Hd. unfold get_dbl_result.
      change (to_string_double (dspin d c)) with (Q_printf_f 6 (dspin d c)).
      rewrite emptyb_Q_printf_f. apply (Q_stod_printf_f 5).
    + exists d'. split; [exact Hload|]. split; [exact Hi'|]. split.
      * intros c. rewrite Hd'. apply printed_value_error.
      * intros _ _ _ c. apply Hd'.
  - exists d. split; [apply save_load_noop; left; exact Hc|].
    split; [reflexivity|]. split; [intros c; apply Hsame|]. intros; discriminate.
Qed.

(** C3 on [edited_dialog]: the failure rate 22/3 comes back as 7.333333. *)
Lemma save_load_round_trip_witness :
  exists d', load_job_profile "job1" (save_job_profile "job1" edited_dialog) = (d', inr tt)
    /\ spin d' m_parts_per_plate = 4
    /\ (dspin d' m_markup_percent == 70)%Q
    /\ (dspin d' m_failure_rate == 7333333 # 1000000)%Q.
Proof.
  destruct save_load_round_trip as [Hrt _].
  destruct (Hrt "job1" edited_dialog) as (d' & Hload & Hi & _ & Hd).
  - intros c. destruct c; vm_compute; split; discriminate.
  - assert (Hn : "job1" <> "") by discriminate.
    exists d'. split; [exact Hload|]. split; [apply Hi|].
    split; rewrite (Hd ∅ eq_refl Hn); vm_compute; reflexivity.
Defined.

(** C5 as stated fails: loading the never-saved name [ghost] clears the
    customer name, resets the markup and recomputes the cached results. *)
Lemma load_unknown_profile_counterexample :
  exists d', load_job_profile "ghost" edited_dialog = (d', inr tt)
    /\ txt edited_dialog m_txt_customer_name = "Bob"
    /\ txt d' m_txt_customer_name = ""
    /\ dspin edited_dialog m_markup_percent = 70%Q
    /\ dspin d' m_markup_percent = 50%Q
    /\ m_calc_subtotal (calc edited_dialog) = 0%Q
    /\ (m_calc_subtotal (calc d') == 20)%Q.
Proof. eexists. split; [vm_compute; reflexivity|]. repeat split. Qed.

(** C5 (amended) on the never-saved name [x], in a store that holds a key
    of the profile [x_y]. *)
Lemma load_unknown_profile_resets_witness :
  exists d', load_job_profile "x" shadowed_dialog = (d', inr tt)
    /\ (forall c, spin d' c = default_int c)
    /\ (forall c, dspin d' c = default_dbl c)
    /\ (forall c, txt d' c = match txt_key c with
                             | Some _ => ""
                             | None => txt shadowed_dialog c
                             end)
    /\ calc d' = calc (calculate_costs d')
    /\ frame d' = frame shadowed_dialog.
Proof.
  apply (load_unknown_profile_resets "x"
           {[ "invoice_job_x_y_customer_name" := "Zed" ]} shadowed_dialog).
  - reflexivity.
  - intros key Hin. cbn [data_keys In] in Hin.
    repeat (destruct Hin as [<-|Hin]; [reflexivity|]). destruct Hin.
  - discriminate.
Defined.

(** C6 as stated fails: the stored text [abc] is not replaced by the
    default 1; [std::stoi] throws and the exception leaves
    [load_job_profile]. *)
Lemma load_unparsable_field_counterexample :
  exists d1, load_job_profile "x" malformed_dialog = (d1, inl invalid_argument).
Proof. eexists. vm_compute. reflexivity. Qed.

Lemma load_unparsable_field_throws_witness :
  exists d1 e', load_job_profile "x" malformed_dialog = (d1, inl e').
Proof.
  apply (load_unparsable_field_throws "x"
           {[ "invoice_job_x_parts_per_plate" := "abc" ]} malformed_dialog).
  - reflexivity.
  - discriminate.
  - left. exists m_parts_per_plate, invalid_argument.
    split; [reflexivity|]. split; [reflexivity | discriminate].
Defined.

(** ** The report exporter *)

Lemma escape_xml_spec (s : string) : escape_xml s = escape_spec s.
Proof.
  induction s as [|c s IH]; [reflexivity|].
  cbn [escape_xml escape_spec]. rewrite IH.
  destruct c as [[] [] [] [] [] [] [] []]; reflexivity.
Qed.

(** Characters that are not reserved pass unchanged. *)
Lemma escape_xml_plain (s : string) :
  (forall c, In c (list_ascii_of_string s) -> reserved_entity c = None) ->
  escape_xml s = s.
Proof.
  rewrite escape_xml_spec.
  induction s as [|c s IH]; intros Hs; [reflexivity|].
  cbn [escape_spec]. rewrite (Hs c (or_introl eq_refl)).
  rewrite IH; [reflexivity|]. intros c' Hc'. apply Hs. right. exact Hc'.
Qed.

Lemma infix_of_here {T} (l post : list T) : infix_of l (l ++ post).
Proof. exists [], post. reflexivity. Qed.

Lemma infix_of_cons {T} (x : T) (l m : list T) : infix_of l m -> infix_of l (x :: m).
Proof. intros (pre & post & ->). exists (x :: pre), post. reflexivity. Qed.

Lemma infix_of_app_r {T} (l m1 m2 : list T) : infix_of l m2 -> infix_of l (m1 ++ m2).
Proof.
  intros (pre & post & ->). exists (m1 ++ pre)%list, post.
  rewrite <- List.app_assoc. reflexivity.
Qed.

Lemma infix_of_app_l {T} (l m1 m2 : list T) : infix_of l m1 -> infix_of l (m1 ++ m2).
Proof.
  intros (pre & post & ->). exists pre, (post ++ m2)%list.
  rewrite <- !List.app_assoc. reflexivity.
Qed.

Lemma infix_of_flat_map {S T} (f : S -> list T) (x : S) (xs : list S) (l : list T) :
  In x xs -> infix_of l (f x) -> infix_of l (flat_map f xs).
Proof.
  induction xs as [|y xs IH]; intros Hin Hl; [destruct Hin|].
  cbn [flat_map]. destruct Hin as [->|Hin].
  - apply infix_of_app_l. exact Hl.
  - apply infix_of_app_r. apply IH; assumption.
Qed.

Lemma stream_text_app (l m : list string) :
  stream_text (l ++ m) = stream_text l ++ stream_text m.
Proof.
  induction l as [|x l IH]; [reflexivity|].
  cbn [stream_text fold_right List.app]. fold (stream_text (l ++ m)).
  fold (stream_text l). rewrite IH, append_assoc. reflexivity.
Qed.

Lemma stream_text_infix (l m : list string) :
  infix_of l m -> substring_of (stream_text l) (stream_text m).
Proof.
  intros (pre & post & ->). exists (stream_text pre), (stream_text post).
  rewrite !stream_text_app. reflexivity.
Qed.

(** What reaches the file: the chunks the device takes, in order. *)
Lemma written_fold_insert (device : nat -> bool) (chunks : list string) :
  forall file : OutputStream,
  written (fold_left (insert device) chunks file)
  = written file ++ stream_text (accepted device (insertions file) chunks).
Proof.
  induction chunks as [|chunk chunks IH]; intros file; cbn [fold_left accepted].
  - cbn [stream_text fold_right]. rewrite append_nil_r. reflexivity.
  - rewrite IH. cbn [insert written insertions].
    destruct (device (insertions file)); [|reflexivity].
    cbn [stream_text fold_right]. rewrite append_assoc. reflexivity.
Qed.

Lemma accepted_all (device : nat -> bool) (chunks : list string) :
  (forall i, device i = true) -> forall i, accepted device i chunks = chunks.
Proof.
  intros Hdev. induction chunks as [|chunk chunks IH]; intros i; [reflexivity|].
  cbn [accepted]. rewrite Hdev, IH. reflexivity.
Qed.

(** A device that fails at its [n]-th insertion and ever after leaves the
    first [n] chunks. *)
Lemma accepted_prefix (device : nat -> bool) (n : nat) (chunks : list string) :
  (forall i, device i = (i <? n)%nat) ->
  forall i, accepted device i chunks = firstn (n - i) chunks.
Proof.
  intros Hdev. induction chunks as [|chunk chunks IH]; intros i.
  - cbn [accepted]. rewrite firstn_nil. reflexivity.
  - cbn [accepted]. rewrite Hdev, IH. destruct (Nat.ltb_spec i n) as [Hlt|Hge].
    + replace (n - i)%nat with (S (n - S i)) by lia. reflexivity.
    + replace (n - i)%nat with 0%nat by lia. replace (n - S i)%nat with 0%nat by lia.
      reflexivity.
Qed.

Lemma list_ascii_of_string_app (s t : string) :
  list_ascii_of_string (s ++ t) = (list_ascii_of_string s ++ list_ascii_of_string t)%list.
Proof.
  induction s as [|c s IH]; [reflexivity|].
  rewrite append_cons. cbn [list_ascii_of_string List.app]. rewrite IH. reflexivity.
Qed.

Lemma markup_chars_app (s t : string) :
  markup_chars (s ++ t) = (markup_chars s ++ markup_chars t)%list.
Proof. unfold markup_chars. rewrite list_ascii_of_string_app. apply List.filter_app. Qed.

Lemma reserved_entity_cases (c : ascii) :
  (exists e, reserved_entity c = Some e /\ markup_chars e = [])
  \/ (reserved_entity c = None /\ is_markup c = false).
Proof.
  unfold reserved_entity, is_markup.
  destruct (Ascii.eqb c "&"); [left; eexists; split; reflexivity|].
  destruct (Ascii.eqb c "<"); [left; eexists; split; reflexivity|].
  destruct (Ascii.eqb c ">"); [left; eexists; split; reflexivity|].
  destruct (Ascii.eqb c "034"); [left; eexists; split; reflexivity|].
  destruct (Ascii.eqb c "'"); [left; eexists; split; reflexivity|].
  right. split; reflexivity.
Qed.

(** No markup character leaves [escape_xml]. *)
Lemma markup_chars_escape_xml (s : string) : markup_chars (escape_xml s) = [].
Proof.
  rewrite escape_xml_spec.
  induction s as [|c s IH]; [reflexivity|]. cbn [escape_spec].
  destruct (reserved_entity_cases c) as [(e & -> & He) | [-> Hc]].
  - rewrite markup_chars_app, He, IH. reflexivity.
  - unfold markup_chars in *. cbn [list_ascii_of_string List.filter].
    rewrite Hc. exact IH.
Qed.

Lemma same_or_escaped_refl (l : list string) : Forall2 same_or_escaped l l.
Proof. induction l as [|x l IH]; constructor; [left; reflexivity | exact IH]. Qed.

(** Chunks that differ only where both are escaped text carry the same
    markup characters. *)
Lemma same_or_escaped_markup (l1 l2 : list string) :
  Forall2 same_or_escaped l1 l2 ->
  markup_chars (stream_text l1) = markup_chars (stream_text l2).
Proof.
  induction 1 as [|c1 c2 l1 l2 Hc _ IH]; [reflexivity|].
  cbn [stream_text fold_right]. fold (stream_text l1). fold (stream_text l2).
  rewrite !markup_chars_app, IH.
  destruct Hc as [->|(s1 & s2 & -> & ->)]; [reflexivity|].
  rewrite !markup_chars_escape_xml. reflexivity.
Qed.

Section ExportFacts.
Context {A : Type} `{Num A} `{NumText A}.

(** Every text field of the dialog is inserted through [escape_xml],
    between the literals of its row. *)
Lemma report_chunks_text_field (date : string) (d : InvoiceDialog A) (c : TxtCtrl) :
  infix_of [field_row_open c; escape_xml (txt d c); field_row_close] (report_chunks date d).
Proof.
  unfold report_chunks, field_row_close.
  apply infix_of_app_l.
  destruct c; cbn [field_row_open];
    repeat first
      [ apply (infix_of_here [_; _; _])
      | apply infix_of_cons ].
Qed.

(** So is the name and the colour of every filament. *)
Lemma report_chunks_filament (date : string) (d : InvoiceDialog A) (f : FilamentData A) :
  In f (m_filament_data d) ->
  infix_of [cxx "<Cell><Data ss:Type=`String`>"; escape_xml (name f); cxx " (";
            escape_xml (color f); cxx ")</Data></Cell>~"]
           (report_chunks date d).
Proof.
  intros Hf. unfold report_chunks.
  apply infix_of_app_r. apply infix_of_app_r. apply infix_of_app_l.
  apply (infix_of_flat_map _ f); [exact Hf|].
  apply infix_of_cons. apply (infix_of_here [_; _; _; _; _]).
Qed.

(** The free texts reach the report through [escape_xml] only: two
    dialogs that agree on the counts, the cached results and the filament
    weights, whatever their text fields and their filament names and
    colours, produce chunk for chunk either the same text or two results
    of [escape_xml]. *)
Lemma report_chunks_same_or_escaped (date : string) (d1 d2 : InvoiceDialog A) :
  (forall c, spin d1 c = spin d2 c) ->
  calc d1 = calc d2 ->
  Forall2 (fun f g => weight_g f = weight_g g) (m_filament_data d1) (m_filament_data d2) ->
  Forall2 same_or_escaped (report_chunks date d1) (report_chunks date d2).
Proof.
  intros Hs Hc Hf. unfold report_chunks. rewrite !Hs, Hc.
  repeat apply Forall2_app; try apply same_or_escaped_refl.
  - repeat (apply List.Forall2_cons;
            [first [ left; reflexivity
                   | right; eexists; eexists; split; reflexivity ]|]).
    apply List.Forall2_nil.
  - induction Hf as [|f g l1 l2 Hw _ IH]; [constructor|].
    cbn [flat_map]. rewrite Hw.
    repeat (apply List.Forall2_cons;
            [first [ left; reflexivity
                   | right; eexists; eexists; split; reflexivity ]|]).
    exact IH.
Qed.

Lemma export_to_excel_refused (path date : string) (device : nat -> bool)
    (d : InvoiceDialog A) :
  can_open d path = false -> export_to_excel path date device d = (d, inr tt).
Proof. intros Hopen. unfold export_to_excel. rewrite Hopen. reflexivity. Qed.

Lemma export_to_excel_opened (path date : string) (device : nat -> bool)
    (d : InvoiceDialog A) :
  can_open d path = true ->
  exists d', export_to_excel path date device d = (d', inr tt)
    /\ files d' = <[path := stream_text (accepted device 0 (report_chunks date d))]> (files d)
    /\ message_boxes d' = (message_boxes d ++ ["Invoice exported successfully."])%list
    /\ txt d' = txt d /\ m_filament_data d' = m_filament_data d.
Proof.
  intros Hopen. unfold export_to_excel. rewrite Hopen. cbn [negb].
  eexists. split; [reflexivity|].
  cbn [files with_files with_message_boxes message_boxes txt m_filament_data].
  rewrite written_fold_insert. cbn [opened written insertions].
  rewrite append_nil_l. repeat split.
Qed.

(** C8, as the code has it.  [export_to_excel] returns [void]: whatever
    happens, the caller gets the same normal return and no failure result.
    When the output stream cannot be opened the function returns at once
    and nothing is written.  When it opens, every operand is inserted
    without a test of the stream and the message of success is shown
    unconditionally: the file holds the chunks the device took, which for a
    device that fails from its [n]-th insertion on is a prefix of the
    document. *)
Theorem export_failure_is_silent (path date : string) (device : nat -> bool)
    (d : InvoiceDialog A) :
  snd (export_to_excel path date device d) = inr tt
  /\ (can_open d path = false -> export_to_excel path date device d = (d, inr tt))
  /\ (can_open d path = true ->
      exists d', export_to_excel path date device d = (d', inr tt)
        /\ files d' = <[path := stream_text (accepted device 0 (report_chunks date d))]>
                        (files d)
        /\ message_boxes d' = (message_boxes d ++ ["Invoice exported successfully."])%list
        /\ ((forall i, device i = true) ->
            files d' !! path = Some (stream_text (report_chunks date d)))
        /\ (forall n, (forall i, device i = (i <? n)%nat) ->
            files d' !! path = Some (stream_text (firstn n (report_chunks date d))))).
Proof.
  split; [|split].
  - destruct (can_open d path) eqn:Hopen.
    + destruct (export_to_excel_opened path date device d Hopen) as (d' & -> & _).
      reflexivity.
    + rewrite (export_to_excel_refused path date device d Hopen). reflexivity.
  - apply export_to_excel_refused.
  - intros Hopen.
    destruct (export_to_excel_opened path date device d Hopen) as (d' & Hrun & Hf & Hm & _).
    exists d'. split; [exact Hrun|]. split; [exact Hf|]. split; [exact Hm|]. split.
    + intros Hdev. rewrite Hf, lookup_insert_eq, (accepted_all device _ Hdev). reflexivity.
    + intros n Hdev. rewrite Hf, lookup_insert_eq, (accepted_prefix device n _ Hdev).
      rewrite Nat.sub_0_r. reflexivity.
Qed.
End ExportFacts.

(** C8 as stated fails.  With a stream that cannot be opened the call
    returns normally, exactly as a successful call does: no failure result
    reaches the caller.  And export can succeed partially: on a device that
    fails after the third insertion the file is left with the first three
    lines of the document, and the message of success is shown. *)
Lemma export_failure_counterexample :
  export_to_excel "invoice.xls" "2024-05-01" reliable locked_dialog = (locked_dialog, inr tt)
  /\ snd (export_to_excel "invoice.xls" "2024-05-01" reliable
            (sample_dialog [sample_filament (10 : Q)]))
     = inr tt
  /\ (let d' := fst (export_to_excel "invoice.xls" "2024-05-01" fails_after_three
                       (sample_dialog [sample_filament (10 : Q)])) in
      files d' !! "invoice.xls"
        = Some (cxx "<?xml version=`1.0`?>~<?mso-application progid=`Excel.Sheet`?>~<Workbook xmlns=`urn:schemas-microsoft-com:office:spreadsheet`~")
      /\ message_boxes d' = ["Invoice exported successfully."]).
Proof.
  split; [reflexivity|]. split; [reflexivity|].
  split; [vm_compute; reflexivity | reflexivity].
Qed.

(** C8 (amended) on a path that cannot be opened and on a device that
    fails after the third insertion. *)
Lemma export_failure_is_silent_witness :
  export_to_excel "invoice.xls" "2024-05-01" reliable locked_dialog = (locked_dialog, inr tt)
  /\ exists d',
       export_to_excel "invoice.xls" "2024-05-01" fails_after_three quoted_dialog
         = (d', inr tt)
       /\ files d' !! "invoice.xls"
          = Some (stream_text (firstn 3 (report_chunks "2024-05-01" quoted_dialog)))
       /\ message_boxes d' = ["Invoice exported successfully."].
Proof.
  split.
  - apply (export_failure_is_silent "invoice.xls" "2024-05-01" reliable locked_dialog).
    reflexivity.
  - destruct (export_failure_is_silent "invoice.xls" "2024-05-01" fails_after_three
                quoted_dialog) as (_ & _ & Hopen).
    destruct (Hopen eq_refl) as (d' & Hrun & _ & Hm & _ & Hprefix).
    exists d'. split; [exact Hrun|]. split; [|exact Hm].
    apply Hprefix. intros i. reflexivity.
Defined.

(** C9.  [escape_xml] replaces exactly the five reserved characters by
    their entities and leaves every other character unchanged, and the
    sample text renders as the spec says.  In the operands
    [export_to_excel] inserts, the six text fields of the dialog and the
    name and colour of every filament stand escaped between the literals
    of their cells, and they enter the report in no other way: whatever
    the text fields, names and colours of two dialogs with the same counts,
    results and weights, their reports are chunk for chunk the same text
    or two results of [escape_xml], and so carry the same markup
    characters.  On a device that takes every insertion the file holds
    these operands. *)
Theorem escape_xml_reserved_characters :
  (forall s, escape_xml s = escape_spec s)
  /\ (forall s, (forall c, In c (list_ascii_of_string s) -> reserved_entity c = None) ->
                escape_xml s = s)
  /\ escape_xml (cxx "Tom & Jerry's `Test`") = cxx "Tom &amp; Jerry&apos;s &quot;Test&quot;"
  /\ (forall s, markup_chars (escape_xml s) = [])
  /\ (forall (A : Type) (N : Num A) (T : NumText A) (date : string) (d1 d2 : InvoiceDialog A),
        (forall c, spin d1 c = spin d2 c) ->
        calc d1 = calc d2 ->
        Forall2 (fun f g => weight_g f = weight_g g)
                (m_filament_data d1) (m_filament_data d2) ->
        Forall2 same_or_escaped (report_chunks date d1) (report_chunks date d2)
        /\ markup_chars (stream_text (report_chunks date d1))
           = markup_chars (stream_text (report_chunks date d2)))
  /\ (forall (A : Type) (N : Num A) (T : NumText A) (path date : string)
             (device : nat -> bool) (d : InvoiceDialog A),
        can_open d path = true ->
        (forall i, device i = true) ->
        exists d' content,
          export_to_excel path date device d = (d', inr tt)
          /\ files d' !! path = Some content
          /\ content = stream_text (report_chunks date d)
          /\ (forall c,
                infix_of [field_row_open c; escape_xml (txt d c); field_row_close]
                         (report_chunks date d)
                /\ substring_of (field_row_open c ++ escape_xml (txt d c) ++ field_row_close)
                                content)
          /\ (forall f, In f (m_filament_data d) ->
                infix_of [cxx "<Cell><Data ss:Type=`String`>"; escape_xml (name f); cxx " (";
                          escape_xml (color f); cxx ")</Data></Cell>~"]
                         (report_chunks date d)
                /\ substring_of (cxx "<Cell><Data ss:Type=`String`>" ++ escape_xml (name f)
                                 ++ cxx " (" ++ escape_xml (color f)
                                 ++ cxx ")</Data></Cell>~")
                                content)).
Proof.
  split; [exact escape_xml_spec|]. split; [exact escape_xml_plain|].
  split; [reflexivity|]. split; [exact markup_chars_escape_xml|]. split.
  - intros A N T date d1 d2 Hs Hc Hf.
    pose proof (report_chunks_same_or_escaped date d1 d2 Hs Hc Hf) as Hsame.
    split; [exact Hsame | apply same_or_escaped_markup; exact Hsame].
  - intros A N T path date device d Hopen Hdev.
    destruct (export_to_excel_opened path date device d Hopen) as (d' & Hrun & Hfiles & _).
    rewrite (accepted_all device _ Hdev) in Hfiles.
    exists d', (stream_text (report_chunks date d)).
    split; [exact Hrun|]. split; [rewrite Hfiles; apply lookup_insert_eq|].
    split; [reflexivity|]. split.
    + intros c. pose proof (report_chunks_text_field date d c) as Hin.
      split; [exact Hin|].
      apply stream_text_infix in Hin. cbn [stream_text fold_right] in Hin.
      rewrite append_nil_r in Hin. exact Hin.
    + intros f Hf. pose proof (report_chunks_filament date d f Hf) as Hin.
      split; [exact Hin|].
      apply stream_text_infix in Hin. cbn [stream_text fold_right] in Hin.
      rewrite append_nil_r in Hin. exact Hin.
Qed.

(** C9 on [quoted_dialog], whose description is
    [Tom & Jerry's "Test" <1>]: the description stands escaped in the
    file, and the report carries the markup characters of the report of a
    dialog with an empty description. *)
Lemma escape_xml_reserved_characters_witness :
  (exists d' content,
     export_to_excel "invoice.xls" "2024-05-01" reliable quoted_dialog = (d', inr tt)
     /\ files d' !! "invoice.xls" = Some content
     /\ substring_of
          (field_row_open m_txt_job_description
           ++ cxx "Tom &amp; Jerry&apos;s &quot;Test&quot; &lt;1&gt;" ++ field_row_close)
          content)
  /\ markup_chars (stream_text (report_chunks "2024-05-01" quoted_dialog))
     = markup_chars (stream_text (report_chunks "2024-05-01"
                                    (sample_dialog [sample_filament (10 : Q)]))).
Proof.
  destruct escape_xml_reserved_characters as (_ & _ & _ & _ & Hsame & Hexport).
  split.
  - destruct (Hexport Q Q_Num Q_NumText "invoice.xls" "2024-05-01" reliable quoted_dialog
                eq_refl (fun _ => eq_refl))
      as (d' & content & Hrun & Hfile & _ & Htxt & _).
    exists d', content. split; [exact Hrun|]. split; [exact Hfile|].
    exact (proj2 (Htxt m_txt_job_description)).
  - apply (Hsame Q Q_Num Q_NumText "2024-05-01" quoted_dialog
             (sample_dialog [sample_filament (10 : Q)])).
    + reflexivity.
    + reflexivity.
    + repeat constructor.
Defined.

(** * Further properties of the code *)

(** ** The cost model: signs, the price chain and what each input reaches *)

Lemma digit_of_nonneg (c : ascii) (k : Z) : digit_of c = Some k -> 0 <= k < 10.
Proof.
  unfold digit_of. destruct (_ && _)%N eqn:E; [|discriminate].
  intros [= <-]. apply andb_true_iff in E as [E1 E2].
  apply N.leb_le in E1, E2. lia.
Qed.

Lemma regex_search_unit_nonneg (u : ascii) (s : string) : forall run v,
  (forall r, run = Some r -> 0 <= r) ->
  regex_search_unit u run s = Some v -> 0 <= v.
Proof.
  induction s as [|c s IH]; intros run v Hrun; cbn [regex_search_unit]; [discriminate|].
  destruct (digit_of c) as [k|] eqn:Hk.
  - apply IH. intros r [= <-]. apply digit_of_nonneg in Hk.
    destruct run as [r0|]; [specialize (Hrun r0 eq_refl)|]; lia.
  - destruct run as [r0|].
    + destruct (unit_follows u (String c s)).
      * intros [= <-]. apply Hrun. reflexivity.
      * apply IH. discriminate.
    + apply IH. discriminate.
Qed.

Lemma Qdiv_nonneg (a b : Q) : (0 <= a)%Q -> (0 <= b)%Q -> (0 <= a / b)%Q.
Proof.
  intros Ha Hb. unfold Qdiv. apply Qmult_le_0_compat; [exact Ha|].
  apply Qinv_le_0_compat. exact Hb.
Qed.

Lemma inject_Z_nonneg (z : Z) : 0 <= z -> (0 <= inject_Z z)%Q.
Proof. intros Hz. change 0%Q with (inject_Z 0). rewrite <- Zle_Qle. exact Hz. Qed.

Lemma parse_time_to_hours_nonneg (s : string) : (0 <= parse_time_to_hours (A := Q) s)%Q.
Proof.
  unfold parse_time_to_hours.
  assert (Hv : forall u v, regex_search_unit u None s = Some v -> (0 <= inject_Z v)%Q).
  { intros u v Hs. apply inject_Z_nonneg.
    apply (regex_search_unit_nonneg u s None v); [discriminate | exact Hs]. }
  cbn [nadd nmul ndiv of_int Q_Num].
  destruct (regex_search_unit "d" None s) as [vd|] eqn:Ed;
  destruct (regex_search_unit "h" None s) as [vh|] eqn:Eh;
  destruct (regex_search_unit "m" None s) as [vm|] eqn:Em;
  destruct (regex_search_unit "s" None s) as [vs|] eqn:Es;
  repeat match goal with
         | E : regex_search_unit _ None s = Some _ |- _ => apply Hv in E
         end;
  repeat match goal with
         | |- (0 <= _ + _)%Q => apply Qle_trans with (0 + 0)%Q; [discriminate|apply Qplus_le_compat]
         | |- (0 <= _ * _)%Q => apply Qmult_le_0_compat
         | |- (0 <= _ / _)%Q => apply Qdiv_nonneg
         | |- _ => assumption
         | |- _ => discriminate
         end.
Qed.

Lemma fold_sum_nonneg {T} (f : T -> Q) (l : list T) : forall acc,
  (0 <= acc)%Q -> List.Forall (fun x => (0 <= f x)%Q) l ->
  (0 <= fold_left (fun acc d => (acc + f d)%Q) l acc)%Q.
Proof.
  induction l as [|x l IH]; intros acc Hacc Hl; cbn [fold_left]; [exact Hacc|].
  inversion Hl as [|? ? Hx Hl']; subst.
  apply IH; [|exact Hl'].
  apply Qle_trans with (0 + 0)%Q; [discriminate | apply Qplus_le_compat; assumption].
Qed.

Lemma sum_over_nonneg (f : FilamentData Q -> Q) (l : list (FilamentData Q)) :
  List.Forall (fun x => (0 <= f x)%Q) l -> (0 <= sum_over f l)%Q.
Proof. intros Hl. unfold sum_over. apply (fold_sum_nonneg f l); [discriminate | exact Hl]. Qed.

Lemma wrap_int_id (z : Z) : (INT_MIN <= z <= INT_MAX)%Z -> wrap_int z = z.
Proof.
  unfold INT_MIN, INT_MAX, wrap_int. intros Hz.
  rewrite Z.mod_small; lia.
Qed.

Ltac nonneg :=
  repeat match goal with
         | |- (0 <= _ + _)%Q => apply Qle_trans with (0 + 0)%Q; [discriminate|apply Qplus_le_compat]
         | |- (0 <= _ * _)%Q => apply Qmult_le_0_compat
         | |- (0 <= _ / _)%Q => apply Qdiv_nonneg
         | |- (0 <= inject_Z _)%Q => apply inject_Z_nonneg; lia
         | |- (0 <= parse_time_to_hours _)%Q => apply parse_time_to_hours_nonneg
         | |- (0 <= sum_over _ _)%Q => apply sum_over_nonneg
         | |- (0 <= match ?x with Some _ => _ | None => _ end)%Q => destruct x
         | |- _ => assumption
         | |- (0 <= 0)%Q => discriminate
         | H : forall c, (0 <= dspin _ c)%Q |- (0 <= dspin _ _)%Q => apply H
         end.

(** X1.  No negative prices.  In exact arithmetic, when every [double]
    control is non-negative, the three lifespans (the divisors of the
    model) are positive, both counts are non-negative with a product that
    fits an [int], and no filament has a negative weight or cost, every
    result of [calculate_costs] is non-negative and the final price is at
    least the cost per part. *)
Theorem results_nonnegative (d : InvoiceDialog Q) :
  (forall c, (0 <= dspin d c)%Q) ->
  (0 < dspin d m_printer_lifespan)%Q ->
  (0 < dspin d m_bed_lifespan)%Q ->
  (0 < dspin d m_nozzle_lifespan_kg)%Q ->
  (0 <= spin d m_parts_per_plate)%Z ->
  (0 <= spin d m_num_plates)%Z ->
  (spin d m_parts_per_plate * spin d m_num_plates <= INT_MAX)%Z ->
  List.Forall (fun f => (0 <= weight_g f)%Q /\ (0 <= calculated_cost f)%Q) (m_filament_data d) ->
  let r := calc (calculate_costs d) in
  (0 <= m_calc_material_cost r)%Q /\ (0 <= m_calc_labor_cost r)%Q
  /\ (0 <= m_calc_machine_cost r)%Q /\ (0 <= m_calc_tooling_cost r)%Q
  /\ (0 <= m_calc_postprocess_cost r)%Q /\ (0 <= m_calc_subtotal r)%Q
  /\ (0 <= m_calc_failure_adjustment r)%Q /\ (0 <= m_calc_cost_per_part r)%Q
  /\ (0 <= m_calc_markup_amount r)%Q
  /\ (m_calc_cost_per_part r <= m_calc_final_price r)%Q
  /\ (0 <= m_calc_total_job_cost r)%Q
  /\ (0 <= m_calc_print_time_hours r)%Q.
Proof.
  intros Hd _ _ _ Hp Hn Hr Hf r.
  assert (Hw : List.Forall (fun f : FilamentData Q => (0 <= weight_g f / 1000)%Q)
                 (m_filament_data d)).
  { eapply List.Forall_impl; [|exact Hf]. intros f [Hwf _].
    apply Qdiv_nonneg; [exact Hwf|discriminate]. }
  assert (Hc : List.Forall (fun f : FilamentData Q => (0 <= calculated_cost f)%Q)
                 (m_filament_data d)).
  { eapply List.Forall_impl; [|exact Hf]. intros f [_ Hcf]. exact Hcf. }
  assert (Hmat : (0 <= m_calc_material_cost r)%Q) by (cbn; nonneg).
  assert (Hlab : (0 <= m_calc_labor_cost r)%Q) by (cbn; nonneg).
  assert (Hmac : (0 <= m_calc_machine_cost r)%Q) by (cbn; nonneg).
  assert (Htool : (0 <= m_calc_tooling_cost r)%Q) by (cbn; nonneg).
  assert (Hpost : (0 <= m_calc_postprocess_cost r)%Q) by (cbn; nonneg).
  assert (Htime : (0 <= m_calc_print_time_hours r)%Q) by (cbn; nonneg).
  assert (Hsub : (0 <= m_calc_subtotal r)%Q).
  { pose proof (calc_subtotal_eq d) as E. cbv zeta in E. fold r in E. rewrite E.
    cbn [nadd Q_Num]. nonneg. }
  assert (Hadj : (0 <= m_calc_failure_adjustment r)%Q).
  { pose proof (calc_failure_adjustment_eq d) as E. cbv zeta in E. fold r in E.
    rewrite E. clear E. cbn [nadd nsub ndiv nltb of_int Q_Num].
    set (s := m_calc_subtotal r) in *. set (f := (dspin d m_failure_rate / inject_Z 100)%Q).
    assert (Hf0 : (0 <= f)%Q) by (unfold f; nonneg).
    destruct (Qltb f (inject_Z 1)) eqn:E; [|discriminate].
    apply Qltb_lt in E. change (inject_Z 1) with 1%Q in *.
    assert (Hne : ~ (1 - f == 0)%Q) by lra.
    assert (Heq : (s / (1 - f) - s == s * f / (1 - f))%Q) by (field; exact Hne).
    rewrite Heq. apply Qdiv_nonneg; [apply Qmult_le_0_compat; assumption | lra]. }
  assert (Hcpp : (0 <= m_calc_cost_per_part r)%Q).
  { pose proof (calc_cost_per_part_eq d) as E. cbv zeta in E. fold r in E. rewrite E.
    cbn [nadd ndiv of_int Q_Num].
    destruct (spin d m_parts_per_plate >? 0)%Z; nonneg. }
  assert (Hmk : (0 <= m_calc_markup_amount r)%Q).
  { change (m_calc_markup_amount r)
      with (m_calc_cost_per_part r * (dspin d m_markup_percent / inject_Z 100))%Q. nonneg. }
  repeat split; try assumption.
  - change (m_calc_final_price r) with (m_calc_cost_per_part r + m_calc_markup_amount r)%Q. lra.
  - change (m_calc_total_job_cost r)
      with ((m_calc_cost_per_part r + m_calc_markup_amount r)
            * inject_Z (wrap_int (spin d m_parts_per_plate * spin d m_num_plates)))%Q.
    rewrite wrap_int_id by (unfold INT_MIN; nia).
    apply Qmult_le_0_compat; [lra|]. apply inject_Z_nonneg. nia.
Qed.

(** X1 on the default controls with one filament that costs 10. *)
Lemma results_nonnegative_witness :
  let r := calc (calculate_costs (sample_dialog [sample_filament (10 : Q)])) in
  (0 <= m_calc_subtotal r)%Q
  /\ (m_calc_cost_per_part r <= m_calc_final_price r)%Q
  /\ (0 <= m_calc_total_job_cost r)%Q.
Proof.
  intros r.
  destruct (results_nonnegative (sample_dialog [sample_filament (10 : Q)]))
    as (_ & _ & _ & _ & _ & Hs & _ & _ & _ & Hp & Ht & _).
  - intros c. destruct c; vm_compute; discriminate.
  - reflexivity.
  - reflexivity.
  - reflexivity.
  - vm_compute. discriminate.
  - vm_compute. discriminate.
  - vm_compute. discriminate.
  - repeat constructor; vm_compute; discriminate.
  - repeat split; assumption.
Defined.

(** X2.  The price chain in exact arithmetic, for lifespans other than 0
    (the divisors of the model, so that the subtotal is finite).  For a
    failure rate below 100 percent the plate cost (subtotal plus
    adjustment) is [subtotal / (1 - f)].  The final price is the cost per
    part times [1 + markup].  And with a positive [parts_per_plate] whose
    product with [num_plates] fits an [int], the parts per plate cancel:
    the total job cost is the plate cost with markup times the number of
    plates. *)
Theorem pricing_chain (d : InvoiceDialog Q) :
  ~ (dspin d m_printer_lifespan == 0)%Q ->
  ~ (dspin d m_bed_lifespan == 0)%Q ->
  ~ (dspin d m_nozzle_lifespan_kg == 0)%Q ->
  let r := calc (calculate_costs d) in
  let f := (dspin d m_failure_rate / 100)%Q in
  let markup := (dspin d m_markup_percent / 100)%Q in
  let total_plate_cost := (m_calc_subtotal r + m_calc_failure_adjustment r)%Q in
  ((f < 1)%Q -> (total_plate_cost == m_calc_subtotal r / (1 - f))%Q)
  /\ (m_calc_final_price r == m_calc_cost_per_part r * (1 + markup))%Q
  /\ ((0 < spin d m_parts_per_plate)%Z ->
      (INT_MIN <= spin d m_parts_per_plate * spin d m_num_plates <= INT_MAX)%Z ->
      (m_calc_total_job_cost r
       == total_plate_cost * (1 + markup) * inject_Z (spin d m_num_plates))%Q).
Proof.
  intros _ _ _ r f markup total_plate_cost.
  assert (Hadj : m_calc_failure_adjustment r =
                 if Qltb f 1 then (m_calc_subtotal r / (1 - f) - m_calc_subtotal r)%Q else 0%Q)
    by reflexivity.
  assert (Hcpp : m_calc_cost_per_part r =
                 if (spin d m_parts_per_plate >? 0)%Z
                 then (total_plate_cost / inject_Z (spin d m_parts_per_plate))%Q
                 else total_plate_cost) by reflexivity.
  assert (Hfin : m_calc_final_price r
                 = (m_calc_cost_per_part r + m_calc_cost_per_part r * markup)%Q) by reflexivity.
  assert (Htot : m_calc_total_job_cost r
                 = (m_calc_final_price r
                    * inject_Z (wrap_int (spin d m_parts_per_plate * spin d m_num_plates)))%Q)
    by reflexivity.
  clearbody markup f.
  split; [|split].
  - intros Hf. unfold total_plate_cost. rewrite Hadj.
    apply Qltb_lt in Hf as Hb. rewrite Hb. ring.
  - rewrite Hfin. ring.
  - intros Hp Hr. rewrite Htot, Hfin, Hcpp, (wrap_int_id _ Hr).
    apply Z.gtb_lt in Hp as Hb. rewrite Hb.
    rewrite inject_Z_mult.
    assert (Hne : ~ (inject_Z (spin d m_parts_per_plate) == 0)%Q).
    { intros Hz. unfold Qeq in Hz. cbn in Hz. lia. }
    clearbody total_plate_cost. field. exact Hne.
Qed.

(** X2 on [edited_dialog]: four parts per plate, one plate, a markup of
    70 percent. *)
Lemma pricing_chain_witness :
  let r := calc (calculate_costs edited_dialog) in
  (m_calc_final_price r == m_calc_cost_per_part r * (1 + 70 / 100))%Q
  /\ (m_calc_total_job_cost r
      == (m_calc_subtotal r + m_calc_failure_adjustment r) * (1 + 70 / 100) * 1)%Q.
Proof.
  intros r.
  assert (Hpl : ~ (dspin edited_dialog m_printer_lifespan == 0)%Q)
    by (vm_compute; discriminate).
  assert (Hbl : ~ (dspin edited_dialog m_bed_lifespan == 0)%Q)
    by (vm_compute; discriminate).
  assert (Hnl : ~ (dspin edited_dialog m_nozzle_lifespan_kg == 0)%Q)
    by (vm_compute; discriminate).
  destruct (pricing_chain edited_dialog Hpl Hbl Hnl) as (_ & Hfin & Htot).
  split; [exact Hfin|].
  apply Htot; vm_compute; [reflexivity | split; discriminate].
Defined.

(** X3.  The markup and the number of plates act downstream only, in every
    arithmetic.  Two states that agree on the filaments, the statistics,
    [parts_per_plate] and every [double] control except the markup get the
    same material, labor, machine, tooling and post-process costs, the same
    subtotal, failure adjustment, cost per part and print time, whatever
    their [num_plates]; if they also agree on the markup, the markup
    amount and the final price are the same too, so that [num_plates]
    reaches the total job cost alone. *)
Theorem markup_and_plates_act_downstream (A : Type) (N : Num A) (d1 d2 : InvoiceDialog A) :
  (forall c, c <> m_markup_percent -> dspin d1 c = dspin d2 c) ->
  spin d1 m_parts_per_plate = spin d2 m_parts_per_plate ->
  m_filament_data d1 = m_filament_data d2 ->
  m_stats d1 = m_stats d2 ->
  let r1 := calc (calculate_costs d1) in
  let r2 := calc (calculate_costs d2) in
  m_calc_material_cost r1 = m_calc_material_cost r2
  /\ m_calc_labor_cost r1 = m_calc_labor_cost r2
  /\ m_calc_machine_cost r1 = m_calc_machine_cost r2
  /\ m_calc_tooling_cost r1 = m_calc_tooling_cost r2
  /\ m_calc_postprocess_cost r1 = m_calc_postprocess_cost r2
  /\ m_calc_subtotal r1 = m_calc_subtotal r2
  /\ m_calc_failure_adjustment r1 = m_calc_failure_adjustment r2
  /\ m_calc_cost_per_part r1 = m_calc_cost_per_part r2
  /\ m_calc_print_time_hours r1 = m_calc_print_time_hours r2
  /\ (dspin d1 m_markup_percent = dspin d2 m_markup_percent ->
      m_calc_markup_amount r1 = m_calc_markup_amount r2
      /\ m_calc_final_price r1 = m_calc_final_price r2).
Proof.
  intros Hd Hs Hf Ht r1 r2. unfold r1, r2, calculate_costs.
  cbn [calc with_calc m_calc_material_cost m_calc_labor_cost m_calc_machine_cost
       m_calc_tooling_cost m_calc_postprocess_cost m_calc_subtotal
       m_calc_failure_adjustment m_calc_cost_per_part m_calc_print_time_hours
       m_calc_markup_amount m_calc_final_price].
  rewrite Hf, Ht, !Hs.
  repeat match goal with
         | |- context [dspin d1 ?c] =>
             lazymatch c with
             | m_markup_percent => fail
             | _ => rewrite (Hd c) by discriminate
             end
         end.
  repeat (split; [reflexivity|]). intros ->. split; reflexivity.
Qed.

(** X3 at one plate against seven, and at a markup of 50 against 80
    percent. *)
Lemma markup_and_plates_act_downstream_witness :
  let d1 := sample_dialog [sample_filament (10 : Q)] in
  let d2 := with_spin d1 (upd (spin d1) m_num_plates 7) in
  let d3 := with_dspin d1 (upd (dspin d1) m_markup_percent (80 : Q)) in
  (m_calc_cost_per_part (calc (calculate_costs d1))
   = m_calc_cost_per_part (calc (calculate_costs d2))
   /\ m_calc_final_price (calc (calculate_costs d1))
      = m_calc_final_price (calc (calculate_costs d2)))
  /\ m_calc_cost_per_part (calc (calculate_costs d1))
     = m_calc_cost_per_part (calc (calculate_costs d3)).
Proof.
  intros d1 d2 d3. split.
  - destruct (markup_and_plates_act_downstream Q Q_Num d1 d2
                (fun c _ => eq_refl) eq_refl eq_refl eq_refl)
      as (_ & _ & _ & _ & _ & _ & _ & Hc & _ & Hm).
    split; [exact Hc | apply Hm; reflexivity].
  - assert (Hd : forall c, c <> m_markup_percent -> dspin d1 c = dspin d3 c).
    { intros c Hc. destruct c; solve [reflexivity | congruence]. }
    destruct (markup_and_plates_act_downstream Q Q_Num d1 d3 Hd eq_refl eq_refl eq_refl)
      as (_ & _ & _ & _ & _ & _ & _ & Hc & _).
    exact Hc.
Defined.

(** ** The print time *)

Lemma regex_search_unit_digit_free (u : ascii) (s : string) :
  digit_free s = true -> regex_search_unit u None s = None.
Proof.
  induction s as [|c s IH]; [reflexivity|]. cbn [digit_free regex_search_unit].
  unfold is_digit. destruct (digit_of c); [discriminate|]. exact IH.
Qed.

Lemma parse_time_to_hours_digit_free {A} `{Num A} (s : string) :
  digit_free s = true -> parse_time_to_hours s = of_int 0.
Proof.
  intros Hs. unfold parse_time_to_hours.
  rewrite !regex_search_unit_digit_free by exact Hs. reflexivity.
Qed.

(** X4.  No print time, no machine cost.  Without slicer statistics, or
    when the statistics' time text holds no digit (it is empty, say), the
    print time is 0 hours; in exact arithmetic and for lifespans other
    than 0 the machine cost is then 0 and the tooling cost is the nozzle
    wear alone. *)
Theorem no_print_time_no_machine_cost (d : InvoiceDialog Q) :
  ~ (dspin d m_printer_lifespan == 0)%Q ->
  ~ (dspin d m_bed_lifespan == 0)%Q ->
  ~ (dspin d m_nozzle_lifespan_kg == 0)%Q ->
  match m_stats d with
  | Some stats => digit_free (estimated_normal_print_time stats) = true
  | None => True
  end ->
  let r := calc (calculate_costs d) in
  m_calc_print_time_hours r = 0%Q
  /\ (m_calc_machine_cost r == 0)%Q
  /\ (m_calc_tooling_cost r
      == dspin d m_nozzle_cost / dspin d m_nozzle_lifespan_kg
         * sum_over (fun f => weight_g f / 1000) (m_filament_data d))%Q.
Proof.
  intros _ _ _ Ht r.
  assert (Htime : m_calc_print_time_hours r = 0%Q).
  { unfold r, calculate_costs. cbn [calc with_calc m_calc_print_time_hours].
    destruct (m_stats d) as [stats|]; [|reflexivity].
    exact (parse_time_to_hours_digit_free (A := Q) _ Ht). }
  assert (Hmac : m_calc_machine_cost r
                 = ((dspin d m_printer_cost / dspin d m_printer_lifespan
                     + dspin d m_maintenance_cost
                     + dspin d m_power_watts / 1000 * dspin d m_electricity_cost)
                    * m_calc_print_time_hours r)%Q) by reflexivity.
  assert (Htool : m_calc_tooling_cost r
                  = (dspin d m_bed_cost / dspin d m_bed_lifespan * m_calc_print_time_hours r
                     + dspin d m_nozzle_cost / dspin d m_nozzle_lifespan_kg
                       * sum_over (fun f => weight_g f / 1000) (m_filament_data d))%Q)
    by reflexivity.
  split; [exact Htime|]. rewrite Hmac, Htool, Htime. split; ring.
Qed.

(** X4 on a dialog without statistics and on one whose time text is
    empty. *)
Lemma no_print_time_no_machine_cost_witness :
  (m_calc_machine_cost (calc (calculate_costs (sample_dialog [sample_filament (10 : Q)])))
   == 0)%Q
  /\ (m_calc_machine_cost
        (calc (calculate_costs (stats_dialog empty_stats bare_presets))) == 0)%Q.
Proof.
  split.
  - apply (no_print_time_no_machine_cost (sample_dialog [sample_filament (10 : Q)]));
      solve [exact I | vm_compute; discriminate].
  - apply (no_print_time_no_machine_cost (stats_dialog empty_stats bare_presets));
      solve [reflexivity | vm_compute; discriminate].
Defined.

Lemma regex_search_unit_run (u : ascii) (rest : string) (d : Decimal.uint) : forall acc,
  regex_search_unit u (Some acc) (NilEmpty.string_of_uint d ++ rest)
  = regex_search_unit u (Some (uint_value acc d)) rest.
Proof.
  induction d; intros acc; cbn [NilEmpty.string_of_uint uint_value];
    [reflexivity|rewrite append_cons; cbn [regex_search_unit]; apply IHd ..].
Qed.

Lemma to_string_int_N (n : N) :
  to_string_int (Z.of_N n) = NilEmpty.string_of_uint (N.to_uint n).
Proof.
  destruct n as [|p]; [reflexivity|].
  unfold to_string_int. cbn [Z.of_N Z.to_int NilZero.string_of_int].
  change (Pos.to_uint p) with (N.to_uint (Npos p)).
  apply string_of_uint_to_uint.
Qed.

(** A component [<n><c>] at the head of the text: the pattern for the unit
    [u] matches there when [c] is [u], and the search goes on behind it
    otherwise. *)
Lemma regex_search_unit_component (u c : ascii) (n : N) (rest : string) :
  digit_of c = None -> is_space c = false ->
  regex_search_unit u None ((to_string_int (Z.of_N n) ++ String c "") ++ rest)
  = if Ascii.eqb c u then Some (Z.of_N n) else regex_search_unit u None rest.
Proof.
  intros Hc Hs. rewrite to_string_int_N, append_assoc, append_cons, append_nil_l.
  destruct (string_of_uint_head n) as (a & s & Hhead & Ha & _).
  assert (Hrun : regex_search_unit u None
                   (NilEmpty.string_of_uint (N.to_uint n) ++ String c rest)
                 = regex_search_unit u (Some 0)
                     (NilEmpty.string_of_uint (N.to_uint n) ++ String c rest)).
  { rewrite Hhead, append_cons. cbn [regex_search_unit]. unfold is_digit in Ha.
    destruct (digit_of a); [reflexivity | discriminate]. }
  rewrite Hrun, regex_search_unit_run, uint_value_to_uint.
  cbn [regex_search_unit unit_follows]. rewrite Hc, Hs.
  destruct (Ascii.eqb c u); reflexivity.
Qed.

Lemma regex_search_unit_space (u : ascii) (rest : string) :
  regex_search_unit u None (String " " rest) = regex_search_unit u None rest.
Proof. reflexivity. Qed.

Lemma regex_search_unit_last (u c : ascii) (n : N) :
  digit_of c = None -> is_space c = false ->
  regex_search_unit u None (to_string_int (Z.of_N n) ++ String c "")
  = if Ascii.eqb c u then Some (Z.of_N n) else None.
Proof.
  intros Hc Hs. rewrite <- (append_nil_r (_ ++ String c "")).
  rewrite (regex_search_unit_component u c n "" Hc Hs). reflexivity.
Qed.

Ltac search_components :=
  repeat first
    [ rewrite regex_search_unit_last by reflexivity
    | rewrite regex_search_unit_component by reflexivity
    | rewrite regex_search_unit_space
    | rewrite append_cons
    | rewrite append_nil_l ].

Lemma regex_search_unit_time_text (d h m s : option N) :
  regex_search_unit "d" None (time_text d h m s) = Z.of_N <$> d
  /\ regex_search_unit "h" None (time_text d h m s) = Z.of_N <$> h
  /\ regex_search_unit "m" None (time_text d h m s) = Z.of_N <$> m
  /\ regex_search_unit "s" None (time_text d h m s) = Z.of_N <$> s.
Proof.
  unfold time_text.
  destruct d as [d|], h as [h|], m as [m|], s as [s|];
    cbn [time_component List.app String.concat fmap option_fmap option_map];
    repeat split; search_components; reflexivity.
Qed.

(** X5.  The print time of a formatted text.  On a text made of the
    components [<n>d], [<n>h], [<n>m], [<n>s] (each optional, in this
    order, separated by one space, each value below 10^308 so that
    [std::stod] returns on it) each of the four patterns of
    [parse_time_to_hours] finds exactly its own component, and in exact
    arithmetic the result is [24 d + h + m / 60 + s / 3600], an absent
    component counting as 0. *)
Theorem parse_time_to_hours_components (d h m s : option N) :
  in_double_range d -> in_double_range h -> in_double_range m -> in_double_range s ->
  (regex_search_unit "d" None (time_text d h m s) = Z.of_N <$> d
   /\ regex_search_unit "h" None (time_text d h m s) = Z.of_N <$> h
   /\ regex_search_unit "m" None (time_text d h m s) = Z.of_N <$> m
   /\ regex_search_unit "s" None (time_text d h m s) = Z.of_N <$> s)
  /\ let value (v : option N) : Q :=
       match v with Some n => inject_Z (Z.of_N n) | None => 0%Q end in
     (parse_time_to_hours (time_text d h m s)
      == value d * 24 + value h + value m / 60 + value s / 3600)%Q.
Proof.
  intros _ _ _ _.
  pose proof (regex_search_unit_time_text d h m s) as Hs.
  split; [exact Hs|]. destruct Hs as (Hd & Hh & Hm & Hs).
  intros value. unfold parse_time_to_hours. rewrite Hd, Hh, Hm, Hs.
  unfold value. cbn [nadd nmul ndiv of_int Q_Num].
  destruct d as [d|], h as [h|], m as [m|], s as [s|];
    cbn [fmap option_fmap option_map];
    repeat match goal with
           | |- context [inject_Z (Z.of_N ?n)] => generalize (inject_Z (Z.of_N n)); intro
           end;
    field.
Qed.

(** The texts [time_text] stands for. *)
Example time_text_ex :
  time_text (Some 1%N) (Some 2%N) (Some 30%N) (Some 15%N) = "1d 2h 30m 15s"
  /\ time_text None None (Some 45%N) (Some 0%N) = "45m 0s"
  /\ time_text None None None None = "".
Proof. repeat split. Qed.

(** X5 on the text [1d 2h 30m 15s]. *)
Lemma parse_time_to_hours_components_witness :
  (parse_time_to_hours "1d 2h 30m 15s" == 1 * 24 + 2 + 30 / 60 + 15 / 3600)%Q.
Proof.
  assert (Hr : forall n, (n < 100)%N -> in_double_range (Some n)).
  { intros n Hn. cbn [in_double_range]. eapply N.lt_trans; [exact Hn|].
    vm_compute. reflexivity. }
  destruct (parse_time_to_hours_components (Some 1%N) (Some 2%N) (Some 30%N) (Some 15%N)
              (Hr 1%N eq_refl) (Hr 2%N eq_refl) (Hr 30%N eq_refl) (Hr 15%N eq_refl))
    as [_ Hv].
  exact Hv.
Defined.


(** ** The filament usage resolver: the cached cost, the edge cases, the
       edit of a price *)

Section ResolverMore.
Context {A : Type} `{Num A} `{NumText A}.
Local Open Scope dbl_scope.

Lemma resolved_entry_consistent presets stats cost density diameter id usage :
  cost_consistent (resolved_entry presets stats cost density diameter id usage).
Proof. reflexivity. Qed.

(** One round of the loop either throws, leaving the list as it was, or
    appends one entry. *)
Lemma resolve_filament_cases presets stats id usage (d : InvoiceDialog A) :
  (exists e, resolve_filament presets stats id usage d = (d, inl e))
  \/ (exists cost density diameter,
        resolve_filament presets stats id usage d =
          (with_filament_data d
             (m_filament_data d ++ [resolved_entry presets stats cost density diameter id usage]),
           inr tt)).
Proof.
  destruct (stod_or (get_val presets "filament_cost" id) (of_int 20)) as [e|cost] eqn:Hc.
  { left. exists e. unfold resolve_filament, bind, call. rewrite Hc. reflexivity. }
  destruct (stod_or (get_val presets "filament_density" id) (lit 124 2)) as [e|density] eqn:Hd.
  { left. exists e. unfold resolve_filament, bind, call. rewrite Hc, Hd. reflexivity. }
  destruct (stod_or (get_val presets "filament_diameter" id) (lit 175 2)) as [e|diameter] eqn:Hm.
  { left. exists e. unfold resolve_filament, bind, call. rewrite Hc, Hd, Hm. reflexivity. }
  right. exists cost, density, diameter. apply resolve_filament_ok; assumption.
Qed.

Lemma for_each_usage_appends presets stats (l : list (nat * A)) :
  forall (d d' : InvoiceDialog A) r,
  for_each_usage (resolve_filament presets stats) l d = (d', r) ->
  exists es, m_filament_data d' = (m_filament_data d ++ es)%list
    /\ List.Forall cost_consistent es.
Proof.
  induction l as [|[id usage] l IH]; intros d d' r Hrun.
  - cbn in Hrun. injection Hrun as <- <-. exists []. rewrite app_nil_r.
    split; [reflexivity | constructor].
  - cbn [for_each_usage] in Hrun. unfold bind at 1 in Hrun.
    destruct (resolve_filament_cases presets stats id usage d)
      as [[e He] | (cost & density & diameter & Hok)].
    + rewrite He in Hrun. injection Hrun as <- <-. exists []. rewrite app_nil_r.
      split; [reflexivity | constructor].
    + rewrite Hok in Hrun. apply IH in Hrun as (es & Hes & Hcc).
      cbn [m_filament_data with_filament_data] in Hes.
      exists (resolved_entry presets stats cost density diameter id usage :: es).
      rewrite Hes, <- app_assoc. split; [reflexivity|].
      constructor; [apply resolved_entry_consistent | exact Hcc].
Qed.

Lemma populate_filament_data_consistent (d d' : InvoiceDialog A) r :
  populate_filament_data d = (d', r) ->
  List.Forall cost_consistent (m_filament_data d').
Proof.
  unfold populate_filament_data, bind, modify.
  cbn [m_stats preset_bundle with_filament_data].
  destruct (m_stats d) as [stats|]; [destruct (preset_bundle d) as [presets|]|].
  2,3: intros [= <- <-]; constructor.
  destruct (for_each_usage _ _ _) as [d1 [e|[]]] eqn:Hrun; intros [= <- <-];
    apply for_each_usage_appends in Hrun as (es & Hes & Hcc);
    cbn [m_filament_data with_filament_data app] in Hes.
  - rewrite Hes. exact Hcc.
  - destruct (m_filament_data d1) as [|f fs] eqn:Hf.
    + destruct (of_int 0 <? total_weight stats); [|rewrite Hf; constructor].
      cbn [m_filament_data with_filament_data]. repeat constructor.
    + rewrite Hf, Hes. exact Hcc.
Qed.

Lemma on_filament_cost_changed_consistent (row col : Z) (new_cost : A) (d : InvoiceDialog A) :
  List.Forall cost_consistent (m_filament_data d) ->
  List.Forall cost_consistent (m_filament_data (on_filament_cost_changed row col new_cost d)).
Proof.
  intros Hcc. unfold on_filament_cost_changed.
  destruct (_ && _)%bool; [|exact Hcc].
  destruct (m_filament_data d !! Z.to_nat row) as [f|] eqn:Hf; [|exact Hcc].
  cbn [m_filament_data calculate_costs with_calc with_filament_data].
  apply Forall_insert; [exact Hcc | reflexivity].
Qed.

Lemma sum_over_ext (f g : FilamentData A -> A) (l : list (FilamentData A)) :
  List.Forall (fun x => f x = g x) l -> sum_over f l = sum_over g l.
Proof.
  unfold sum_over. generalize (of_int 0 : A).
  induction l as [|x l IH]; intros acc Hl; [reflexivity|].
  inversion Hl as [|? ? Hx Hl']; subst. cbn [fold_left]. rewrite Hx. apply IH. exact Hl'.
Qed.

(** X6.  The cost cached in a filament entry is never stale.  Whatever
    [populate_filament_data] does (it may throw part-way), every entry it
    leaves has [calculated_cost = weight_g / 1000 * cost_per_kg]; an edit
    of a price through [on_filament_cost_changed] keeps this, and the
    material cost of the next calculation is the sum of these products. *)
Theorem calculated_cost_is_weight_times_price (d d' : InvoiceDialog A) r
    (row col : Z) (new_cost : A) :
  populate_filament_data d = (d', r) ->
  let d'' := on_filament_cost_changed row col new_cost d' in
  List.Forall cost_consistent (m_filament_data d')
  /\ List.Forall cost_consistent (m_filament_data d'')
  /\ m_calc_material_cost (calc (calculate_costs d''))
     = sum_over (fun f => weight_g f / of_int 1000 * cost_per_kg f) (m_filament_data d'').
Proof.
  intros Hpop d''.
  pose proof (populate_filament_data_consistent d d' r Hpop) as Hcc.
  pose proof (on_filament_cost_changed_consistent row col new_cost d' Hcc) as Hcc'.
  fold d'' in Hcc'. split; [exact Hcc|]. split; [exact Hcc'|].
  change (m_calc_material_cost (calc (calculate_costs d'')))
    with (sum_over calculated_cost (m_filament_data d'')).
  apply sum_over_ext. exact Hcc'.
Qed.

Lemma resolve_filament_list_only presets stats id usage (d d' : InvoiceDialog A) r :
  resolve_filament presets stats id usage d = (d', r) ->
  d' = with_filament_data d (m_filament_data d').
Proof.
  destruct (resolve_filament_cases presets stats id usage d)
    as [[e ->] | (cost & density & diameter & ->)];
    intros [= <- _]; destruct d; reflexivity.
Qed.

Lemma for_each_usage_list_only presets stats (l : list (nat * A)) :
  forall (d d' : InvoiceDialog A) r,
  for_each_usage (resolve_filament presets stats) l d = (d', r) ->
  d' = with_filament_data d (m_filament_data d').
Proof.
  induction l as [|[id usage] l IH]; intros d d' r Hrun.
  - cbn in Hrun. injection Hrun as <- _. destruct d; reflexivity.
  - cbn [for_each_usage] in Hrun. unfold bind at 1 in Hrun.
    destruct (resolve_filament presets stats id usage d) as [d1 [e|[]]] eqn:Hstep;
      apply resolve_filament_list_only in Hstep.
    + injection Hrun as <- _. exact Hstep.
    + apply IH in Hrun. rewrite Hrun, Hstep. reflexivity.
Qed.

Lemma populate_filament_data_list_only (d d' : InvoiceDialog A) r :
  populate_filament_data d = (d', r) ->
  d' = with_filament_data d (m_filament_data d').
Proof.
  unfold populate_filament_data, bind, modify.
  cbn [m_stats preset_bundle with_filament_data].
  destruct (m_stats d) as [stats|]; [destruct (preset_bundle d) as [presets|]|].
  2,3: intros [= <- _]; reflexivity.
  destruct (for_each_usage _ _ _) as [d1 [e|[]]] eqn:Hrun;
    apply for_each_usage_list_only in Hrun; intros [= <- _].
  - rewrite Hrun. reflexivity.
  - rewrite Hrun. cbn [m_filament_data with_filament_data].
    destruct (m_filament_data d1); [destruct (_ <? _)%dbl|]; reflexivity.
Qed.

(** X7.  The resolver starts from scratch and touches the list only.  The
    outcome of [populate_filament_data] does not depend on the entries
    that were in [m_filament_data] before; running it again on its own
    result changes nothing; and without statistics or without a preset
    bundle it returns normally with an empty list. *)
Theorem populate_is_repeatable (d d' : InvoiceDialog A) r (old : list (FilamentData A)) :
  populate_filament_data d = (d', r) ->
  populate_filament_data (with_filament_data d old) = (d', r)
  /\ populate_filament_data d' = (d', r)
  /\ d' = with_filament_data d (m_filament_data d')
  /\ (m_stats d = None \/ preset_bundle d = None -> m_filament_data d' = [] /\ r = inr tt).
Proof.
  intros Hpop.
  assert (Hold : forall l, populate_filament_data (with_filament_data d l)
                           = populate_filament_data d) by reflexivity.
  pose proof (populate_filament_data_list_only d d' r Hpop) as Hlist.
  split; [rewrite Hold; exact Hpop|]. split; [|split; [exact Hlist|]].
  - rewrite Hlist. rewrite Hold. rewrite Hpop. rewrite <- Hlist. reflexivity.
  - intros Hnull. revert Hpop. unfold populate_filament_data, bind, modify.
    cbn [m_stats preset_bundle with_filament_data].
    destruct Hnull as [-> | Hp]; [|rewrite Hp; destruct (m_stats d)];
      intros [= <- <-]; split; reflexivity.
Qed.

(** X8.  One extruder with a known total weight.  When the statistics
    name exactly one extruder and the total weight is positive, the entry
    takes the total weight as its weight (the consumption, the density and
    the diameter do not enter it, though the preset texts for them must
    still parse), and its cost is [total_weight / 1000 * cost_per_kg]. *)
Theorem single_extruder_uses_total_weight (d : InvoiceDialog A) (presets : PresetBundle A)
    (stats : PrintStatistics A) (id : nat) (usage cost density diameter : A) :
  m_stats d = Some stats ->
  preset_bundle d = Some presets ->
  filament_stats stats = [(id, usage)] ->
  (of_int 0 <? total_weight stats) = true ->
  stod_or (get_val presets "filament_cost" id) (of_int 20) = inr cost ->
  stod_or (get_val presets "filament_density" id) (lit 124 2) = inr density ->
  stod_or (get_val presets "filament_diameter" id) (lit 175 2) = inr diameter ->
  exists d' e,
    populate_filament_data d = (d', inr tt)
    /\ m_filament_data d' = [e]
    /\ extruder_id e = id
    /\ weight_g e = total_weight stats
    /\ cost_per_kg e = cost
    /\ calculated_cost e = total_weight stats / of_int 1000 * cost.
Proof.
  intros Hs Hp Hl Hw Hc Hd Hm.
  unfold populate_filament_data, bind, modify.
  cbn [m_stats preset_bundle with_filament_data]. rewrite Hs, Hp, Hl.
  cbn [for_each_usage]. unfold bind at 1.
  rewrite (resolve_filament_ok presets stats cost density diameter id usage _ Hc Hd Hm).
  cbn [ret m_filament_data with_filament_data app].
  eexists. eexists. split; [reflexivity|].
  cbn [m_filament_data with_filament_data]. split; [reflexivity|].
  unfold resolved_entry. cbn [extruder_id weight_g cost_per_kg calculated_cost].
  rewrite Hl. cbn [length Nat.eqb andb]. rewrite Hw. repeat split.
Qed.


(** X10.  An unparsable preset text stops the resolver.  If for some
    extruder the cost, density or diameter text is not empty and
    [std::stod] throws on it, while the texts of the extruders before it
    parse, [populate_filament_data] ends in that exception; it leaves the
    entries of the extruders before it and makes up no default entry. *)
Theorem unparsable_preset_value_throws (d : InvoiceDialog A) (presets : PresetBundle A)
    (stats : PrintStatistics A) (before after : list (nat * A)) (id : nat) (usage : A)
    (cost density diameter : nat -> A) (e : exn) :
  m_stats d = Some stats ->
  preset_bundle d = Some presets ->
  filament_stats stats = (before ++ (id, usage) :: after)%list ->
  (forall i u, In (i, u) before ->
     stod_or (get_val presets "filament_cost" i) (of_int 20) = inr (cost i)
     /\ stod_or (get_val presets "filament_density" i) (lit 124 2) = inr (density i)
     /\ stod_or (get_val presets "filament_diameter" i) (lit 175 2) = inr (diameter i)) ->
  (stod_or (get_val presets "filament_cost" id) (of_int 20) = inl e
   \/ (stod_or (get_val presets "filament_cost" id) (of_int 20) = inr (cost id)
       /\ (stod_or (get_val presets "filament_density" id) (lit 124 2) = inl e
           \/ (stod_or (get_val presets "filament_density" id) (lit 124 2) = inr (density id)
               /\ stod_or (get_val presets "filament_diameter" id) (lit 175 2) = inl e)))) ->
  exists d',
    populate_filament_data d = (d', inl e)
    /\ m_filament_data d' =
         map (fun iu => resolved_entry presets stats (cost iu.1) (density iu.1)
                          (diameter iu.1) iu.1 iu.2) before.
Proof.
  intros Hs Hp Hl Hbefore Hbad.
  assert (Hthrow : forall d0, resolve_filament presets stats id usage d0 = (d0, inl e)).
  { intros d0. unfold resolve_filament, bind, call.
    destruct Hbad as [-> | [-> [-> | [-> ->]]]]; reflexivity. }
  assert (Hloop : forall d0,
            for_each_usage (resolve_filament presets stats) (before ++ (id, usage) :: after) d0
            = (with_filament_data d0
                 (m_filament_data d0 ++
                  map (fun iu => resolved_entry presets stats (cost iu.1) (density iu.1)
                                   (diameter iu.1) iu.1 iu.2) before), inl e)).
  { clear Hl. induction before as [|[i u] before IH]; intros d0.
    - cbn [app for_each_usage map]. unfold bind. rewrite Hthrow, app_nil_r.
      destruct d0; reflexivity.
    - destruct (Hbefore i u (or_introl eq_refl)) as (Hc & Hd & Hm).
      cbn [app for_each_usage map fst snd]. unfold bind at 1.
      rewrite (resolve_filament_ok _ _ _ _ _ _ _ _ Hc Hd Hm).
      rewrite IH by (intros i' u' Hi; apply (Hbefore i' u'); right; exact Hi).
      cbn [m_filament_data with_filament_data]. rewrite <- app_assoc. reflexivity. }
  unfold populate_filament_data, bind, modify.
  cbn [m_stats preset_bundle with_filament_data]. rewrite Hs, Hp, Hl, Hloop.
  eexists. split; reflexivity.
Qed.

End ResolverMore.

Lemma pair_eta {X Y} (p : X * Y) : p = (fst p, snd p).
Proof. destruct p; reflexivity. Qed.

(** X6 on [usage_dialog], with the price of its second filament edited to
    35. *)
Lemma calculated_cost_is_weight_times_price_witness :
  let d' := fst (populate_filament_data usage_dialog) in
  List.Forall cost_consistent (m_filament_data d')
  /\ List.Forall cost_consistent (m_filament_data (on_filament_cost_changed 1 3 (35 : Q) d')).
Proof.
  intros d'.
  destruct (calculated_cost_is_weight_times_price usage_dialog d'
              (snd (populate_filament_data usage_dialog)) 1 3 (35 : Q)
              (pair_eta (populate_filament_data usage_dialog)))
    as (Hcc & Hcc' & _).
  split; assumption.
Defined.

(** X7 on [usage_dialog]. *)
Lemma populate_is_repeatable_witness :
  let d' := fst (populate_filament_data usage_dialog) in
  populate_filament_data d' = populate_filament_data usage_dialog
  /\ length (m_filament_data d') = 2%nat.
Proof.
  intros d'.
  destruct (populate_is_repeatable usage_dialog d'
              (snd (populate_filament_data usage_dialog)) []
              (pair_eta (populate_filament_data usage_dialog)))
    as (_ & Hagain & _).
  split; [rewrite Hagain; symmetry; apply pair_eta | reflexivity].
Defined.

(** X8 on one extruder with a total weight of 12 g and no preset
    options: the entry weighs 12 g and costs [12 / 1000 * 20]. *)
Lemma single_extruder_uses_total_weight_witness :
  exists d' e,
    populate_filament_data (stats_dialog single_stats bare_presets) = (d', inr tt)
    /\ m_filament_data d' = [e]
    /\ extruder_id e = 0%nat
    /\ weight_g e = 12%Q
    /\ cost_per_kg e = 20%Q
    /\ calculated_cost e = (12 / 1000 * 20)%Q.
Proof.
  exact (single_extruder_uses_total_weight (stats_dialog single_stats bare_presets)
           bare_presets single_stats 0%nat 100%Q 20%Q (lit 124 2) (lit 175 2)
           eq_refl eq_refl eq_refl eq_refl eq_refl eq_refl eq_refl).
Defined.


(** X10 on [text_presets]: the cost text of the second extruder is
    [abc]; the entry of the first extruder stays. *)
Lemma unparsable_preset_value_throws_witness :
  exists d',
    populate_filament_data (stats_dialog usage_stats text_presets) = (d', inl invalid_argument)
    /\ length (m_filament_data d') = 1%nat.
Proof.
  assert (Hbefore : forall (i : nat) (u : Q), In (i, u) [(0%nat, 100%Q)] ->
            stod_or (get_val text_presets "filament_cost" i) (of_int 20) = inr 20%Q
            /\ stod_or (get_val text_presets "filament_density" i) (lit 124 2)
               = inr (lit 124 2)
            /\ stod_or (get_val text_presets "filament_diameter" i) (lit 175 2)
               = inr (lit 175 2)).
  { intros i u [[= <- <-]|[]]. repeat split; vm_compute; reflexivity. }
  destruct (unparsable_preset_value_throws (stats_dialog usage_stats text_presets)
              text_presets usage_stats [(0%nat, 100%Q)] [] 1%nat 50%Q
              (fun _ => 20%Q) (fun _ => lit 124 2) (fun _ => lit 175 2) invalid_argument
              eq_refl eq_refl eq_refl Hbefore)
    as (d' & Hrun & Hlist).
  - left. vm_compute. reflexivity.
  - exists d'. split; [exact Hrun|]. rewrite Hlist. reflexivity.
Defined.

Lemma stod_or_preset_value (presets : PresetBundle Q) (key : string) (idx : nat) (def : Q) :
  float_valued (project_config presets !! key) ->
  stod_or (get_val presets key idx) def = inr (preset_value presets key idx def).
Proof.
  unfold float_valued, get_val, preset_value.
  destruct (project_config presets !! key) as [[vs|vs|vs|]|]; try contradiction;
    intros _; try reflexivity.
  destruct (vs !! idx) as [x|]; [|reflexivity].
  unfold stod_or. change (to_string_double x) with (Q_printf_f 6 x).
  rewrite emptyb_Q_printf_f. apply (Q_stod_printf_f 5).
Qed.

(** X11.  Float options never stop the resolver.  Over exact rationals,
    when the cost, density and diameter options are absent or are
    [ConfigOptionFloats], [populate_filament_data] returns normally; each
    value it uses went through [std::to_string] and [std::stod], so it is
    the preset value rounded to six digits after the point (within
    0.0000005 of it), or the default 20, 1.24 or 1.75 where the option has
    no value for the extruder. *)
Theorem float_presets_never_throw (d : InvoiceDialog Q) (presets : PresetBundle Q)
    (stats : PrintStatistics Q) :
  m_stats d = Some stats ->
  preset_bundle d = Some presets ->
  float_valued (project_config presets !! "filament_cost") ->
  float_valued (project_config presets !! "filament_density") ->
  float_valued (project_config presets !! "filament_diameter") ->
  exists d',
    populate_filament_data d = (d', inr tt)
    /\ (filament_stats stats <> [] ->
        m_filament_data d' =
          map (fun iu => resolved_entry presets stats
                           (preset_value presets "filament_cost" iu.1 20)
                           (preset_value presets "filament_density" iu.1 (lit 124 2))
                           (preset_value presets "filament_diameter" iu.1 (lit 175 2))
                           iu.1 iu.2) (filament_stats stats))
    /\ (forall key idx def values x,
          project_config presets !! key = Some (ConfigOptionFloats values) ->
          values !! idx = Some x ->
          (Qabs (preset_value presets key idx def - x) <= 1 # 2000000)%Q).
Proof.
  intros Hs Hp Hc Hd Hm.
  assert (Hall : forall (id : nat) (usage : Q), In (id, usage) (filament_stats stats) ->
            stod_or (get_val presets "filament_cost" id) (of_int 20)
              = inr (preset_value presets "filament_cost" id 20)
            /\ stod_or (get_val presets "filament_density" id) (lit 124 2)
               = inr (preset_value presets "filament_density" id (lit 124 2))
            /\ stod_or (get_val presets "filament_diameter" id) (lit 175 2)
               = inr (preset_value presets "filament_diameter" id (lit 175 2))).
  { intros id usage _. repeat split; apply stod_or_preset_value; assumption. }
  unfold populate_filament_data, bind, modify.
  cbn [m_stats preset_bundle with_filament_data]. rewrite Hs, Hp.
  rewrite (for_each_usage_ok presets stats _ _ _ _ Hall).
  cbn [m_filament_data with_filament_data app].
  eexists. split; [reflexivity|]. split.
  - intros Hne. destruct (filament_stats stats) as [|iu l]; [congruence|]. reflexivity.
  - intros key idx def values x Hk Hx. unfold preset_value. rewrite Hk, Hx.
    apply printed_value_error.
Qed.

(** X11 on [float_presets]: the density 1/3 of the second extruder is
    used as 0.333333. *)
Lemma float_presets_never_throw_witness :
  (exists d', populate_filament_data (stats_dialog usage_stats float_presets) = (d', inr tt))
  /\ (preset_value float_presets "filament_density" 1 (lit 124 2) == 333333 # 1000000)%Q
  /\ (preset_value float_presets "filament_cost" 1 20 == 20)%Q.
Proof.
  destruct (float_presets_never_throw (stats_dialog usage_stats float_presets)
              float_presets usage_stats eq_refl eq_refl)
    as (d' & Hrun & _).
  - vm_compute. exact I.
  - vm_compute. exact I.
  - vm_compute. exact I.
  - split; [exists d'; exact Hrun|]. split; vm_compute; reflexivity.
Defined.


(** ** The job-profile store: the outcomes of a load, the data of a deleted
       profile, profiles side by side *)

Section LoadOutcomeTheorems.
Context {A : Type} `{Num A} `{NumText A}.

(** X13.  A load that throws is not rolled back.  When
    [load_job_profile] ends in an exception, the five customer and job
    text fields already hold the stored texts of the profile; the cached
    results are those from before the call (the closing
    [calculate_costs()] was not reached), and the business name and
    everything outside the controls are unchanged. *)
Theorem failed_load_is_not_rolled_back (profile_name : string) (config : gmap string string)
    (d d' : InvoiceDialog A) (e : exn) :
  app_config d = Some config -> profile_name <> "" ->
  load_job_profile profile_name d = (d', inl e) ->
  (forall c k, txt_key c = Some k ->
     txt d' c = config_get config (profile_prefix profile_name ++ k))
  /\ txt d' m_txt_business_name = txt d m_txt_business_name
  /\ calc d' = calc d
  /\ frame d' = frame d.
Proof.
  intros Hc Hn Hload.
  destruct (load_job_profile_outcome profile_name config d d' _ Hc Hn Hload)
    as (Ht & Hf & Hcalc & _).
  split; [|split; [apply (Ht m_txt_business_name)|split; [apply (Hcalc e eq_refl)|exact Hf]]].
  intros c k Hk. rewrite Ht, Hk. reflexivity.
Qed.

(** X14.  The text fields survive a save and a load.  Whatever the
    outcome of [load_job_profile] after [save_job_profile] under the same
    name (in any arithmetic, and whatever characters the texts hold), the
    six text controls hold what they held before the save. *)
Theorem text_fields_round_trip (profile_name : string) (d d' : InvoiceDialog A) r :
  load_job_profile profile_name (save_job_profile profile_name d) = (d', r) ->
  forall c, txt d' c = txt d c.
Proof.
  intros Hload c.
  destruct (app_config d) as [config|] eqn:Hc;
    [destruct (string_dec profile_name "") as [Hn|Hn]|].
  - rewrite save_load_noop in Hload by (right; exact Hn). injection Hload as <- _. reflexivity.
  - destruct (save_job_profile_store profile_name d config Hc Hn)
      as (config' & Hc' & _ & _ & Htxt & Hsame & _).
    destruct (load_job_profile_outcome profile_name config' _ d' _ Hc' Hn Hload) as (Ht & _).
    rewrite Ht, Hsame. destruct (txt_key c) as [k|] eqn:Hk; [|reflexivity].
    apply Htxt. exact Hk.
  - rewrite save_load_noop in Hload by (left; exact Hc). injection Hload as <- _. reflexivity.
Qed.

End LoadOutcomeTheorems.

(** X13 on [half_stored_dialog]: the customer name Bob is replaced by the
    stored Ann although the load fails at [parts_per_plate]. *)
Lemma failed_load_is_not_rolled_back_witness :
  let d' := fst (load_job_profile "x" half_stored_dialog) in
  txt half_stored_dialog m_txt_customer_name = "Bob"
  /\ txt d' m_txt_customer_name = "Ann"
  /\ calc d' = calc half_stored_dialog.
Proof.
  intros d'.
  assert (Hload : load_job_profile "x" half_stored_dialog = (d', inl invalid_argument)).
  { rewrite (pair_eta (load_job_profile "x" half_stored_dialog)). f_equal;
    vm_compute; reflexivity. }
  destruct (failed_load_is_not_rolled_back "x"
              (<["invoice_job_x_customer_name" := "Ann"]>
                 {[ "invoice_job_x_parts_per_plate" := "abc" ]})
              half_stored_dialog d' invalid_argument eq_refl ltac:(discriminate) Hload)
    as (Ht & _ & Hcalc & _).
  split; [reflexivity|]. split; [|exact Hcalc].
  rewrite (Ht m_txt_customer_name "customer_name" eq_refl). vm_compute. reflexivity.
Defined.

(** X14 on [quoted_dialog]. *)
Lemma text_fields_round_trip_witness :
  txt (fst (load_job_profile "job1" (save_job_profile "job1" quoted_dialog)))
      m_txt_job_description
  = cxx "Tom & Jerry's `Test` <1>".
Proof.
  rewrite (text_fields_round_trip "job1" quoted_dialog _ _
             (pair_eta (load_job_profile "job1" (save_job_profile "job1" quoted_dialog)))).
  reflexivity.
Defined.


Lemma getlines_semicolon_free (s : string) :
  List.Forall (fun p => semicolon_free p = true) (getlines s).
Proof.
  induction s as [|c s IH]; cbn [getlines]; [constructor|].
  destruct (Ascii.eqb c ";") eqn:Ec; [constructor; [reflexivity | exact IH]|].
  destruct (getlines s) as [|item items].
  - constructor; [|constructor]. cbn [semicolon_free]. rewrite Ec. reflexivity.
  - inversion IH as [|? ? Hitem Hitems]; subst. constructor; [|exact Hitems].
    cbn [semicolon_free]. rewrite Ec, Hitem. reflexivity.
Qed.

Lemma filter_comm {T} (f g : T -> bool) (l : list T) :
  List.filter f (List.filter g l) = List.filter g (List.filter f l).
Proof.
  induction l as [|x l IH]; [reflexivity|]. cbn [List.filter].
  destruct (f x) eqn:Ef, (g x) eqn:Eg; cbn [List.filter]; rewrite ?Ef, ?Eg, IH; reflexivity.
Qed.

Lemma Forall_filter_sub {T} (P : T -> Prop) (f : T -> bool) (l : list T) :
  List.Forall P l -> List.Forall P (List.filter f l).
Proof.
  intros Hl. apply List.Forall_forall. intros x Hx. apply filter_In in Hx as [Hx _].
  revert x Hx. apply List.Forall_forall. exact Hl.
Qed.

Section DeleteFacts.
Context {A : Type} `{Num A} `{NumText A}.

(** X16.  A delete hides the name and keeps the data.  For every
    non-empty name and every content of the registry,
    [delete_job_profile] removes the name from the listed profiles and
    from the combo box and changes no other key of the store: the data
    keys of the profile stay, and a later load under the deleted name still
    restores the stored values. *)
Theorem delete_hides_name_keeps_data (profile_name : string) (config : gmap string string)
    (d : InvoiceDialog A) :
  app_config d = Some config -> profile_name <> "" ->
  let d' := delete_job_profile profile_name d in
  list_profiles d'
    = List.filter (fun item => negb (String.eqb item profile_name)) (list_profiles d)
  /\ ~ In profile_name (list_profiles d')
  /\ m_combo_job_profiles d' = list_profiles d'
  /\ (exists config', app_config d' = Some config'
        /\ forall key, key <> "invoice_profiles" -> config' !! key = config !! key)
  /\ (forall (iv : IntCtrl -> Z) (dv : DblCtrl -> A),
        (forall c, get_int_result (config_get config (profile_prefix profile_name ++ int_key c))
                     (default_int c) = inr (iv c)) ->
        (forall c, get_dbl_result (config_get config (profile_prefix profile_name ++ dbl_key c))
                     (default_dbl c) = inr (dv c)) ->
        exists d'', load_job_profile profile_name d' = (d'', inr tt)
          /\ (forall c, spin d'' c = iv c)
          /\ (forall c, dspin d'' c = dv c)
          /\ (forall c k, txt_key c = Some k ->
                txt d'' c = config_get config (profile_prefix profile_name ++ k))).
Proof.
  intros Hc Hn d'.
  set (new_list := joined (List.filter (fun item => negb (String.eqb item profile_name))
                             (getlines (config_get config "invoice_profiles")))).
  assert (Hd' : d' = refresh_job_profiles_combo
                       (with_app_config d (Some (config_set "invoice_profiles" new_list config)))).
  { unfold d', delete_job_profile. rewrite Hc.
    destruct profile_name as [|a n]; [congruence|]. cbn [emptyb].
    rewrite fold_left_delete, append_nil_l. reflexivity. }
  assert (Hreg : registry d' = new_list).
  { rewrite Hd'. unfold registry, refresh_job_profiles_combo.
    cbn [app_config with_app_config with_combo].
    unfold config_set, config_get. rewrite lookup_insert_eq. reflexivity. }
  assert (Hlist : list_profiles d'
                  = List.filter (fun item => negb (String.eqb item profile_name))
                                (list_profiles d)).
  { unfold list_profiles at 1. rewrite Hreg. unfold new_list.
    rewrite getlines_joined by (apply Forall_filter_sub, getlines_semicolon_free).
    rewrite filter_comm. unfold list_profiles, registry. rewrite Hc. reflexivity. }
  assert (Hcfg : app_config d' = Some (config_set "invoice_profiles" new_list config)).
  { rewrite Hd'. reflexivity. }
  split; [exact Hlist|]. split; [|split; [|split]].
  - rewrite Hlist. intros Hin. apply filter_In in Hin as [_ Hne].
    rewrite String.eqb_refl in Hne. discriminate Hne.
  - unfold list_profiles. rewrite Hreg. rewrite Hd'.
    unfold refresh_job_profiles_combo. cbn [app_config with_app_config with_combo
      m_combo_job_profiles].
    unfold config_set, config_get. rewrite lookup_insert_eq. reflexivity.
  - eexists. split; [exact Hcfg|]. intros key Hkey.
    unfold config_set. apply lookup_insert_ne. congruence.
  - intros iv dv Hi Hd.
    assert (Hdata : forall key,
              config_get (config_set "invoice_profiles" new_list config)
                         (profile_prefix profile_name ++ key)
              = config_get config (profile_prefix profile_name ++ key)).
    { intros key. unfold config_set, config_get. rewrite lookup_insert_ne; [reflexivity|].
      intros Heq. symmetry in Heq. revert Heq. apply data_key_not_registry. }
    destruct (load_job_profile_parsed profile_name _ d' iv dv Hcfg Hn)
      as (d'' & Hload & Hi' & Hd'' & Ht & _).
    + intros c. rewrite Hdata. apply Hi.
    + intros c. rewrite Hdata. apply Hd.
    + exists d''. split; [exact Hload|]. split; [exact Hi'|]. split; [exact Hd''|].
      intros c k Hk. rewrite Ht, Hk. apply Hdata.
Qed.
End DeleteFacts.

(** X16 on [edited_dialog] saved as [job1] and deleted. *)
Lemma delete_hides_name_keeps_data_witness :
  let d := save_job_profile "job1" edited_dialog in
  list_profiles d = ["job1"]
  /\ list_profiles (delete_job_profile "job1" d) = []
  /\ exists config',
       app_config (delete_job_profile "job1" d) = Some config'
       /\ config' !! "invoice_job_job1_customer_name" = Some "Bob".
Proof.
  intros d.
  destruct (save_job_profile_store "job1" edited_dialog ∅ eq_refl ltac:(discriminate))
    as (config & Hc & _ & _ & Htxt & _).
  fold d in Hc.
  destruct (delete_hides_name_keeps_data "job1" config d Hc ltac:(discriminate))
    as (Hlist & _ & _ & (config' & Hc' & Hkeys) & _).
  assert (Hl : list_profiles d = ["job1"]) by (vm_compute; reflexivity).
  split; [exact Hl|]. split; [rewrite Hlist, Hl; reflexivity|].
  exists config'. split; [exact Hc'|].
  rewrite Hkeys by discriminate.
  assert (Hsome : app_config d = Some config) by exact Hc.
  clear - Hsome. subst d.
  assert (Hv : match app_config (save_job_profile "job1" edited_dialog) with
               | Some c => c !! "invoice_job_job1_customer_name"
               | None => None
               end = Some "Bob") by (vm_compute; reflexivity).
  rewrite Hsome in Hv. exact Hv.
Defined.

Lemma app_eq_starts_with (l1 l2 r1 r2 : list ascii) :
  (l1 ++ r1 = l2 ++ r2)%list -> starts_with l1 l2 = true \/ starts_with l2 l1 = true.
Proof.
  revert l2. induction l1 as [|a l1 IH]; intros l2 Heq; [left; reflexivity|].
  destruct l2 as [|b l2]; [right; reflexivity|].
  cbn [List.app] in Heq. injection Heq as -> Heq.
  cbn [starts_with]. rewrite Ascii.eqb_refl. cbn [andb]. apply IH. exact Heq.
Qed.

Lemma list_ascii_of_string_inj (s t : string) :
  list_ascii_of_string s = list_ascii_of_string t -> s = t.
Proof.
  intros Heq. rewrite <- (string_of_list_ascii_of_string s), Heq.
  apply string_of_list_ascii_of_string.
Qed.

(** No key suffix, read from the end, is the beginning of another. *)
Lemma key_tails_prefix_free (k k' : string) :
  In k data_keys -> In k' data_keys ->
  starts_with (key_tail k) (key_tail k') = true -> k = k'.
Proof.
  intros Hk Hk' Hs.
  assert (Hall : forallb (fun a => forallb (fun b =>
                    implb (starts_with (key_tail a) (key_tail b)) (String.eqb a b))
                    data_keys) data_keys = true) by (vm_compute; reflexivity).
  rewrite forallb_forall in Hall. specialize (Hall k Hk).
  rewrite forallb_forall in Hall. specialize (Hall k' Hk').
  rewrite Hs in Hall. cbn [implb] in Hall. apply String.eqb_eq. exact Hall.
Qed.

(** A store key determines the profile it belongs to and the field. *)
Lemma profile_key_injective (a b k k' : string) :
  In k data_keys -> In k' data_keys ->
  profile_prefix a ++ k = profile_prefix b ++ k' -> a = b /\ k = k'.
Proof.
  intros Hk Hk' Heq. unfold profile_prefix in Heq.
  rewrite !append_assoc in Heq. apply append_inj_l in Heq.
  apply (f_equal list_ascii_of_string) in Heq.
  rewrite !list_ascii_of_string_app in Heq.
  apply (f_equal (@rev ascii)) in Heq.
  rewrite !rev_app_distr in Heq.
  change (rev (list_ascii_of_string "_")) with ["_"%char] in Heq.
  fold (key_tail k) in Heq. fold (key_tail k') in Heq.
  assert (Hkk : k = k').
  { destruct (app_eq_starts_with _ _ _ _ Heq) as [Hs|Hs].
    - apply key_tails_prefix_free; assumption.
    - symmetry. apply key_tails_prefix_free; assumption. }
  subst k'. split; [|reflexivity].
  apply app_inv_head in Heq. apply (f_equal (@rev ascii)) in Heq.
  rewrite !rev_involutive in Heq. apply list_ascii_of_string_inj. exact Heq.
Qed.

Section IndependenceFacts.
Context {A : Type} `{Num A} `{NumText A}.

Lemma save_profile_fields_other (a b key : string) (d : InvoiceDialog A)
    (config : gmap string string) :
  a <> b -> In key data_keys ->
  config_get (save_profile_fields (profile_prefix b) d config) (profile_prefix a ++ key)
  = config_get config (profile_prefix a ++ key).
Proof.
  intros Hab Hkey. unfold save_profile_fields, config_set, config_get.
  rewrite !lookup_insert_ne; [reflexivity|..].
  all: intros Heq; apply profile_key_injective in Heq as [Heq _];
    [congruence | cbn; tauto | exact Hkey].
Qed.

Lemma register_profile_other (a b key : string) (config : gmap string string) :
  config_get (register_profile b config) (profile_prefix a ++ key)
  = config_get config (profile_prefix a ++ key).
Proof.
  unfold register_profile. destruct (existsb _ _); [reflexivity|].
  unfold config_set, config_get. rewrite lookup_insert_ne; [reflexivity|].
  intros Heq. symmetry in Heq. revert Heq. apply data_key_not_registry.
Qed.

(** X17.  Profiles do not interfere.  For any two different names,
    whatever characters they hold (one may extend the other, with
    underscores or not), [save_job_profile] under the one leaves every
    data key of the other as it was; so a load of the other still yields
    the values stored for it. *)
Theorem profiles_do_not_interfere (a b : string) (config : gmap string string)
    (d : InvoiceDialog A) :
  app_config d = Some config -> a <> b ->
  exists config',
    app_config (save_job_profile b d) = Some config'
    /\ (forall key, In key data_keys ->
          config_get config' (profile_prefix a ++ key)
          = config_get config (profile_prefix a ++ key))
    /\ (forall (iv : IntCtrl -> Z) (dv : DblCtrl -> A),
          a <> "" ->
          (forall c, get_int_result (config_get config (profile_prefix a ++ int_key c))
                       (default_int c) = inr (iv c)) ->
          (forall c, get_dbl_result (config_get config (profile_prefix a ++ dbl_key c))
                       (default_dbl c) = inr (dv c)) ->
          exists d', load_job_profile a (save_job_profile b d) = (d', inr tt)
            /\ (forall c, spin d' c = iv c)
            /\ (forall c, dspin d' c = dv c)
            /\ (forall c k, txt_key c = Some k ->
                  txt d' c = config_get config (profile_prefix a ++ k))).
Proof.
  intros Hc Hab.
  assert (Hstore : exists config',
            app_config (save_job_profile b d) = Some config'
            /\ forall key, In key data_keys ->
                 config_get config' (profile_prefix a ++ key)
                 = config_get config (profile_prefix a ++ key)).
  { unfold save_job_profile. rewrite Hc. destruct b as [|c b].
    - exists config. split; [exact Hc | reflexivity].
    - cbn [emptyb]. eexists. split; [reflexivity|]. intros key Hkey.
      rewrite register_profile_other.
      apply (save_profile_fields_other a (String c b)); assumption. }
  destruct Hstore as (config' & Hc' & Hkeys).
  exists config'. split; [exact Hc'|]. split; [exact Hkeys|].
  intros iv dv Ha Hi Hd.
  destruct data_keys_complete as (Hik & Hdk & Htk).
  destruct (load_job_profile_parsed a config' (save_job_profile b d) iv dv Hc' Ha)
    as (d' & Hload & Hi' & Hd' & Ht & _).
  - intros c. rewrite Hkeys by apply Hik. apply Hi.
  - intros c. rewrite Hkeys by apply Hdk. apply Hd.
  - exists d'. split; [exact Hload|]. split; [exact Hi'|]. split; [exact Hd'|].
    intros c k Hk. rewrite Ht, Hk. apply Hkeys. apply (Htk c). exact Hk.
Qed.

Lemma refresh_lists_registry (d : InvoiceDialog A) (config : gmap string string) :
  let d' := refresh_job_profiles_combo (with_app_config d (Some config)) in
  same_inputs d d' /\ m_combo_job_profiles d' = list_profiles d'.
Proof. repeat split. Qed.

Lemma run_op_keeps (op : ProfileOp) (d : InvoiceDialog A) :
  same_inputs d (run_op d op)
  /\ (m_combo_job_profiles d = list_profiles d ->
      m_combo_job_profiles (run_op d op) = list_profiles (run_op d op))
  /\ (op_name op <> "" -> (exists config, app_config d = Some config) ->
      m_combo_job_profiles (run_op d op) = list_profiles (run_op d op)).
Proof.
  destruct op as [n|n]; cbn [run_op op_name];
    unfold save_job_profile, delete_job_profile;
    (destruct (app_config d) as [config|] eqn:Hc;
       [destruct n as [|a n]; cbn [emptyb]|]).
  all: try (split; [repeat split|]; split; [trivial|]; intros Hn [config' Hc']; congruence).
  all: match goal with
       | |- context [refresh_job_profiles_combo (with_app_config ?d0 (Some ?c))] =>
           destruct (refresh_lists_registry d0 c) as [Hsame Hcombo]
       end; split; [exact Hsame|]; split; intros; exact Hcombo.
Qed.

(** X18.  Saves and deletes touch the store and the combo box only.
    After any sequence of [save_job_profile] and [delete_job_profile]
    calls, with any names, the controls, the cached results, the filament
    list, the statistics and the files are what they were; a combo box
    that showed the listed profiles still does, and one call with a
    non-empty name on an available store is enough to make it do so. *)
Theorem profile_ops_keep_inputs_and_combo (ops : list ProfileOp) (d : InvoiceDialog A) :
  let d' := run_ops ops d in
  (txt d' = txt d /\ spin d' = spin d /\ dspin d' = dspin d /\ calc d' = calc d
   /\ m_filament_data d' = m_filament_data d /\ m_stats d' = m_stats d
   /\ files d' = files d /\ message_boxes d' = message_boxes d)
  /\ (m_combo_job_profiles d = list_profiles d ->
      m_combo_job_profiles d' = list_profiles d')
  /\ ((exists config, app_config d = Some config) ->
      (exists op, In op ops /\ op_name op <> "") ->
      m_combo_job_profiles d' = list_profiles d').
Proof.
  revert d. induction ops as [|op ops IH]; intros d d'.
  - split; [repeat split|]. split; [trivial|]. intros _ (op & [] & _).
  - unfold d'. cbn [run_ops fold_left]. fold (run_ops ops (run_op d op)).
    destruct (run_op_keeps op d) as (Hsame & Hinv & Hnew).
    destruct (IH (run_op d op)) as (Hsame' & Hinv' & Hnew').
    unfold same_inputs in Hsame.
    split; [|split].
    + destruct Hsame as (? & ? & ? & ? & ? & ? & ? & ?).
      destruct Hsame' as (? & ? & ? & ? & ? & ? & ? & ?).
      repeat split; congruence.
    + intros Hsync. apply Hinv', Hinv, Hsync.
    + intros Hcfg (op' & [<-|Hin] & Hname).
      * apply Hinv', Hnew; assumption.
      * apply Hnew'; [|exists op'; split; assumption].
        destruct Hcfg as [config Hc]. destruct op as [n|n]; cbn [run_op];
          unfold save_job_profile, delete_job_profile; rewrite Hc;
          destruct n; cbn [emptyb]; eexists; first [exact Hc | reflexivity].
Qed.
End IndependenceFacts.

(** X17 on the profiles [a] and [a_job]: after [edited_dialog] was saved
    as [a], a save as [a_job] leaves the customer name stored for [a]. *)
Lemma profiles_do_not_interfere_witness :
  let d := save_job_profile "a" edited_dialog in
  exists config',
    app_config (save_job_profile "a_job" d) = Some config'
    /\ config_get config' "invoice_job_a_customer_name" = "Bob".
Proof.
  intros d.
  destruct (save_job_profile_store "a" edited_dialog ∅ eq_refl ltac:(discriminate))
    as (config & Hc & _ & _ & Htxt & _).
  fold d in Hc.
  destruct (profiles_do_not_interfere "a" "a_job" config d Hc ltac:(discriminate))
    as (config' & Hc' & Hkeys & _).
  exists config'. split; [exact Hc'|].
  change "invoice_job_a_customer_name" with (profile_prefix "a" ++ "customer_name").
  rewrite Hkeys by (cbn; tauto).
  apply (Htxt m_txt_customer_name "customer_name" eq_refl).
Defined.

Lemma getlines_nil (s : string) : getlines s = [] -> s = "".
Proof.
  destruct s as [|c s]; [reflexivity|]. cbn [getlines].
  destruct (Ascii.eqb c ";"); [discriminate|].
  destruct (getlines s); discriminate.
Qed.

Lemma joined_getlines (s : string) :
  joined (getlines s) = if terminated s then s else s ++ ";".
Proof.
  induction s as [|c s IH]; [reflexivity|]. cbn [getlines].
  destruct (Ascii.eqb c ";") eqn:Ec.
  - apply Ascii.eqb_eq in Ec. subst c. cbn [joined fold_right]. fold (joined (getlines s)).
    rewrite IH, append_cons, append_nil_l.
    destruct s as [|c' s']; [reflexivity|].
    change (terminated (String ";" (String c' s'))) with (terminated (String c' s')).
    destruct (terminated (String c' s')); reflexivity.
  - destruct (getlines s) as [|item items] eqn:Hg.
    + apply getlines_nil in Hg. subst s. cbn. rewrite Ec. reflexivity.
    + cbn [joined fold_right] in *. rewrite !append_cons, append_assoc.
      rewrite append_assoc in IH. rewrite IH.
      destruct s as [|c' s']; [discriminate Hg|].
      change (terminated (String c (String c' s'))) with (terminated (String c' s')).
      destruct (terminated (String c' s')); reflexivity.
Qed.

Lemma getlines_single (s : string) :
  semicolon_free s = true -> s <> "" -> getlines s = [s].
Proof.
  induction s as [|c s IH]; intros Hs Hne; [congruence|].
  cbn [semicolon_free] in Hs. apply andb_true_iff in Hs as [Hc Hs].
  apply negb_true_iff in Hc. cbn [getlines]. rewrite Hc.
  destruct s as [|c' s']; [reflexivity|].
  rewrite IH by (assumption || discriminate). reflexivity.
Qed.

(** X19.  The registry text and the list of names.  Names without the
    delimiter come back from the text [save_job_profile] builds of them;
    every item read from any registry text is free of the delimiter, and
    writing the items back gives the text itself, completed by a final
    delimiter when it lacked one; a last name without its delimiter is
    still read. *)
Theorem registry_encoding_round_trip :
  (forall names : list string,
     List.Forall (fun p => semicolon_free p = true) names ->
     getlines (join_profiles names) = names)
  /\ (forall s : string,
        List.Forall (fun p => semicolon_free p = true) (getlines s)
        /\ join_profiles (getlines s) = if terminated s then s else s ++ ";")
  /\ (forall (names : list string) (last : string),
        List.Forall (fun p => semicolon_free p = true) names ->
        semicolon_free last = true -> last <> "" ->
        getlines (join_profiles names ++ last) = (names ++ [last])%list).
Proof.
  split; [|split].
  - intros names Hn. rewrite join_profiles_joined. apply getlines_joined. exact Hn.
  - intros s. split; [apply getlines_semicolon_free|].
    rewrite join_profiles_joined. apply joined_getlines.
  - intros names last Hn Hl Hne. rewrite join_profiles_joined.
    induction Hn as [|p names Hp _ IH]; cbn [joined fold_right List.app].
    + rewrite append_nil_l. apply getlines_single; assumption.
    + fold (joined names). rewrite append_assoc, getlines_item by exact Hp.
      rewrite IH. reflexivity.
Qed.


(** ** The report: escaping can be undone, what the report reads, what an
       export touches *)

Lemma escape_xml_app (s t : string) : escape_xml (s ++ t) = escape_xml s ++ escape_xml t.
Proof.
  induction s as [|c s IH]; [reflexivity|].
  rewrite append_cons. cbn [escape_xml]. rewrite IH, append_assoc. reflexivity.
Qed.

Lemma reserved_entity_chars (c : ascii) :
  (c = "&"%char /\ reserved_entity c = Some "&amp;")
  \/ (c = "<"%char /\ reserved_entity c = Some "&lt;")
  \/ (c = ">"%char /\ reserved_entity c = Some "&gt;")
  \/ (c = "034"%char /\ reserved_entity c = Some "&quot;")
  \/ (c = "'"%char /\ reserved_entity c = Some "&apos;")
  \/ (reserved_entity c = None /\ Ascii.eqb c "&" = false).
Proof.
  unfold reserved_entity.
  destruct (Ascii.eqb_spec c "&") as [->|_]; [left; split; reflexivity|].
  destruct (Ascii.eqb_spec c "<") as [->|_]; [right; left; split; reflexivity|].
  destruct (Ascii.eqb_spec c ">") as [->|_]; [right; right; left; split; reflexivity|].
  destruct (Ascii.eqb_spec c "034") as [->|_];
    [right; right; right; left; split; reflexivity|].
  destruct (Ascii.eqb_spec c "'") as [->|_];
    [right; right; right; right; left; split; reflexivity|].
  right; right; right; right; right. split; reflexivity.
Qed.

Lemma unescape_xml_plain (c : ascii) (s : string) :
  Ascii.eqb c "&" = false -> unescape_xml (String c s) = String c (unescape_xml s).
Proof. intros Hc. cbn [unescape_xml]. rewrite Hc. reflexivity. Qed.

Lemma unescape_xml_amp (r : string) :
  unescape_xml (String "&" r) =
    match entity_name r with
    | Some (ch, n) => String ch (drop_chars n (unescape_xml r))
    | None => String "&" (unescape_xml r)
    end.
Proof. reflexivity. Qed.

(** An entity is read back as the character it stands for. *)
Lemma unescape_xml_entity (c : ascii) (e s : string) :
  reserved_entity c = Some e -> unescape_xml (e ++ s) = String c (unescape_xml s).
Proof.
  intros He.
  destruct (reserved_entity_chars c)
    as [[-> H]|[[-> H]|[[-> H]|[[-> H]|[[-> H]|(H & _)]]]]];
    rewrite H in He; try discriminate He; injection He as <-;
    rewrite ?append_cons, ?append_nil_l, unescape_xml_amp;
    rewrite !unescape_xml_plain by reflexivity; reflexivity.
Qed.

Lemma unescape_escape_xml (s : string) : unescape_xml (escape_xml s) = s.
Proof.
  rewrite escape_xml_spec.
  induction s as [|c s IH]; [reflexivity|]. cbn [escape_spec].
  destruct (reserved_entity c) as [e|] eqn:He.
  - rewrite (unescape_xml_entity c e _ He), IH. reflexivity.
  - destruct (reserved_entity_chars c)
      as [[_ H]|[[_ H]|[[_ H]|[[_ H]|[[_ H]|(_ & Hamp)]]]]]; try congruence.
    rewrite unescape_xml_plain by exact Hamp. rewrite IH. reflexivity.
Qed.

(** X20.  Escaping loses nothing.  Reading the five entities back
    ([unescape_xml]) returns every text from its escaped form, so two
    different texts never have the same escaped form; and escaping goes
    through concatenation, so a field escaped on its own reads the same as
    one escaped together with its surroundings. *)
Theorem escape_xml_is_reversible :
  (forall s, unescape_xml (escape_xml s) = s)
  /\ (forall s t, escape_xml s = escape_xml t -> s = t)
  /\ (forall s t, escape_xml (s ++ t) = escape_xml s ++ escape_xml t).
Proof.
  split; [exact unescape_escape_xml|]. split; [|exact escape_xml_app].
  intros s t Heq. rewrite <- (unescape_escape_xml s), Heq. apply unescape_escape_xml.
Qed.

Section ExportMore.
Context {A : Type} `{Num A} `{NumText A}.

(** X21.  What the report reads.  The document depends on the dialog only
    through the six text fields, the two [int] spin controls, the cached
    results and the name, colour and weight of each filament: two dialogs
    that agree on these give the same document, whatever their rates,
    prices per kilogram, cached filament costs, statistics and store. *)
Theorem report_shows_no_unit_costs (date : string) (d1 d2 : InvoiceDialog A) :
  (forall c, txt d1 c = txt d2 c) ->
  (forall c, spin d1 c = spin d2 c) ->
  calc d1 = calc d2 ->
  Forall2 (fun f g => name f = name g /\ color f = color g /\ weight_g f = weight_g g)
          (m_filament_data d1) (m_filament_data d2) ->
  report_chunks date d1 = report_chunks date d2.
Proof.
  intros Ht Hs Hc Hf. unfold report_chunks.
  rewrite !Ht, !Hs, Hc.
  match goal with
  | |- context [flat_map ?F (m_filament_data d1)] =>
      assert (Hfm : flat_map F (m_filament_data d1) = flat_map F (m_filament_data d2))
  end.
  { induction Hf as [|f g l1 l2 (Hn & Hcol & Hw) _ IH]; [reflexivity|].
    cbn [flat_map]. rewrite IH, Hn, Hcol, Hw. reflexivity. }
  rewrite Hfm. reflexivity.
Qed.

(** X22.  An export touches one file and the message list.  When the
    path can be opened, [export_to_excel] leaves every other file, the
    store, the controls, the cached results, the filament list and the
    combo box as they were; a second export to the same path, on whatever
    device, replaces the file by what that device accepts of the same
    document (nothing of the first file stays) and shows the message a
    second time. *)
Theorem export_writes_one_file (path date : string) (device device' : nat -> bool)
    (d : InvoiceDialog A) :
  can_open d path = true ->
  exists d',
    export_to_excel path date device d = (d', inr tt)
    /\ (forall p, p <> path -> files d' !! p = files d !! p)
    /\ app_config d' = app_config d
    /\ txt d' = txt d /\ spin d' = spin d /\ dspin d' = dspin d /\ calc d' = calc d
    /\ m_filament_data d' = m_filament_data d
    /\ m_combo_job_profiles d' = m_combo_job_profiles d
    /\ exists d'',
         export_to_excel path date device' d' = (d'', inr tt)
         /\ files d''
            = <[path := stream_text (accepted device' 0 (report_chunks date d))]> (files d)
         /\ message_boxes d'' =
              (message_boxes d ++ ["Invoice exported successfully.";
                                   "Invoice exported successfully."])%list.
Proof.
  intros Hopen. unfold export_to_excel. rewrite Hopen. cbn [negb].
  eexists. split; [reflexivity|].
  cbn [bind modify files with_files with_message_boxes app_config txt spin dspin calc
       m_filament_data m_combo_job_profiles can_open message_boxes].
  split; [intros p Hp; apply lookup_insert_ne; congruence|].
  repeat (split; [reflexivity|]).
  rewrite Hopen. cbn [negb]. eexists. split; [reflexivity|].
  cbn [files with_files with_message_boxes message_boxes].
  split.
  - rewrite insert_insert_eq, written_fold_insert. cbn [opened written insertions].
    rewrite append_nil_l. reflexivity.
  - rewrite <- List.app_assoc. reflexivity.
Qed.
End ExportMore.

(** X21 on [quoted_dialog] and the same dialog with another markup and
    another cached filament cost. *)
Lemma report_shows_no_unit_costs_witness :
  report_chunks "2024-05-01"
    (with_filament_data
       (with_dspin quoted_dialog (upd (dspin quoted_dialog) m_markup_percent 70%Q))
       [sample_filament (99 : Q)])
  = report_chunks "2024-05-01" quoted_dialog.
Proof.
  apply report_shows_no_unit_costs; try reflexivity.
  apply List.Forall2_cons; [repeat split | apply List.Forall2_nil].
Defined.

(** X22 on [quoted_dialog]: after an export on a reliable device, an
    export on a device that fails after three insertions leaves the first
    three lines only. *)
Lemma export_writes_one_file_witness :
  exists d' d'',
    export_to_excel "invoice.xls" "2024-05-01" reliable quoted_dialog = (d', inr tt)
    /\ export_to_excel "invoice.xls" "2024-05-01" fails_after_three d' = (d'', inr tt)
    /\ files d'' !! "invoice.xls"
       = Some (stream_text (firstn 3 (report_chunks "2024-05-01" quoted_dialog))).
Proof.
  destruct (export_writes_one_file "invoice.xls" "2024-05-01" reliable fails_after_three
              quoted_dialog eq_refl)
    as (d' & Hfirst & _ & _ & _ & _ & _ & _ & _ & _ & d'' & Hsecond & Hfiles & _).
  exists d', d''. split; [exact Hfirst|]. split; [exact Hsecond|].
  rewrite Hfiles, lookup_insert_eq. reflexivity.
Defined.
